(** * UfoSightings: a shallow embedding of the extract / clean / load pipeline

    The development follows [UfoSightings.py].  The program is written
    against pandas, so the file first fixes a small model of the Python and
    pandas primitives the class calls (string methods, [float], the
    [strptime] regular expressions behind [pd.to_datetime], data frames as
    lists of records), then transcribes the methods of the class, and
    finally states and proves the properties.

    Modelling boundaries, stated once:
    - text is ASCII: a Python [str] is a Rocq [string], one character per
      byte;
    - a Python [float] is an IEEE binary64 value, computed with the
      executable reference implementation [SpecFloat] (precision 53,
      exponent bound 1024);
    - a timestamp is an integer count of minutes since 1970-01-01 00:00
      (the formats used carry no seconds), kept within the range of
      pandas' signed 64-bit count of nanoseconds;
    - the diagnostic that [_is_float] prints and the [logging] calls are
      not part of the state, except the final error record of [etl]. *)

From Stdlib Require Import ZArith Bool List Ascii String Lia Btauto.
From Stdlib Require Import Sorting.Permutation Sorting.Sorted.
From Stdlib Require Import Floats.SpecFloat.
From stdpp Require Import gmap strings.

Import ListNotations.
Local Open Scope string_scope.
Local Open Scope list_scope.
Local Open Scope Z_scope.

(** ** Exceptions *)

(** The Python exception classes the pipeline can meet. *)
Inductive exn : Type :=
| ValueError
| KeyError
| TypeError
| AttributeError
| OverflowError
| IOError
| SQLError.

(** A computation that returns or raises. *)
Inductive result (A : Type) : Type :=
| Ok (a : A)
| Raise (e : exn).

Arguments Ok {A} a.
Arguments Raise {A} e.

Definition bind {A B : Type} (m : result A) (k : A -> result B) : result B :=
  match m with
  | Ok a => k a
  | Raise e => Raise e
  end.

Notation "x <- m ;; k" := (bind m (fun x => k))
  (at level 100, m at next level, right associativity).

(** Run [f] over a list, stopping at the first exception. *)
Fixpoint mapM {A B : Type} (f : A -> result B) (l : list A) : result (list B) :=
  match l with
  | [] => Ok []
  | a :: l' => b <- f a ;; bs <- mapM f l' ;; Ok (b :: bs)
  end.

Definition is_ok {A : Type} (m : result A) : bool :=
  match m with Ok _ => true | Raise _ => false end.

(** ** Python strings *)

Module PyStr.

(** [str.isspace] on the ASCII range: TAB..CR, FS..US and the blank. *)
Definition is_space (c : ascii) : bool :=
  let n := nat_of_ascii c in
  ((9 <=? n)%nat && (n <=? 13)%nat) || ((28 <=? n)%nat && (n <=? 32)%nat).

(** The blanks of C's [isspace], which [float] skips on an ASCII
    string: TAB..CR and the blank. *)
Definition is_c_space (c : ascii) : bool :=
  let n := nat_of_ascii c in
  ((9 <=? n)%nat && (n <=? 13)%nat) || (n =? 32)%nat.

Fixpoint lstrip_with (blank : ascii -> bool) (s : string) : string :=
  match s with
  | String c r => if blank c then lstrip_with blank r else s
  | EmptyString => EmptyString
  end.

(** A character is kept when it is not a blank or when something
    survives to its right. *)
Fixpoint rstrip_with (blank : ascii -> bool) (s : string) : string :=
  match s with
  | String c r =>
      match rstrip_with blank r with
      | EmptyString => if blank c then EmptyString else String c EmptyString
      | r' => String c r'
      end
  | EmptyString => EmptyString
  end.

Definition lstrip (s : string) : string := lstrip_with is_space s.
Definition rstrip (s : string) : string := rstrip_with is_space s.

(** [s.strip()] *)
Definition strip (s : string) : string := rstrip (lstrip s).

(** The leading and trailing blanks [float] passes over. *)
Definition strip_c (s : string) : string :=
  rstrip_with is_c_space (lstrip_with is_c_space s).

(** [s.startswith(p)] *)
Fixpoint startswith (p s : string) : bool :=
  match p, s with
  | EmptyString, _ => true
  | String a p', String b s' => Ascii.eqb a b && startswith p' s'
  | String _ _, EmptyString => false
  end.

(** [p in s] *)
Fixpoint contains (p s : string) : bool :=
  startswith p s ||
  match s with
  | String _ r => contains p r
  | EmptyString => false
  end.

(** [s.replace(p, r)] for a non-empty [p]: occurrences are replaced from
    left to right and do not overlap.  [skip] counts the characters of
    the occurrence just replaced that are still to be passed over. *)
Fixpoint replace_from (p r : string) (skip : nat) (s : string) : string :=
  match s with
  | EmptyString => EmptyString
  | String c s' =>
      match skip with
      | S k => replace_from p r k s'
      | O =>
          if startswith p s
          then String.append r (replace_from p r (Nat.pred (String.length p)) s')
          else String c (replace_from p r O s')
      end
  end.

Definition replace (p r s : string) : string := replace_from p r O s.

(** Lower-casing, for the case-insensitive words of [float]. *)
Definition lower_char (c : ascii) : ascii :=
  let n := nat_of_ascii c in
  if ((65 <=? n)%nat && (n <=? 90)%nat)%bool then ascii_of_nat (n + 32) else c.

Fixpoint lower (s : string) : string :=
  match s with
  | String c r => String (lower_char c) (lower r)
  | EmptyString => EmptyString
  end.

Definition is_digit (c : ascii) : bool :=
  let n := nat_of_ascii c in ((48 <=? n)%nat && (n <=? 57)%nat)%bool.

Definition digit_val (c : ascii) : Z := Z.of_nat (nat_of_ascii c) - 48.

(** [lo <= c <= hi] on characters, as in a regular-expression class. *)
Definition between (lo hi c : ascii) : bool :=
  ((nat_of_ascii lo <=? nat_of_ascii c)%nat &&
   (nat_of_ascii c <=? nat_of_ascii hi)%nat)%bool.

End PyStr.

(** ** Python floats *)

Module PyFloat.

Import PyStr.

Definition prec : Z := 53.
Definition emax : Z := 1024.

(** A Python [float]: an IEEE binary64 datum. *)
Definition float : Type := spec_float.

Definition nan : float := S754_nan.
Definition inf (neg : bool) : float := S754_infinity neg.

(** [float(n)] for an integer [n], rounded to nearest even. *)
Definition of_Z (n : Z) : float := binary_normalize prec emax n 0 false.

Definition mul (x y : float) : float := SFmul prec emax x y.

(** The correctly rounded value of [(-1)^neg * m * 10^e10], as [float] of
    a decimal literal computes it. *)
Definition of_decimal (neg : bool) (m e10 : Z) : float :=
  match m with
  | Zpos p =>
      if 0 <=? e10
      then binary_normalize prec emax (cond_Zopp neg (Zpos p * 10 ^ e10)) 0 neg
      else SFdiv prec emax (S754_finite neg p 0)
                 (S754_finite false (Z.to_pos (10 ^ (- e10))) 0)
  | _ => S754_zero neg
  end.

Definition isnan (x : float) : bool :=
  match x with S754_nan => true | _ => false end.

(** [math.isfinite] *)
Definition isfinite (x : float) : bool :=
  match x with S754_nan | S754_infinity _ => false | _ => true end.

(** [x < 0.0] *)
Definition is_negative (x : float) : bool :=
  SFltb x (S754_zero false).

(** [x >= 0.0]; false on NaN, as every comparison with NaN is. *)
Definition is_nonnegative (x : float) : bool :=
  SFleb (S754_zero false) x.

(** The literal [1.2]. *)
Definition lit_1_2 : float := of_decimal false 12 (-1).

(** [math.ceil]: the least integer not below [x]; NaN raises
    [ValueError] and an infinity [OverflowError]. *)
Definition ceil (x : float) : result Z :=
  match x with
  | S754_nan => Raise ValueError
  | S754_infinity _ => Raise OverflowError
  | S754_zero _ => Ok 0
  | S754_finite s m e =>
      let n := if s then Zneg m else Zpos m in
      Ok (if 0 <=? e then n * 2 ^ e else - ((- n) / 2 ^ (- e)))
  end.

(** *** The grammar of [float(str)]

    [floatvalue ::= [sign] (floatnumber | "inf" | "infinity" | "nan")],
    case-insensitive, surrounded by optional blanks (those of C's
    [isspace]);
    [digitpart ::= digit (["_"] digit)*];
    [number ::= [digitpart] "." digitpart | digitpart ["."]];
    [exponent ::= ("e" | "E") [sign] digitpart]. *)

Definition split_sign (s : string) : bool * string :=
  match s with
  | String "-" r => (true, r)
  | String "+" r => (false, r)
  | _ => (false, s)
  end.

(** The rest of a [digitpart] once a digit has been read: [acc] is the
    value of the digits so far and [n] their number. *)
Fixpoint digitpart_tail (acc : Z) (n : nat) (s : string) : Z * nat * string :=
  match s with
  | String c r =>
      if is_digit c then digitpart_tail (10 * acc + digit_val c) (S n) r
      else if Ascii.eqb c "_" then
        match r with
        | String d r' =>
            if is_digit d
            then digitpart_tail (10 * acc + digit_val d) (S n) r'
            else (acc, n, s)
        | EmptyString => (acc, n, s)
        end
      else (acc, n, s)
  | EmptyString => (acc, n, s)
  end.

Definition digitpart (acc : Z) (s : string) : option (Z * nat * string) :=
  match s with
  | String c r =>
      if is_digit c then Some (digitpart_tail (10 * acc + digit_val c) 1 r)
      else None
  | EmptyString => None
  end.

(** [number]: the digits read as one integer, and how many of them stood
    after the point. *)
Definition number (s : string) : option (Z * nat * string) :=
  match s with
  | String "." r => digitpart 0 r
  | _ =>
      match digitpart 0 s with
      | Some (i, _, String "." r) =>
          match digitpart i r with
          | Some res => Some res
          | None => Some (i, O, r)
          end
      | Some (i, _, r) => Some (i, O, r)
      | None => None
      end
  end.

Definition exponent (s : string) : option (Z * string) :=
  match s with
  | String c r =>
      if Ascii.eqb (lower_char c) "e" then
        let (neg, r') := split_sign r in
        match digitpart 0 r' with
        | Some (x, _, rest) => Some (if neg then - x else x, rest)
        | None => None
        end
      else Some (0, s)
  | EmptyString => Some (0, s)
  end.

(** [float(s)] for a string; [None] is the [ValueError]. *)
Definition of_string (s : string) : option float :=
  let (neg, body) := split_sign (strip_c s) in
  let word := lower body in
  if (String.eqb word "inf" || String.eqb word "infinity")%bool
  then Some (inf neg)
  else if String.eqb word "nan" then Some nan
  else
    match number body with
    | Some (m, nfrac, r) =>
        match exponent r with
        | Some (x, EmptyString) => Some (of_decimal neg m (x - Z.of_nat nfrac))
        | _ => None
        end
    | None => None
    end.

End PyFloat.

(** ** Calendar and timestamps *)

Module PyTime.

(** Minutes since 1970-01-01 00:00. *)
Definition Timestamp : Type := Z.

Definition is_leap (y : Z) : bool :=
  (y mod 4 =? 0) && (negb (y mod 100 =? 0) || (y mod 400 =? 0)).

Definition days_in_month (y m : Z) : Z :=
  if m =? 2 then (if is_leap y then 29 else 28)
  else if (m =? 4) || (m =? 6) || (m =? 9) || (m =? 11) then 30
  else 31.

(** Days of the year before the first day of month [m]. *)
Definition days_before_month (y m : Z) : Z :=
  fold_right Z.add 0
    (map (days_in_month y) (map Z.of_nat (seq 1 (Z.to_nat (m - 1))))).

(** Days before January 1st of year [y], counted from 0001-01-01. *)
Definition days_before_year (y : Z) : Z :=
  let p := y - 1 in p * 365 + p / 4 - p / 100 + p / 400.

(** The proleptic Gregorian ordinal: 0001-01-01 is day 1. *)
Definition ymd2ord (y m d : Z) : Z :=
  days_before_year y + days_before_month y m + d.

Definition epoch_ordinal : Z := 719163.

Definition minutes_per_day : Z := 1440.

(** The timestamp of a civil date and time of day. *)
Definition civil (y m d hh mm : Z) : Timestamp :=
  (ymd2ord y m d - epoch_ordinal) * minutes_per_day + hh * 60 + mm.

(** [timedelta(days=n)], in minutes. *)
Definition timedelta_days (n : Z) : Z := n * minutes_per_day.

(** pandas keeps a timestamp as a signed 64-bit count of nanoseconds, the
    least value being kept for the missing timestamp. *)
Definition ns_per_minute : Z := 60000000000.

Definition in_bounds (t : Timestamp) : bool :=
  (- (2 ^ 63 - 1) <=? t * ns_per_minute) && (t * ns_per_minute <=? 2 ^ 63 - 1).

Definition valid_date (y m d : Z) : bool :=
  (1 <=? y) && (1 <=? m) && (m <=? 12) && (1 <=? d) && (d <=? days_in_month y m).

End PyTime.

(** ** The regular expressions of [strptime]

    A format is compiled to a regular expression, one group per directive;
    the input is matched from its first character with the usual
    backtracking priorities, and the match has to end where the string
    ends.  A matcher returns every way to match, best first. *)

Module Strptime.

Import PyStr PyTime.

Definition matcher (A : Type) : Type := string -> list (A * string).

Definition pure {A : Type} (a : A) : matcher A := fun s => [(a, s)].

Definition seq_ {A B : Type} (p : matcher A) (k : A -> matcher B) : matcher B :=
  fun s => flat_map (fun '(a, r) => k a r) (p s).

Definition alt {A : Type} (p q : matcher A) : matcher A :=
  fun s => p s ++ q s.

Notation "x <~ p ;; k" := (seq_ p (fun x => k))
  (at level 100, p at next level, right associativity).
Notation "p ~> k" := (seq_ p (fun _ => k))
  (at level 100, right associativity).
Infix "<|>" := alt (at level 50, left associativity).

(** One character of the class [c1], read as a digit. *)
Definition d1 (c1 : ascii -> bool) : matcher Z :=
  fun s =>
    match s with
    | String a r => if c1 a then [(digit_val a, r)] else []
    | EmptyString => []
    end.

(** Two characters of the classes [c1] and [c2], read as a number. *)
Definition d2 (c1 c2 : ascii -> bool) : matcher Z :=
  x <~ d1 c1 ;; y <~ d1 c2 ;; pure (10 * x + y).

Definition lit (c : ascii) : matcher unit :=
  fun s =>
    match s with
    | String a r => if Ascii.eqb a c then [(tt, r)] else []
    | EmptyString => []
    end.

(** [\s+]: the longest run of blanks first. *)
Fixpoint blanks (s : string) : list (unit * string) :=
  match s with
  | String a r => if is_space a then blanks r ++ [(tt, r)] else []
  | EmptyString => []
  end.

Definition chr (c : ascii) : ascii -> bool := Ascii.eqb c.

(** [%m]: [1[0-2]|0[1-9]|[1-9]] *)
Definition re_m : matcher Z :=
  d2 (chr "1") (between "0" "2") <|> d2 (chr "0") (between "1" "9")
  <|> d1 (between "1" "9").

(** [%d]: [3[0-1]|[1-2]\d|0[1-9]|[1-9]| [1-9]] *)
Definition re_d : matcher Z :=
  d2 (chr "3") (between "0" "1") <|> d2 (between "1" "2") is_digit
  <|> d2 (chr "0") (between "1" "9") <|> d1 (between "1" "9")
  <|> (lit " " ~> d1 (between "1" "9")).

(** [%Y]: [\d\d\d\d] *)
Definition re_Y : matcher Z :=
  a <~ d2 is_digit is_digit ;; b <~ d2 is_digit is_digit ;; pure (100 * a + b).

(** [%H]: [2[0-3]|[0-1]\d|\d] *)
Definition re_H : matcher Z :=
  d2 (chr "2") (between "0" "3") <|> d2 (between "0" "1") is_digit
  <|> d1 is_digit.

(** [%M]: [[0-5]\d|\d] *)
Definition re_M : matcher Z :=
  d2 (between "0" "5") is_digit <|> d1 is_digit.

(** The two formats of the program. *)
Inductive format : Type :=
| fmt_mdY_HM   (* '%m/%d/%Y %H:%M' *)
| fmt_mdY.     (* '%m/%d/%Y' *)

Definition re_date : matcher (Z * Z * Z) :=
  m <~ re_m ;; lit "/" ~> d <~ re_d ;; lit "/" ~> y <~ re_Y ;;
  pure (y, m, d).

Definition regex (f : format) : matcher (Z * Z * Z * Z * Z) :=
  match f with
  | fmt_mdY_HM =>
      ymd <~ re_date ;; blanks ~> hh <~ re_H ;; lit ":" ~>
      mm <~ re_M ;; pure (ymd, hh, mm)
  | fmt_mdY => ymd <~ re_date ;; pure (ymd, 0, 0)
  end.

(** [strptime] with exact matching: the first match of the expression,
    which has to consume the whole string; then the date has to exist. *)
Definition strptime (f : format) (s : string) : result Timestamp :=
  match regex f s with
  | (y, m, d, hh, mm, EmptyString) :: _ =>
      if valid_date y m d then Ok (civil y m d hh mm) else Raise ValueError
  | _ => Raise ValueError
  end.

End Strptime.

(** ** Data frames

    A frame is a header (column labels with their dtypes, in order) and a
    list of rows; a row is an association list from column label to cell,
    in header order.  Labels may repeat (after renaming), so the lists are
    kept as they are rather than turned into maps. *)

Module Pandas.

Import PyStr PyFloat PyTime Strptime.

Inductive dtype : Type :=
| DObject      (* text as read, or anything boxed *)
| DFloat       (* float64 *)
| DDatetime.   (* datetime64 *)

(** What a cell holds.  A missing field of a text or float column is the
    float NaN, as pandas stores it; [VNaT] is the missing timestamp. *)
Inductive cell : Type :=
| VStr (s : string)
| VFloat (x : float)
| VTime (t : Timestamp)
| VNaT.

Definition NaN : cell := VFloat nan.

Abbreviation Row := (list (string * cell)).

Record DataFrame : Type := mkDataFrame
  { columns : list (string * dtype);
    rows : list Row }.

Record Series : Type := mkSeries
  { s_dtype : dtype;
    values : list cell }.

Definition dtype_eqb (a b : dtype) : bool :=
  match a, b with
  | DObject, DObject | DFloat, DFloat | DDatetime, DDatetime => true
  | _, _ => false
  end.

(** The entries of an association list under a label. *)
Definition named {A : Type} (name : string) (l : list (string * A)) : list A :=
  map snd (List.filter (fun p => String.eqb (fst p) name) l).

Definition has_label {A : Type} (name : string) (l : list (string * A)) : bool :=
  existsb (fun p => String.eqb (fst p) name) l.

(** The cell of a row under a label that occurs once. *)
Definition cell_of (name : string) (r : Row) : option cell :=
  match named name r with
  | [c] => Some c
  | _ => None
  end.

(** [l[name] = v]: every entry under the label is overwritten; a new
    label is appended. *)
Definition assign {A : Type} (name : string) (v : A) (l : list (string * A))
  : list (string * A) :=
  if has_label name l
  then map (fun p => if String.eqb (fst p) name then (name, v) else p) l
  else l ++ [(name, v)].

Definition remove {A : Type} (names : list string) (l : list (string * A))
  : list (string * A) :=
  List.filter (fun p => negb (existsb (String.eqb (fst p)) names)) l.

(** [df[name]] read as a Series.  An absent label raises [KeyError]; a
    repeated label selects a frame, on which each use the program makes
    of the result raises. *)
Definition get_item (name : string) (df : DataFrame) : result Series :=
  match named name (columns df) with
  | [] => Raise KeyError
  | [dt] =>
      vs <- mapM (fun r => match cell_of name r with
                           | Some c => Ok c
                           | None => Raise KeyError
                           end) (rows df) ;;
      Ok (mkSeries dt vs)
  | _ => Raise AttributeError
  end.

(** [df[name] = s] *)
Definition set_item (name : string) (s : Series) (df : DataFrame)
  : result DataFrame :=
  if Nat.eqb (List.length (values s)) (List.length (rows df))
  then Ok (mkDataFrame (assign name (s_dtype s) (columns df))
                       (zip_with (fun r v => assign name v r) (rows df) (values s)))
  else Raise ValueError.

(** [df.drop(columns=names, inplace=True)] *)
Definition drop (names : list string) (df : DataFrame) : result DataFrame :=
  if forallb (fun n => has_label n (columns df)) names
  then Ok (mkDataFrame (remove names (columns df)) (map (remove names) (rows df)))
  else Raise KeyError.

Definition relabel {A : Type} (f : string -> string) (l : list (string * A))
  : list (string * A) :=
  map (fun p => (f (fst p), snd p)) l.

(** [df.rename(columns=f)] *)
Definition rename (f : string -> string) (df : DataFrame) : DataFrame :=
  mkDataFrame (relabel f (columns df)) (map (relabel f) (rows df)).

(** [df[mask]] for the Series [mask] that [apply] returns.  On a Series
    without elements [apply] gives back an empty Series of the same
    (non-boolean) dtype, which indexing reads as an empty list of column
    labels: the result keeps the index and has no column. *)
Definition select (mask : list bool) (df : DataFrame) : DataFrame :=
  match mask with
  | [] => mkDataFrame [] (map (fun _ => []) (rows df))
  | _ => mkDataFrame (columns df)
                     (map snd (List.filter fst (combine mask (rows df))))
  end.

(** [float(c)] for a cell. *)
Definition to_float (c : cell) : result float :=
  match c with
  | VStr s => match of_string s with Some x => Ok x | None => Raise ValueError end
  | VFloat x => Ok x
  | VTime _ | VNaT => Raise TypeError
  end.

(** [df.astype({name: float})] *)
Definition astype_float (name : string) (df : DataFrame) : result DataFrame :=
  s <- get_item name df ;;
  xs <- mapM to_float (values s) ;;
  set_item name (mkSeries DFloat (map VFloat xs)) df.

(** *** The [.str] accessor *)

Definition str_accessor (s : Series) : result (list cell) :=
  match s_dtype s with
  | DObject => Ok (values s)
  | _ => Raise AttributeError
  end.

(** [s.str.replace(p, r)]: a cell that is not a string gives NaN. *)
Definition replace_cell (p r : string) (c : cell) : cell :=
  match c with
  | VStr x => VStr (replace p r x)
  | _ => NaN
  end.

Definition str_replace (p r : string) (s : Series) : result Series :=
  vs <- str_accessor s ;;
  Ok (mkSeries DObject (map (replace_cell p r) vs)).

(** [s.str.contains(p)]: [None] is the NaN of a cell that is not a
    string. *)
Definition contains_cell (p : string) (c : cell) : option bool :=
  match c with
  | VStr x => Some (contains p x)
  | _ => None
  end.

Definition str_contains (p : string) (s : Series) : result (list (option bool)) :=
  vs <- str_accessor s ;;
  Ok (map (contains_cell p) vs).

(** [s.str.len()] *)
Definition str_len (s : Series) : result (list (option Z)) :=
  vs <- str_accessor s ;;
  Ok (map (fun c => match c with
                    | VStr x => Some (Z.of_nat (String.length x))
                    | _ => None
                    end) vs).

(** [.max()] skips the missing values; [None] is the NaN it returns when
    nothing is left. *)
Fixpoint series_max (l : list (option Z)) : option Z :=
  match l with
  | [] => None
  | None :: t => series_max t
  | Some n :: t =>
      match series_max t with
      | Some m => Some (Z.max n m)
      | None => Some n
      end
  end.

(** *** [pd.to_datetime(s, format=f)] *)

Definition nat_strings : list string := ["NaT"; "nat"; "NAT"; "nan"; "NaN"; "NAN"].

Definition to_datetime_cell (f : format) (c : cell) : result cell :=
  match c with
  | VStr s =>
      if (String.eqb s "" || existsb (String.eqb s) nat_strings)%bool
      then Ok VNaT
      else t <- strptime f s ;;
           if in_bounds t then Ok (VTime t) else Raise ValueError
  | VFloat x => if isnan x then Ok VNaT else Raise ValueError
  | VTime t => Ok (VTime t)
  | VNaT => Ok VNaT
  end.

Definition to_datetime (f : format) (s : Series) : result Series :=
  vs <- mapM (to_datetime_cell f) (values s) ;;
  Ok (mkSeries DDatetime vs).

(** The timedelta each flag stands for: [td] for true, none for false. *)
Definition timedeltas (check : list (option bool)) (td : Z) : list (option Z) :=
  map (fun b => match b with
                | Some true => Some td
                | Some false => Some 0
                | None => None
                end) check.

Definition is_flag (b : option bool) : bool :=
  match b with Some _ => true | None => false end.

(** [check * td] for the Series [str.contains] returns and a timedelta.
    With a NaN among the flags the Series is of dtype object, and the
    product raises [TypeError]. *)
Definition mul_timedelta (check : list (option bool)) (td : Z)
  : result (list (option Z)) :=
  if forallb is_flag check then Ok (timedeltas check td) else Raise TypeError.

(** One timestamp plus one timedelta; the missing timestamp stays
    missing. *)
Definition add_cell (c : cell) (d : option Z) : cell :=
  match c, d with
  | VTime t, Some x => VTime (t + x)
  | _, _ => VNaT
  end.

Definition cell_in_bounds (c : cell) : bool :=
  match c with
  | VTime t => in_bounds t
  | _ => true
  end.

(** [s + deltas] for a datetime Series; a sum outside the 64-bit range
    raises. *)
Definition add_timedelta (s : Series) (deltas : list (option Z)) : result Series :=
  let vs := zip_with add_cell (values s) deltas in
  if forallb cell_in_bounds vs then Ok (mkSeries DDatetime vs) else Raise OverflowError.

(** What a use that needs a Series raises when the selection is a frame
    (a repeated label) and the use is not an attribute access. *)
Definition on_frame {A : Type} (e : exn) (r : result A) : result A :=
  match r with
  | Raise AttributeError => Raise e
  | _ => r
  end.

(** *** [df.sort_values(by=name)] *)

Definition isna (c : cell) : bool :=
  match c with
  | VFloat x => isnan x
  | VNaT => true
  | _ => false
  end.

(** The order of two cells of one kind; missing values go last. *)
Definition cell_leb (a b : cell) : bool :=
  if isna b then true
  else if isna a then false
  else match a, b with
       | VStr x, VStr y => String.leb x y
       | VFloat x, VFloat y => SFleb x y
       | VTime x, VTime y => x <=? y
       | _, _ => false
       end.

Definition same_kind (a b : cell) : bool :=
  match a, b with
  | VStr _, VStr _ | VFloat _, VFloat _ | VTime _, VTime _ => true
  | _, _ => false
  end.

(** Python cannot order a string against a number. *)
Fixpoint comparable (l : list cell) : bool :=
  match l with
  | [] => true
  | a :: t =>
      (isna a || forallb (fun b => isna b || same_kind a b) t) && comparable t
  end.

Fixpoint insert_by {A : Type} (key : A -> cell) (x : A) (l : list A) : list A :=
  match l with
  | [] => [x]
  | y :: t => if cell_leb (key x) (key y) then x :: l else y :: insert_by key x t
  end.

(** Insertion sort: ascending, and stable.  pandas sorts with numpy's
    default [quicksort], which is this insertion sort on fewer than 17
    rows and fixes no order among rows with equal keys on more; no
    statement below speaks of the order of rows with equal keys. *)
Definition sort_by {A : Type} (key : A -> cell) (l : list A) : list A :=
  fold_right (insert_by key) [] l.

Definition sort_values (by_ : string) (df : DataFrame) : result DataFrame :=
  s <- match get_item by_ df with
       | Raise AttributeError => Raise ValueError
       | r => r
       end ;;
  if comparable (values s)
  then Ok (mkDataFrame (columns df)
             (map snd (sort_by fst (combine (values s) (rows df)))))
  else Raise TypeError.

End Pandas.

(** ** The destination database *)

Module Sql.

Import Pandas.

Inductive sqltype : Type :=
| BigInteger
| DateTime
| String_ (width : Z)
| DECIMAL (precision scale : Z)
| Text
| Float.

Record Column : Type := mkColumn
  { c_name : string;
    c_type : sqltype;
    primary_key : bool }.

(** A table: its declaration, its rows with the key the engine gave
    each of them, and the next key of the AUTO_INCREMENT counter. *)
Record Table : Type := mkTable
  { schema : list Column;
    stored : list (Z * Row);
    next_id : Z }.

Abbreviation Database := (gmap string Table).

(** [meta.create_all(engine)] for a single declared table: the table is
    created unless the engine already has one of that name. *)
Definition create_all (name : string) (cols : list Column) (db : Database)
  : Database :=
  match db !! name with
  | Some _ => db
  | None => <[name := mkTable cols [] 1]> db
  end.

Fixpoint with_keys (next : Z) (rs : list Row) : list (Z * Row) :=
  match rs with
  | [] => []
  | r :: t => (next, r) :: with_keys (next + 1) t
  end.

Definition sqltype_of (d : dtype) : sqltype :=
  match d with
  | DObject => Text
  | DFloat => Float
  | DDatetime => DateTime
  end.

Section Engine.

(** Whether the engine takes a row into a table of a given declaration
    (widths, precisions, unknown columns): the storage engine is an
    external collaborator. *)
Variable accepts : list Column -> Row -> bool.

(** [df.to_sql(name, engine, if_exists='append', index=False)]: the
    rows are inserted in one transaction after those already there; a
    table that does not exist is first created from the dtypes of the
    frame. *)
Definition to_sql (name : string) (df : DataFrame) (db : Database)
  : Database * result unit :=
  let t := match db !! name with
           | Some t => t
           | None =>
               mkTable (map (fun c => mkColumn (fst c) (sqltype_of (snd c)) false)
                            (columns df)) [] 1
           end in
  if forallb (accepts (schema t)) (rows df)
  then (<[name := mkTable (schema t)
                    (stored t ++ with_keys (next_id t) (rows df))
                    (next_id t + Z.of_nat (List.length (rows df)))]> db,
        Ok tt)
  else (match db !! name with Some _ => db | None => <[name := t]> db end,
        Raise SQLError).

End Engine.

End Sql.

(** ** The class [UfoSightings] *)

Module UfoSightings.

Import PyStr PyFloat PyTime Strptime Pandas Sql.

Record UfoSightings : Type := mkUfoSightings
  { _file_name : string;
    _table_name : string }.

Definition file_name (self : UfoSightings) : string := _file_name self.
Definition table_name (self : UfoSightings) : string := _table_name self.

(** [float(col)] is tried; only [ValueError] is caught. *)
Definition _is_float (self : UfoSightings) (col : cell) : result bool :=
  match to_float col with
  | Ok _ => Ok true
  | Raise ValueError => Ok false
  | Raise e => Raise e
  end.

(** The frame is updated in place; the updated frame is threaded. *)
Definition _transform_datetime_col (df : DataFrame) : result DataFrame :=
  dt <- get_item "datetime" df ;;
  replaced <- str_replace "24:00" "00:00" dt ;;
  df <- set_item "datetime_replaced" replaced df ;;
  r <- get_item "datetime_replaced" df ;;
  casted <- to_datetime fmt_mdY_HM r ;;
  df <- set_item "datetime_casted" casted df ;;
  dt <- get_item "datetime" df ;;
  check_dtime <- str_contains "24:00" dt ;;
  c <- get_item "datetime_casted" df ;;
  deltas <- mul_timedelta check_dtime (timedelta_days 1) ;;
  sum <- add_timedelta c deltas ;;
  df <- set_item "datetime" sum df ;;
  drop ["datetime_replaced"; "datetime_casted"] df.

(** The block the method writes out for each of the three numeric
    columns: unless the column is already of dtype float, keep the rows
    whose value passes [_is_float], then change the dtype. *)
Definition cast_float_col (self : UfoSightings) (name : string) (df : DataFrame)
  : result DataFrame :=
  s <- get_item name df ;;
  if negb (dtype_eqb (s_dtype s) DFloat)
  then
    mask <- mapM (_is_float self) (values s) ;;
    let df := select mask df in
    astype_float name df
  else Ok df.

(** [rename] gives a new frame; [_transform_datetime_col] is called for
    its effect on that frame and its return value is not used. *)
Definition _clean_file (self : UfoSightings) (df : DataFrame) : result DataFrame :=
  let df := rename strip df in
  df <- _transform_datetime_col df ;;
  dp <- on_frame ValueError (get_item "date posted" df) ;;
  dp <- to_datetime fmt_mdY dp ;;
  df <- set_item "date posted" dp df ;;
  df <- cast_float_col self "duration (seconds)" df ;;
  df <- cast_float_col self "latitude" df ;;
  df <- cast_float_col self "longitude" df ;;
  Ok df.

(** [buffer = 1.2] *)
Definition buffer : float := lit_1_2.

Definition _calc_max_length (df : DataFrame) (col : string) : result Z :=
  s <- get_item col df ;;
  lens <- str_len s ;;
  let max_len := match series_max lens with
                 | Some n => of_Z n
                 | None => nan
                 end in
  ceil (mul max_len buffer).

Definition _transform_csv (self : UfoSightings) (df : DataFrame)
  : result DataFrame :=
  df <- sort_values "datetime" df ;;
  _clean_file self df.

Section Collaborators.

(** The file system read through [pd.read_csv], and the storage
    engine. *)
Variable read_csv : string -> result DataFrame.
Variable accepts : list Column -> Row -> bool.

Definition _extract_csv (self : UfoSightings) : result DataFrame :=
  read_csv (_file_name self).

Definition declared_table (city state country shape duration comments : Z)
  : list Column :=
  [ mkColumn "sight_id" BigInteger true;
    mkColumn "datetime" DateTime false;
    mkColumn "city" (String_ city) false;
    mkColumn "state" (String_ state) false;
    mkColumn "country" (String_ country) false;
    mkColumn "shape" (String_ shape) false;
    mkColumn "duration (seconds)" (DECIMAL 11 2) false;
    mkColumn "duration (hours/min)" (String_ duration) false;
    mkColumn "comments" (String_ comments) false;
    mkColumn "date posted" DateTime false;
    mkColumn "latitude" (DECIMAL 11 8) false;
    mkColumn "longitude" (DECIMAL 11 8) false ].

Definition _load_to_db (self : UfoSightings) (df : DataFrame) (db : Database)
  : Database * result unit :=
  match
    (city_max_len <- _calc_max_length df "city" ;;
     state_max_len <- _calc_max_length df "state" ;;
     country_max_len <- _calc_max_length df "country" ;;
     shape_max_len <- _calc_max_length df "shape" ;;
     duration_max_len <- _calc_max_length df "duration (hours/min)" ;;
     comments_max_len <- _calc_max_length df "comments" ;;
     Ok (declared_table city_max_len state_max_len country_max_len
           shape_max_len duration_max_len comments_max_len))
  with
  | Raise e => (db, Raise e)
  | Ok cols =>
      let db := create_all (_table_name self) cols db in
      to_sql accepts (_table_name self) df db
  end.

Definition _load_csv (self : UfoSightings) (df : DataFrame) (db : Database)
  : Database * result unit :=
  _load_to_db self df db.

(** The database after the run, and the exception that was logged, if
    one was raised. *)
Definition etl (self : UfoSightings) (db : Database) : Database * option exn :=
  match (df <- _extract_csv self ;; _transform_csv self df) with
  | Raise e => (db, Some e)
  | Ok df_cleansed =>
      match _load_csv self df_cleansed db with
      | (db', Ok _) => (db', None)
      | (db', Raise e) => (db', Some e)
      end
  end.

End Collaborators.

End UfoSightings.

Import PyStr PyFloat PyTime Strptime Pandas Sql UfoSightings.

(** ** Vocabulary of the properties *)

Definition helper_names : list string := ["datetime_replaced"; "datetime_casted"].

Definition numeric_names : list string :=
  ["duration (seconds)"; "latitude"; "longitude"].

Definition text_names : list string :=
  ["city"; "state"; "country"; "shape"; "duration (hours/min)"; "comments"].

(** The labels whose cells the cleaning stage rewrites. *)
Definition typed_names : list string :=
  ["datetime"; "date posted"; "duration (seconds)"; "latitude"; "longitude"].

(** [float] accepts the cell a row has under [name]. *)
Definition float_ok (name : string) (r : Row) : bool :=
  match cell_of name r with
  | Some c => is_ok (to_float c)
  | None => false
  end.

(** All three numeric fields of a row parse. *)
Definition numeric_ok (r : Row) : bool :=
  float_ok "duration (seconds)" r && float_ok "latitude" r && float_ok "longitude" r.

(** A column of dtype float holds floats. *)
Definition float_typed (name : string) (cols : list (string * dtype)) (rs : list Row)
  : Prop :=
  named name cols = [DFloat] ->
  Forall (fun r => forall c, cell_of name r = Some c -> exists x, c = VFloat x) rs.

(** The frame as the cleaning stage sees it after trimming the labels. *)
Definition well_typed (df : DataFrame) : Prop :=
  forall name, In name numeric_names ->
    float_typed name (relabel strip (columns df)) (map (relabel strip) (rows df)).

(** A frame is well formed when every row follows the header, label by
    label, and the cells of a float column are floats. *)
Definition is_float_cell (c : cell) : bool :=
  match c with VFloat _ => true | _ => false end.

Definition entry_ok (col : string * dtype) (e : string * cell) : bool :=
  String.eqb (fst e) (fst col)
  && (negb (dtype_eqb (snd col) DFloat) || is_float_cell (snd e)).

Fixpoint row_ok (cols : list (string * dtype)) (r : Row) : bool :=
  match cols, r with
  | [], [] => true
  | c :: cs, e :: es => entry_ok c e && row_ok cs es
  | _, _ => false
  end.

Definition well_formed (df : DataFrame) : bool :=
  forallb (row_ok (columns df)) (rows df).

(** How far the numeric coercion has come on a row: the fields in [done]
    are converted, the others are as they were, the two timestamps and the
    helper labels apart. *)
Definition progress (done : list string) (r0 r : Row) : Prop :=
  (forall n, In n done ->
     exists c x, cell_of n r0 = Some c /\ to_float c = Ok x /\
                 cell_of n r = Some (VFloat x)) /\
  (forall m, ~ In m done -> ~ In m ["datetime"; "date posted"] ->
     ~ In m helper_names -> cell_of m r = cell_of m r0).

(** A row with its numeric cell under [name] converted. *)
Definition floated (name : string) (r : Row) : Row :=
  match cell_of name r with
  | Some c => match to_float c with
              | Ok x => assign name (VFloat x) r
              | Raise _ => r
              end
  | None => r
  end.

(** [rout] is what the cleaning stage makes of the surviving row [rin]:
    numeric fields converted, every field the stage does not type left as
    it was. *)
Definition cleaned (rin rout : Row) : Prop :=
  (forall n, In n numeric_names ->
     exists c x, cell_of n rin = Some c /\ to_float c = Ok x /\
                 cell_of n rout = Some (VFloat x)) /\
  (forall n, ~ In n typed_names -> ~ In n helper_names ->
     cell_of n rout = cell_of n rin).

(** Strings of the exact shape [MM/DD/YYYY HH:MM]. *)
Definition mdY_HM_shape (s : string) : bool :=
  match list_ascii_of_string s with
  | [m1; m2; s1; d1; d2; s2; y1; y2; y3; y4; sp; h1; h2; c; n1; n2] =>
      forallb is_digit [m1; m2; d1; d2; y1; y2; y3; y4; h1; h2; n1; n2]
      && Ascii.eqb s1 "/" && Ascii.eqb s2 "/" && Ascii.eqb sp " " && Ascii.eqb c ":"
  | _ => false
  end.

(** The rows a table holds, none if the table does not exist. *)
Definition stored_rows (name : string) (db : Database) : list (Z * Row) :=
  match db !! name with
  | Some t => stored t
  | None => []
  end.

(** *** Sample data *)

Definition standard_columns : list (string * dtype) :=
  map (fun n => (n, DObject))
    ["datetime"; "city"; "state"; "country"; "shape"; "duration (seconds)";
     "duration (hours/min)"; "comments"; "date posted"; "latitude"; "longitude"].

(** A row as the reader delivers it: every field is text. *)
Definition sighting (datetime city state country shape seconds hours_min comments
                       date_posted latitude longitude : string) : Row :=
  [("datetime", VStr datetime); ("city", VStr city); ("state", VStr state);
   ("country", VStr country); ("shape", VStr shape);
   ("duration (seconds)", VStr seconds); ("duration (hours/min)", VStr hours_min);
   ("comments", VStr comments); ("date posted", VStr date_posted);
   ("latitude", VStr latitude); ("longitude", VStr longitude)].

Definition frame (rs : list Row) : DataFrame := mkDataFrame standard_columns rs.

Definition ufo : UfoSightings := mkUfoSightings "scrubbed.csv" "ufo".

(** The values of a column, for reading results. *)
Definition column (name : string) (df : result DataFrame) : list (option cell) :=
  match df with
  | Ok d => map (cell_of name) (rows d)
  | Raise _ => []
  end.

(** *** Frames and values the properties are read on *)

(** The values the repair leaves in the [datetime] column. *)
Definition repaired (dvals cvals : list cell) : list cell :=
  zip_with add_cell cvals
    (timedeltas (map (contains_cell "24:00") dvals) (timedelta_days 1)).

Definition sample_midnight : DataFrame :=
  frame [sighting "01/15/2020 24:00" "austin" "tx" "us" "disk" "20" "20 seconds"
           "bright light" "01/20/2020" "30.26" "-97.74"].

Definition sample_evening : DataFrame :=
  frame [sighting "01/15/2020 23:59" "austin" "tx" "us" "disk" "20" "20 seconds"
           "bright light" "01/20/2020" "30.26" "-97.74"].

Definition sample_midnight_repaired : DataFrame :=
  Eval vm_compute in
    match _transform_datetime_col sample_midnight with
    | Ok d => d
    | Raise _ => mkDataFrame [] []
    end.

Definition sample_three : DataFrame :=
  frame [sighting "01/01/2021 05:00" "austin" "tx" "us" "disk" "20" "20 seconds"
           "first" "01/20/2021" "30.26" "-97.74";
         sighting "06/01/2020 12:00" "boston" "ma" "us" "light" "60" "1 minute"
           "second" "06/20/2020" "42.36" "-71.06";
         sighting "01/01/2021 04:00" "denver" "co" "us" "oval" "5" "5 seconds"
           "third" "01/20/2021" "39.74" "-104.99"].

(** The longest VARCHAR a table can declare. *)
Definition width_bound : Z := 65535.

(** The lengths on which the binary64 product is the exact ceiling: all
    those below [3 * 2^49], about 1.7e15 characters. *)
Definition length_bound : Z := 3 * 2 ^ 49.

(** What [k] steps of [shr_1] leave of [M]: the quotient by [2^k], and a
    location that compares the remainder with the half of [2^k]. *)
Definition shifted (M : Z) (k : nat) (mrs : shr_record) : Prop :=
  exists rho,
    M = shr_m mrs * 2 ^ Z.of_nat k + rho /\ 0 <= shr_m mrs /\
    match loc_of_shr_record mrs return Prop with
    | loc_Exact => rho = 0
    | loc_Inexact Lt => 0 < 2 * rho < 2 ^ Z.of_nat k
    | loc_Inexact Eq => 0 < rho /\ 2 * rho = 2 ^ Z.of_nat k
    | loc_Inexact Gt => 2 ^ Z.of_nat k < 2 * rho < 2 * 2 ^ Z.of_nat k
    end.


Definition sample_widths : DataFrame :=
  mkDataFrame [("shape", DObject)]
    [[("shape", VStr "orb")]; [("shape", VStr "triangular")]; [("shape", VStr "diamond")]].

Definition sample_no_rows : DataFrame := frame [].

Definition sample_all_null : DataFrame :=
  mkDataFrame [("shape", DObject)] [[("shape", NaN)]; [("shape", NaN)]].

Definition sample_bad_posted : DataFrame :=
  frame [sighting "01/15/2020 21:00" "austin" "tx" "us" "disk" "20" "20 seconds"
           "bright light" "01/20/2020" "30.26" "-97.74";
         sighting "01/16/2020 22:30" "boston" "ma" "us" "light" "60" "1 minute"
           "hovering" "13/40/2020" "42.36" "-71.06"].

(** Row A has a latitude that is not a number, row B a duration that is
    not a number, row C is valid. *)
Definition sample_abc : DataFrame :=
  frame [sighting "01/15/2020 21:00" "austin" "tx" "us" "disk" "20" "20 seconds"
           "row A" "01/20/2020" "north" "-97.74";
         sighting "01/16/2020 22:30" "boston" "ma" "us" "light" "a while" "a while"
           "row B" "01/21/2020" "42.36" "-71.06";
         sighting "01/17/2020 23:15" "denver" "co" "us" "oval" "5" "5 seconds"
           "row C" "01/22/2020" "39.74" "-104.99"].

(** Three rows whose duration is "-5", "inf" and a missing field. *)
Definition sample_durations : DataFrame :=
  frame [sighting "01/15/2020 21:00" "austin" "tx" "us" "disk" "-5" "5 seconds"
           "bright light" "01/20/2020" "30.26" "-97.74";
         sighting "01/16/2020 22:30" "boston" "ma" "us" "light" "inf" "for ever"
           "hovering" "01/21/2020" "42.36" "-71.06";
         assign "duration (seconds)" NaN
           (sighting "01/17/2020 23:15" "denver" "co" "us" "oval" "" "unknown"
              "gone at once" "01/22/2020" "39.74" "-104.99")].

(** The cells of C9: a missing field, and the texts "nan", "inf", "-inf". *)
Definition nonfinite_cells : list cell :=
  [NaN; VStr "nan"; VStr "inf"; VStr "-inf"].

Definition sample_nonfinite : DataFrame :=
  mkDataFrame standard_columns
    [[("datetime", VStr "01/15/2020 21:00"); ("city", VStr "austin");
      ("state", VStr "tx"); ("country", VStr "us"); ("shape", VStr "disk");
      ("duration (seconds)", NaN); ("duration (hours/min)", VStr "unknown");
      ("comments", VStr "bright light"); ("date posted", VStr "01/20/2020");
      ("latitude", VStr "inf"); ("longitude", VStr "-inf")]].

Definition cleaned_frame (df : DataFrame) : DataFrame :=
  match _clean_file ufo df with
  | Ok d => d
  | Raise _ => mkDataFrame [] []
  end.

Definition sample_abc_cleaned : DataFrame := Eval vm_compute in cleaned_frame sample_abc.

Definition sample_nonfinite_cleaned : DataFrame :=
  Eval vm_compute in cleaned_frame sample_nonfinite.

Definition sample_durations_cleaned : DataFrame :=
  Eval vm_compute in cleaned_frame sample_durations.

Definition accept_all : list Column -> Row -> bool := fun _ _ => true.

Definition loaded_once : Database :=
  fst (_load_to_db accept_all ufo sample_abc_cleaned ∅).

Definition loaded_twice : Database :=
  fst (_load_to_db accept_all ufo sample_abc_cleaned loaded_once).

Definition read_sample_abc : string -> result DataFrame := fun _ => Ok sample_abc.

Definition ran_once : Database := fst (etl read_sample_abc accept_all ufo ∅).

(** A frame whose [comments] column is entirely missing. *)
Definition sample_no_comments : DataFrame :=
  mkDataFrame standard_columns
    [[("datetime", VTime (civil 2020 1 17 23 15)); ("city", VStr "denver");
      ("state", VStr "co"); ("country", VStr "us"); ("shape", VStr "oval");
      ("duration (seconds)", VFloat (of_Z 5)); ("duration (hours/min)", VStr "5 seconds");
      ("comments", NaN); ("date posted", VTime (civil 2020 1 22 0 0));
      ("latitude", VFloat (of_Z 39)); ("longitude", VFloat (of_Z (-104)))]].

(** The width a declaration gives to a VARCHAR column. *)
Definition declared_width (name : string) (cols : list Column) : option Z :=
  match List.filter (fun c => String.eqb (c_name c) name) cols with
  | [c] => match c_type c with
           | String_ w => Some w
           | _ => None
           end
  | _ => None
  end.

(** No string of a column is longer than the longest VARCHAR. *)
Definition lengths_bounded (df : DataFrame) (col : string) : Prop :=
  forall r y, In r (rows df) -> cell_of col r = Some (VStr y) ->
    Z.of_nat (String.length y) <= width_bound.

(** A table declared earlier, with narrow columns. *)
Definition narrow_table : Table :=
  mkTable (declared_table 1 1 1 1 1 1) [] 1.

Definition narrow_db : Database := <["ufo" := narrow_table]> ∅.

(** A cell of a datetime column: a timestamp or the missing timestamp. *)
Definition is_timestamp (c : cell) : bool :=
  match c with
  | VTime _ | VNaT => true
  | _ => false
  end.

(** A frame that already has a column called [datetime_replaced]. *)
Definition sample_clash : DataFrame :=
  mkDataFrame [("datetime", DObject); ("datetime_replaced", DObject); ("city", DObject)]
    [[("datetime", VStr "01/15/2020 24:00"); ("datetime_replaced", VStr "kept?");
      ("city", VStr "austin")]].

Definition sample_clash_repaired : DataFrame :=
  Eval vm_compute in
    match _transform_datetime_col sample_clash with
    | Ok d => d
    | Raise _ => mkDataFrame [] []
    end.

(** The key [_transform_csv] sorts on: the cell under the raw label
    [datetime]. *)
Definition datetime_key (r : Row) : cell :=
  match cell_of "datetime" r with
  | Some c => c
  | None => VNaT
  end.

Definition is_text_or_missing (c : cell) : bool :=
  match c with
  | VStr _ => true
  | VFloat x => isnan x
  | _ => false
  end.

(** The [datetime] column is as the reader delivers it: text, or NaN for
    an empty field. *)
Definition text_keys (df : DataFrame) : bool :=
  forallb (fun r => is_text_or_missing (datetime_key r)) (rows df).

(** The order of the characters on the [datetime] text, rows without a
    datetime last. *)
Definition text_le (r1 r2 : Row) : Prop :=
  match datetime_key r1, datetime_key r2 with
  | VStr a, VStr b => String.leb a b = true
  | _, b => isna b = true
  end.

Definition sample_three_cleaned : DataFrame :=
  Eval vm_compute in
    match _transform_csv ufo sample_three with
    | Ok d => d
    | Raise _ => mkDataFrame [] []
    end.

(** A file whose header writes the first label with a leading blank. *)
Definition sample_blank_label : DataFrame :=
  mkDataFrame
    ((" datetime", DObject) :: List.tl standard_columns)
    [(" datetime", VStr "01/15/2020 21:00")
     :: List.tl (sighting "" "austin" "tx" "us" "disk" "20" "20 seconds"
                   "bright light" "01/20/2020" "30.26" "-97.74")].

Definition read_blank_label : string -> result DataFrame := fun _ => Ok sample_blank_label.

(** A frame whose durations are all unreadable. *)
Definition sample_all_bad : DataFrame :=
  frame [sighting "01/15/2020 21:00" "austin" "tx" "us" "disk" "a while" "a while"
           "row A" "01/20/2020" "30.26" "-97.74";
         sighting "01/16/2020 22:30" "boston" "ma" "us" "light" "??" "unknown"
           "row B" "01/21/2020" "42.36" "-71.06"].

(** The texts [pd.to_datetime] reads as a missing timestamp instead of
    parsing them: the empty text and pandas' [nat_strings]. *)
Definition missing_token (s : string) : bool :=
  (String.eqb s "" || existsb (String.eqb s) nat_strings)%bool.

(** A row posted on "NaT" and a row seen on "NaT". *)
Definition sample_nat_tokens : DataFrame :=
  frame [sighting "01/15/2020 21:00" "austin" "tx" "us" "disk" "20" "20 seconds"
           "bright light" "NaT" "30.26" "-97.74";
         sighting "NaT" "boston" "ma" "us" "light" "60" "1 minute"
           "hovering" "01/21/2020" "42.36" "-71.06"].

Definition read_nat_tokens : string -> result DataFrame := fun _ => Ok sample_nat_tokens.

(** Rows A and B of [sample_abc] alone: no row is valid. *)
Definition sample_ab : DataFrame :=
  frame [sighting "01/15/2020 21:00" "austin" "tx" "us" "disk" "20" "20 seconds"
           "row A" "01/20/2020" "north" "-97.74";
         sighting "01/16/2020 22:30" "boston" "ma" "us" "light" "a while" "a while"
           "row B" "01/21/2020" "42.36" "-71.06"].

(** One row, whose latitude is not a number. *)
Definition sample_bad_latitude : DataFrame :=
  frame [sighting "01/15/2020 21:00" "austin" "tx" "us" "disk" "20" "20 seconds"
           "row A" "01/20/2020" "north" "-97.74"].

(** What the duration block leaves of [sample_all_bad]: the header, and
    no row. *)
Definition sample_all_bad_filtered : DataFrame :=
  Eval vm_compute in
    match cast_float_col ufo "duration (seconds)" sample_all_bad with
    | Ok d => d
    | Raise _ => mkDataFrame [] []
    end.

(** * Properties *)

(** ** Returning and raising *)

Lemma bind_ok_inv {A B : Type} (m : result A) (k : A -> result B) (b : B) :
  bind m k = Ok b -> exists a, m = Ok a /\ k a = Ok b.
Proof. destruct m as [a|e]; simpl; [eauto | discriminate]. Qed.

Lemma on_frame_ok {A : Type} (e : exn) (r : result A) (a : A) :
  on_frame e r = Ok a -> r = Ok a.
Proof. destruct r as [x|[]]; simpl; congruence. Qed.

Ltac inv_bind H :=
  let a := fresh "a" in
  let Ha := fresh "H" a in
  apply bind_ok_inv in H as (a & Ha & H).

Lemma mapM_Forall2 {A B : Type} (f : A -> result B) (l : list A) (l' : list B) :
  mapM f l = Ok l' <-> Forall2 (fun a b => f a = Ok b) l l'.
Proof.
  revert l'. induction l as [|a l IH]; intros l'; simpl.
  - split; intros H; [injection H as <-; constructor | inversion H; reflexivity].
  - split.
    + intros H. inv_bind H. inv_bind H. injection H as <-.
      constructor; [assumption | now apply IH].
    + intros H. inversion H as [|? b ? bs Hab Hrest]; subst.
      rewrite Hab. simpl. apply IH in Hrest. rewrite Hrest. reflexivity.
Qed.

Lemma mapM_length {A B : Type} (f : A -> result B) (l : list A) (l' : list B) :
  mapM f l = Ok l' -> List.length l' = List.length l.
Proof.
  intros H. apply mapM_Forall2 in H. symmetry. eapply Forall2_length, H.
Qed.

Lemma mapM_ext_in {A B : Type} (f g : A -> result B) (l : list A) :
  (forall a, In a l -> f a = g a) -> mapM f l = mapM g l.
Proof.
  induction l as [|a l IH]; intros H; simpl; [reflexivity|].
  rewrite (H a) by (now left). rewrite IH; [reflexivity|].
  intros b Hb. apply H. now right.
Qed.

Lemma mapM_map {A B C : Type} (g : A -> B) (f : B -> result C) (l : list A) :
  mapM f (map g l) = mapM (fun a => f (g a)) l.
Proof. induction l as [|a l IH]; simpl; [reflexivity | now rewrite IH]. Qed.

(** ** Association lists *)

Section Assoc.

Context {A : Type}.
Implicit Types (l : list (string * A)) (n m : string) (v : A).

Lemma has_label_named n l : has_label n l = false <-> named n l = [].
Proof.
  unfold has_label, named. induction l as [|[k a] l IH]; simpl; [tauto|].
  destruct (String.eqb k n); simpl; [split; discriminate | exact IH].
Qed.

Lemma named_app n l l' : named n (l ++ l') = named n l ++ named n l'.
Proof. unfold named. now rewrite List.filter_app, map_app. Qed.

Lemma named_assign_ne n m v l : n <> m -> named n (assign m v l) = named n l.
Proof.
  intros Hne. unfold assign. destruct (has_label m l).
  - unfold named. induction l as [|[k a] l IH]; simpl; [reflexivity|].
    destruct (String.eqb k m) eqn:Hk; simpl.
    + apply String.eqb_eq in Hk as ->.
      destruct (String.eqb m n) eqn:Hmn; [apply String.eqb_eq in Hmn; congruence|].
      exact IH.
    + destruct (String.eqb k n); simpl; now rewrite IH.
  - rewrite named_app. unfold named at 2. simpl.
    destruct (String.eqb m n) eqn:Hmn; [apply String.eqb_eq in Hmn; congruence|].
    simpl. apply app_nil_r.
Qed.

Lemma named_assign_eq n v l :
  named n (assign n v l) =
  if has_label n l then map (fun _ => v) (named n l) else [v].
Proof.
  unfold assign. destruct (has_label n l) eqn:Hl.
  - clear Hl. unfold named. induction l as [|[k a] l IH]; simpl; [reflexivity|].
    destruct (String.eqb k n) eqn:Hk; simpl.
    + rewrite String.eqb_refl. simpl. now rewrite IH.
    + rewrite Hk. exact IH.
  - rewrite named_app. apply has_label_named in Hl. rewrite Hl.
    unfold named. simpl. now rewrite String.eqb_refl.
Qed.

Lemma existsb_eqb_In n (ms : list string) :
  existsb (String.eqb n) ms = true <-> In n ms.
Proof.
  rewrite existsb_exists. split.
  - intros (x & Hx & He). apply String.eqb_eq in He. now subst.
  - intros H. exists n. split; [assumption | apply String.eqb_refl].
Qed.

Lemma named_remove n (ms : list string) l :
  ~ In n ms -> named n (remove ms l) = named n l.
Proof.
  intros Hn. unfold named, remove.
  induction l as [|[k a] l IH]; simpl; [reflexivity|].
  destruct (existsb (String.eqb k) ms) eqn:He; simpl.
  - apply existsb_eqb_In in He.
    destruct (String.eqb k n) eqn:Hk; [apply String.eqb_eq in Hk; congruence|].
    exact IH.
  - destruct (String.eqb k n); simpl; now rewrite IH.
Qed.

Lemma named_remove_in n (ms : list string) l :
  In n ms -> named n (remove ms l) = [].
Proof.
  intros Hn. unfold named, remove.
  induction l as [|[k a] l IH]; simpl; [reflexivity|].
  destruct (existsb (String.eqb k) ms) eqn:He; simpl; [exact IH|].
  destruct (String.eqb k n) eqn:Hk; [|exact IH].
  apply String.eqb_eq in Hk as ->. apply existsb_eqb_In in Hn. congruence.
Qed.

Lemma has_label_remove n (ms : list string) l :
  ~ In n ms -> has_label n (remove ms l) = has_label n l.
Proof.
  intros Hn. pose proof (named_remove n ms l Hn) as H.
  destruct (has_label n l) eqn:Hl.
  - destruct (has_label n (remove ms l)) eqn:Hr; [reflexivity|].
    apply has_label_named in Hr. rewrite Hr in H. symmetry in H.
    apply has_label_named in H. congruence.
  - apply has_label_named. apply has_label_named in Hl. congruence.
Qed.

Lemma remove_app (ms : list string) l l' :
  remove ms (l ++ l') = remove ms l ++ remove ms l'.
Proof. unfold remove. apply List.filter_app. Qed.

(** Dropping a label forgets an assignment to it. *)
Lemma remove_assign_in m v (ms : list string) l :
  In m ms -> remove ms (assign m v l) = remove ms l.
Proof.
  intros Hm. apply existsb_eqb_In in Hm. unfold assign.
  destruct (has_label m l).
  - unfold remove. induction l as [|[k a] l IH]; simpl; [reflexivity|].
    destruct (String.eqb k m) eqn:Hk; simpl.
    + apply String.eqb_eq in Hk as ->. rewrite Hm. simpl. exact IH.
    + destruct (existsb (String.eqb k) ms); simpl; now rewrite IH.
  - rewrite remove_app. unfold remove at 2. simpl. rewrite Hm. simpl.
    apply app_nil_r.
Qed.

(** Dropping other labels commutes with an assignment. *)
Lemma remove_assign_notin m v (ms : list string) l :
  ~ In m ms -> remove ms (assign m v l) = assign m v (remove ms l).
Proof.
  intros Hm. unfold assign. rewrite (has_label_remove m ms l Hm).
  assert (Hf : existsb (String.eqb m) ms = false).
  { destruct (existsb (String.eqb m) ms) eqn:He; [|reflexivity].
    apply existsb_eqb_In in He. contradiction. }
  destruct (has_label m l).
  - unfold remove. induction l as [|[k a] l IH]; simpl; [reflexivity|].
    destruct (String.eqb k m) eqn:Hk; simpl.
    + apply String.eqb_eq in Hk as ->. rewrite Hf. simpl.
      rewrite String.eqb_refl. now rewrite IH.
    + destruct (existsb (String.eqb k) ms); simpl; [exact IH|].
      rewrite Hk. now rewrite IH.
  - rewrite remove_app. unfold remove at 2. simpl. rewrite Hf. reflexivity.
Qed.


Lemma labels_assign m v l :
  has_label m l = true -> map fst (assign m v l) = map fst l.
Proof.
  intros Hl. unfold assign. rewrite Hl. clear Hl.
  induction l as [|[k a] l IH]; simpl; [reflexivity|].
  destruct (String.eqb k m) eqn:Hk; simpl; [|now rewrite IH].
  apply String.eqb_eq in Hk as ->. now rewrite IH.
Qed.



End Assoc.

(** ** Rows and frames *)

Lemma cell_of_assign_ne n m v (r : Row) :
  n <> m -> cell_of n (assign m v r) = cell_of n r.
Proof. intros H. unfold cell_of. now rewrite named_assign_ne. Qed.

Lemma cell_of_assign_eq n v c (r : Row) :
  cell_of n (assign n v r) = Some c -> c = v.
Proof.
  unfold cell_of. rewrite named_assign_eq.
  destruct (has_label n r).
  - destruct (named n r) as [|a [|b t]]; simpl; congruence.
  - congruence.
Qed.

Lemma cell_of_assign_present n v (r : Row) :
  is_Some (cell_of n r) -> cell_of n (assign n v r) = Some v.
Proof.
  unfold cell_of. rewrite named_assign_eq. intros [c Hc].
  destruct (named n r) as [|a [|b t]] eqn:Hn; try discriminate.
  destruct (has_label n r) eqn:Hl; [reflexivity|].
  apply has_label_named in Hl. congruence.
Qed.

Lemma cell_of_remove n (ms : list string) (r : Row) :
  ~ In n ms -> cell_of n (remove ms r) = cell_of n r.
Proof. intros H. unfold cell_of. now rewrite named_remove. Qed.

(** Writing back the value a row already has changes nothing. *)
Lemma assign_same n v (r : Row) : cell_of n r = Some v -> assign n v r = r.
Proof.
  unfold cell_of, assign. intros H.
  destruct (has_label n r) eqn:Hl.
  - clear Hl. revert H. unfold named.
    induction r as [|[k a] r IH]; simpl; [reflexivity|].
    destruct (String.eqb k n) eqn:Hk; simpl.
    + apply String.eqb_eq in Hk as ->. intros H.
      destruct (map snd (List.filter (fun p => String.eqb (fst p) n) r)) eqn:Hr;
        [|discriminate].
      injection H as ->. f_equal.
      clear IH. induction r as [|[k b] r IH]; simpl; [reflexivity|].
      simpl in Hr. destruct (String.eqb k n); [discriminate|]. f_equal. now apply IH.
    + intros H. f_equal. now apply IH.
  - apply has_label_named in Hl. rewrite Hl in H. discriminate.
Qed.

Lemma get_item_ok n df s :
  get_item n df = Ok s ->
  named n (columns df) = [s_dtype s] /\
  Forall2 (fun r c => cell_of n r = Some c) (rows df) (values s).
Proof.
  unfold get_item. destruct (named n (columns df)) as [|dt [|? ?]]; try discriminate.
  intros H. inv_bind H. injection H as <-. simpl. split; [reflexivity|].
  apply mapM_Forall2 in Ha. eapply Forall2_impl; [exact Ha|].
  simpl. intros r c. destruct (cell_of n r); congruence.
Qed.

Lemma get_item_length n df s :
  get_item n df = Ok s -> List.length (values s) = List.length (rows df).
Proof.
  intros H. apply get_item_ok in H as [_ H]. symmetry. eapply Forall2_length, H.
Qed.

(** Reading a label depends on the header and the cells under it only. *)
Lemma get_item_congr n df df' :
  named n (columns df') = named n (columns df) ->
  map (cell_of n) (rows df') = map (cell_of n) (rows df) ->
  get_item n df' = get_item n df.
Proof.
  intros Hc Hr. unfold get_item. rewrite Hc.
  set (g := fun o : option cell => match o with Some c => Ok c | None => Raise KeyError end).
  change (fun r : Row => match cell_of n r with Some c => Ok c | None => Raise KeyError end)
    with (fun r : Row => g (cell_of n r)).
  rewrite <- !(mapM_map (cell_of n) g). now rewrite Hr.
Qed.

Lemma set_item_ok n s df df' :
  set_item n s df = Ok df' ->
  List.length (values s) = List.length (rows df) /\
  columns df' = assign n (s_dtype s) (columns df) /\
  rows df' = zip_with (fun r v => assign n v r) (rows df) (values s).
Proof.
  unfold set_item.
  destruct (Nat.eqb (List.length (values s)) (List.length (rows df))) eqn:He;
    [|discriminate].
  intros H. injection H as <-. apply Nat.eqb_eq in He. auto.
Qed.

Lemma map_zip_with_l {A B C D : Type} (g : C -> D) (f : A -> B -> C) (h : A -> D)
      (l : list A) (k : list B) :
  List.length k = List.length l ->
  (forall x y, g (f x y) = h x) ->
  map g (zip_with f l k) = map h l.
Proof.
  intros Hlen H. revert k Hlen.
  induction l as [|a l IH]; intros [|b k] Hlen; simpl in *; try discriminate;
    [reflexivity|].
  rewrite H. f_equal. apply IH. lia.
Qed.

Lemma length_zip_with_same {A B C : Type} (f : A -> B -> C) (l : list A) (k : list B) :
  List.length k = List.length l -> List.length (zip_with f l k) = List.length l.
Proof.
  revert k. induction l as [|a l IH]; intros [|b k] H; simpl in *; try discriminate;
    [reflexivity|].
  f_equal. apply IH. lia.
Qed.

(** Reading another label after an assignment. *)
Lemma get_set_ne n m s df df' :
  n <> m -> set_item m s df = Ok df' -> get_item n df' = get_item n df.
Proof.
  intros Hne H. apply set_item_ok in H as (Hlen & Hc & Hr).
  apply get_item_congr.
  - rewrite Hc. now apply named_assign_ne.
  - rewrite Hr. apply map_zip_with_l; [assumption|].
    intros r v. now apply cell_of_assign_ne.
Qed.

(** Reading back the label just assigned. *)
Lemma get_set_eq n s df df' s' :
  set_item n s df = Ok df' -> get_item n df' = Ok s' -> values s' = values s.
Proof.
  intros H G. apply set_item_ok in H as (Hlen & _ & Hr).
  apply get_item_ok in G as [_ G]. rewrite Hr in G. clear Hr.
  revert G Hlen. generalize (rows df) (values s) (values s'). clear.
  induction l as [|r l IH]; intros [|v vs] cs G Hlen; simpl in *; try discriminate.
  - now inversion G.
  - inversion G as [|? c ? cs' Hc Hrest]; subst.
    apply cell_of_assign_eq in Hc as ->. f_equal. apply IH; [assumption | lia].
Qed.

Lemma drop_ok names df df' :
  drop names df = Ok df' ->
  columns df' = remove names (columns df) /\
  rows df' = map (remove names) (rows df).
Proof.
  unfold drop. destruct (forallb _ names); [|discriminate].
  intros H. injection H as <-. auto.
Qed.

Lemma str_accessor_ok s vs :
  str_accessor s = Ok vs -> s_dtype s = DObject /\ vs = values s.
Proof.
  unfold str_accessor. destruct (s_dtype s); try discriminate.
  intros H. injection H as <-. auto.
Qed.

(** ** The timestamp repair *)

(** One row through the three assignments and the final drop. *)
Lemma repair_row (r : Row) (a b c : cell) :
  remove helper_names
    (assign "datetime" c (assign "datetime_casted" b (assign "datetime_replaced" a r)))
  = assign "datetime" c (remove helper_names r).
Proof.
  rewrite remove_assign_notin by (cbv; intuition discriminate).
  rewrite remove_assign_in by (cbv; tauto).
  rewrite remove_assign_in by (cbv; tauto).
  reflexivity.
Qed.

Lemma repair_rows (rs : list Row) (a b c : list cell) :
  List.length a = List.length rs -> List.length b = List.length rs ->
  map (remove helper_names)
    (zip_with (fun r v => assign "datetime" v r)
       (zip_with (fun r v => assign "datetime_casted" v r)
          (zip_with (fun r v => assign "datetime_replaced" v r) rs a) b) c)
  = zip_with (fun r v => assign "datetime" v (remove helper_names r)) rs c.
Proof.
  revert a b c.
  induction rs as [|r rs IH]; intros [|x a] [|y b] [|z c] Ha Hb; simpl in *;
    try discriminate; try reflexivity.
  rewrite repair_row. f_equal. apply IH; lia.
Qed.

Lemma transform_datetime_col_ok df df' :
  _transform_datetime_col df = Ok df' ->
  exists dvals cvals,
    named "datetime" (columns df) = [DObject] /\
    Forall2 (fun r c => cell_of "datetime" r = Some c) (rows df) dvals /\
    mapM (to_datetime_cell fmt_mdY_HM) (map (replace_cell "24:00" "00:00") dvals)
      = Ok cvals /\
    columns df' = assign "datetime" DDatetime (remove helper_names (columns df)) /\
    rows df' = zip_with (fun r v => assign "datetime" v (remove helper_names r))
                 (rows df) (repaired dvals cvals).
Proof.
  unfold _transform_datetime_col. intros H.
  inv_bind H. rename a into dt, Ha into Hdt.
  inv_bind H. rename a into replaced, Ha into Hrep.
  inv_bind H. rename a into df1, Ha into Hset1.
  inv_bind H. rename a into r, Ha into Hr.
  inv_bind H. rename a into casted, Ha into Hcast.
  inv_bind H. rename a into df2, Ha into Hset2.
  inv_bind H. rename a into dt2, Ha into Hdt2.
  inv_bind H. rename a into check, Ha into Hcheck.
  inv_bind H. rename a into c, Ha into Hc.
  inv_bind H. rename a into deltas, Ha into Hmul.
  inv_bind H. rename a into sum, Ha into Hadd.
  inv_bind H. rename a into df3, Ha into Hset3.
  (* what each step computed *)
  unfold str_replace in Hrep. inv_bind Hrep. injection Hrep as <-.
  apply str_accessor_ok in Ha as [Hobj ->].
  pose proof (get_set_eq _ _ _ _ _ Hset1 Hr) as Hrv. simpl in Hrv.
  unfold to_datetime in Hcast. inv_bind Hcast. injection Hcast as <-.
  rename a into cvals. rewrite Hrv in Ha.
  rewrite (get_set_ne "datetime" "datetime_casted" _ _ _ ltac:(discriminate) Hset2)
    in Hdt2.
  rewrite (get_set_ne "datetime" "datetime_replaced" _ _ _ ltac:(discriminate) Hset1)
    in Hdt2.
  rewrite Hdt in Hdt2. injection Hdt2 as <-.
  unfold str_contains in Hcheck. inv_bind Hcheck. injection Hcheck as <-.
  apply str_accessor_ok in Ha0 as [_ ->].
  pose proof (get_set_eq _ _ _ _ _ Hset2 Hc) as Hcv. simpl in Hcv.
  unfold mul_timedelta in Hmul.
  destruct (forallb is_flag (map (contains_cell "24:00") (values dt)));
    [|discriminate].
  injection Hmul as <-.
  unfold add_timedelta in Hadd. cbv zeta in Hadd.
  destruct (forallb cell_in_bounds _); [|discriminate].
  injection Hadd as <-.
  pose proof (get_item_ok _ _ _ Hdt) as [Hhdr Hcells].
  pose proof (get_item_length _ _ _ Hdt) as Hlen.
  pose proof (mapM_length _ _ _ Ha) as Hlenc. rewrite length_map in Hlenc.
  apply set_item_ok in Hset1 as (_ & Hc1 & Hr1).
  apply set_item_ok in Hset2 as (_ & Hc2 & Hr2).
  apply set_item_ok in Hset3 as (_ & Hc3 & Hr3).
  apply drop_ok in H as (Hc4 & Hr4).
  exists (values dt), cvals. rewrite Hobj in Hhdr.
  split; [assumption|]. split; [assumption|]. split; [assumption|]. split.
  - rewrite Hc4, Hc3, Hc2, Hc1. simpl.
    rewrite remove_assign_notin by (cbv; intuition discriminate).
    rewrite remove_assign_in by (cbv; tauto).
    rewrite remove_assign_in by (cbv; tauto).
    reflexivity.
  - rewrite Hr4, Hr3, Hr2, Hr1. simpl. rewrite Hcv.
    apply repair_rows; simpl; rewrite ?length_map; lia.
Qed.

Lemma replace_absent p r s : contains p s = false -> replace p r s = s.
Proof.
  unfold replace. induction s as [|c s IH]; [reflexivity|].
  intros H. cbn [contains] in H. apply orb_false_iff in H as [Hs Hc].
  cbn [replace_from]. rewrite Hs. f_equal. now apply IH.
Qed.

Lemma startswith_length p s :
  startswith p s = true -> (String.length p <= String.length s)%nat.
Proof.
  revert s. induction p as [|a p IH]; intros [|b s] H; simpl in *;
    try discriminate; try lia.
  apply andb_true_iff in H as [_ H]. apply IH in H. lia.
Qed.

Lemma length_append (a b : string) :
  String.length (String.append a b) = (String.length a + String.length b)%nat.
Proof. induction a as [|c a IH]; simpl; [reflexivity | now rewrite IH]. Qed.

(** Replacing by a string of the same length keeps the length. *)
Lemma replace_from_length p r skip s :
  String.length r = String.length p -> (0 < String.length p)%nat ->
  (skip <= String.length s)%nat ->
  String.length (replace_from p r skip s) = (String.length s - skip)%nat.
Proof.
  intros Hr Hp. revert skip.
  induction s as [|c s IH]; intros skip Hskip; simpl in *; [lia|].
  destruct skip as [|k].
  - destruct (startswith p (String c s)) eqn:Hs.
    + apply startswith_length in Hs. simpl in Hs.
      rewrite length_append, IH by lia. lia.
    + simpl. rewrite IH by lia. lia.
  - rewrite IH by lia. reflexivity.
Qed.

Lemma length_list_ascii s :
  List.length (list_ascii_of_string s) = String.length s.
Proof. induction s as [|c s IH]; simpl; [reflexivity | now rewrite IH]. Qed.

Lemma shape_length s : mdY_HM_shape s = true -> String.length s = 16%nat.
Proof.
  unfold mdY_HM_shape. rewrite <- length_list_ascii.
  generalize (list_ascii_of_string s). intros l H.
  do 17 (destruct l as [|? l]; [discriminate H || reflexivity|]).
  discriminate H.
Qed.

(** A string of sixteen characters is not one of the tokens read as a
    missing timestamp. *)
Lemma long_not_missing s :
  String.length s = 16%nat ->
  (String.eqb s "" || existsb (String.eqb s) nat_strings)%bool = false.
Proof.
  intros H.
  destruct (String.eqb s "" || existsb (String.eqb s) nat_strings)%bool eqn:E;
    [|reflexivity].
  apply orb_true_iff in E as [E|E].
  - apply String.eqb_eq in E. subst. discriminate.
  - apply existsb_exists in E as (x & Hx & E). apply String.eqb_eq in E. subst x.
    simpl in Hx. repeat (destruct Hx as [<-|Hx]; [discriminate|]). contradiction.
Qed.

(** Adding a day moves to the same time of the next day number. *)
Lemma civil_next_day y m d hh mm :
  civil y m d hh mm + timedelta_days 1 = civil y m (d + 1) hh mm.
Proof. unfold civil, timedelta_days, ymd2ord, minutes_per_day. lia. Qed.

(** C1: for a datetime string of the shape MM/DD/YYYY HH:MM, the repaired
    column holds the parse of the string with "24:00" replaced by "00:00",
    plus one day when the string contains "24:00", and the direct parse
    otherwise; "01/15/2020 24:00" gives 2020-01-16 00:00 and
    "01/15/2020 23:59" gives 2020-01-15 23:59. *)
Theorem datetime_repair :
  (forall (df df' : DataFrame) (i : nat) (row : Row) (s : string),
      _transform_datetime_col df = Ok df' ->
      rows df !! i = Some row ->
      cell_of "datetime" row = Some (VStr s) ->
      mdY_HM_shape s = true ->
      exists row' t,
        rows df' !! i = Some row' /\
        strptime fmt_mdY_HM (replace "24:00" "00:00" s) = Ok t /\
        (contains "24:00" s = true ->
         cell_of "datetime" row' = Some (VTime (t + timedelta_days 1))) /\
        (contains "24:00" s = false ->
         strptime fmt_mdY_HM s = Ok t /\ cell_of "datetime" row' = Some (VTime t)))
  /\ column "datetime" (_transform_datetime_col sample_midnight)
     = [Some (VTime (civil 2020 1 16 0 0))]
  /\ column "datetime" (_transform_datetime_col sample_evening)
     = [Some (VTime (civil 2020 1 15 23 59))].
Proof.
  split; [|split; vm_compute; reflexivity].
  intros df df' i row s H Hrow Hcell Hshape.
  apply transform_datetime_col_ok in H
    as (dvals & cvals & _ & Hcells & Hcast & _ & Hrows).
  (* the cell of row [i] in each intermediate column *)
  destruct (Forall2_lookup_l _ _ _ _ _ Hcells Hrow) as (c & Hd & Hc).
  rewrite Hcell in Hc. injection Hc as <-.
  apply mapM_Forall2 in Hcast.
  assert (Hrepl : map (replace_cell "24:00" "00:00") dvals !! i
                  = Some (VStr (replace "24:00" "00:00" s))).
  { rewrite list_lookup_fmap, Hd. reflexivity. }
  destruct (Forall2_lookup_l _ _ _ _ _ Hcast Hrepl) as (cv & Hcv & Hparse).
  (* the replacement keeps the sixteen characters, so the conversion went
     through [strptime] *)
  assert (Ht : exists t, strptime fmt_mdY_HM (replace "24:00" "00:00" s) = Ok t
                         /\ cv = VTime t).
  { cbn [to_datetime_cell] in Hparse.
    rewrite long_not_missing in Hparse.
    - destruct (strptime fmt_mdY_HM (replace "24:00" "00:00" s)) as [t|e];
        cbn [bind] in Hparse; [|discriminate].
      destruct (in_bounds t); [|discriminate].
      injection Hparse as <-. eauto.
    - unfold replace. rewrite replace_from_length; simpl; try lia.
      rewrite (shape_length _ Hshape). reflexivity. }
  destruct Ht as (t & Hstr & ->).
  assert (Hfin : repaired dvals cvals !! i
                 = Some (add_cell (VTime t)
                           (Some (if contains "24:00" s then timedelta_days 1 else 0)))).
  { unfold repaired, timedeltas. rewrite lookup_zip_with, Hcv. simpl.
    rewrite !list_lookup_fmap, Hd. simpl. destruct (contains "24:00" s); reflexivity. }
  eexists _, t. split.
  { rewrite Hrows, lookup_zip_with, Hrow. simpl. rewrite Hfin. reflexivity. }
  assert (Hpresent : is_Some (cell_of "datetime" (remove helper_names row))).
  { rewrite cell_of_remove by (cbv; intuition discriminate). rewrite Hcell. eauto. }
  split; [assumption|]. split; intros Hcont; rewrite Hcont.
  - now apply cell_of_assign_present.
  - rewrite (replace_absent _ _ _ Hcont) in Hstr. split; [assumption|].
    simpl. rewrite Z.add_0_r. now apply cell_of_assign_present.
Qed.

(** ** Numeric coercion *)

Lemma is_float_ok self c b : _is_float self c = Ok b -> b = is_ok (to_float c).
Proof.
  unfold _is_float. destruct (to_float c) as [x|[]]; simpl; congruence.
Qed.

Lemma select_filter {A : Type} (p : A -> bool) (l : list A) (mask : list bool) :
  Forall2 (fun r b => p r = b) l mask ->
  map snd (List.filter fst (combine mask l)) = List.filter p l.
Proof.
  induction 1 as [|r b l mask Hb _ IH]; simpl; [reflexivity|].
  rewrite Hb. destruct b; simpl; now rewrite IH.
Qed.

Lemma zip_with_pointwise {A B C : Type} (f : A -> B -> C) (g : A -> C)
      (l : list A) (k : list B) :
  Forall2 (fun r v => f r v = g r) l k -> zip_with f l k = map g l.
Proof. induction 1 as [|r v l k H _ IH]; simpl; [reflexivity | now rewrite H, IH]. Qed.

Lemma Forall2_compose {A B C : Type} (P : A -> B -> Prop) (Q : B -> C -> Prop)
      (l : list A) (k : list B) (m : list C) :
  Forall2 P l k -> Forall2 Q k m -> Forall2 (fun a c => exists b, P a b /\ Q b c) l m.
Proof.
  intros H. revert m. induction H as [|a b l k Hab _ IH]; intros m Hm;
    inversion Hm; subst; constructor; eauto.
Qed.

Lemma filter_all {A : Type} (p : A -> bool) (l : list A) :
  Forall (fun a => p a = true) l -> List.filter p l = l.
Proof. induction 1 as [|a l Ha _ IH]; simpl; [reflexivity | now rewrite Ha, IH]. Qed.

Lemma map_id_on {A : Type} (f : A -> A) (l : list A) :
  Forall (fun a => f a = a) l -> map f l = l.
Proof. induction 1 as [|a l Ha _ IH]; simpl; [reflexivity | now rewrite Ha, IH]. Qed.

Lemma cell_of_named_present n (r : Row) c :
  cell_of n r = Some c -> has_label n r = true.
Proof.
  unfold cell_of. intros H. destruct (has_label n r) eqn:Hl; [reflexivity|].
  apply has_label_named in Hl. rewrite Hl in H. discriminate.
Qed.

Lemma cell_of_floated_ne n m (r : Row) :
  m <> n -> cell_of m (floated n r) = cell_of m r.
Proof.
  intros H. unfold floated. destruct (cell_of n r) as [c|]; [|reflexivity].
  destruct (to_float c); [|reflexivity]. now apply cell_of_assign_ne.
Qed.

Lemma cell_of_floated_eq n (r : Row) c x :
  cell_of n r = Some c -> to_float c = Ok x ->
  cell_of n (floated n r) = Some (VFloat x).
Proof.
  intros Hc Hx. unfold floated. rewrite Hc, Hx.
  apply cell_of_assign_present. rewrite Hc. eauto.
Qed.

Lemma Forall2_In_left {A B : Type} (P : A -> B -> Prop) (l : list A) (k : list B) a :
  Forall2 P l k -> In a l -> exists b, In b k /\ P a b.
Proof.
  induction 1 as [|x y l k Hxy _ IH]; simpl; [contradiction|].
  intros [<-|Hin]; [eauto|]. destruct (IH Hin) as (b & Hb & Hab). eauto.
Qed.

Lemma Forall2_In_right {A B : Type} (P : A -> B -> Prop) (l : list A) (k : list B) b :
  Forall2 P l k -> In b k -> exists a, In a l /\ P a b.
Proof.
  induction 1 as [|x y l k Hxy _ IH]; simpl; [contradiction|].
  intros [<-|Hin]; [eauto|]. destruct (IH Hin) as (a & Ha & Hab). eauto.
Qed.

(** What the block does to one numeric column. *)
Lemma cast_float_col_ok self n df df' :
  cast_float_col self n df = Ok df' ->
  float_typed n (columns df) (rows df) ->
  map fst (columns df') = map fst (columns df) /\
  (forall m, m <> n -> named m (columns df') = named m (columns df)) /\
  rows df' = map (floated n) (List.filter (float_ok n) (rows df)).
Proof.
  unfold cast_float_col. intros H Htyped.
  inv_bind H. rename a into s, Ha into Hs.
  pose proof (get_item_ok _ _ _ Hs) as [Hhdr Hcells].
  destruct (dtype_eqb (s_dtype s) DFloat) eqn:Hdt; simpl in H.
  - (* already float: nothing is done *)
    injection H as <-. split; [reflexivity|]. split; [reflexivity|].
    assert (Hd : s_dtype s = DFloat) by (destruct (s_dtype s); simpl in Hdt; congruence).
    rewrite Hd in Hhdr. specialize (Htyped Hhdr).
    assert (Hall : Forall (fun r => float_ok n r = true /\ floated n r = r) (rows df)).
    { apply List.Forall_forall. intros r Hr.
      destruct (Forall2_In_left _ _ _ _ Hcells Hr) as (c & _ & Hc).
      rewrite List.Forall_forall in Htyped. destruct (Htyped r Hr c Hc) as [x ->].
      unfold float_ok, floated. rewrite Hc. simpl. split; [reflexivity|].
      now apply assign_same. }
    rewrite filter_all by (eapply Forall_impl; [exact Hall|]; simpl; tauto).
    symmetry. apply map_id_on. eapply Forall_impl; [exact Hall|]. simpl; tauto.
  - (* filter, then change the dtype *)
    inv_bind H. rename a into mask, Ha into Hmask.
    apply mapM_Forall2 in Hmask.
    assert (Hsel : Forall2 (fun r b => float_ok n r = b) (rows df) mask).
    { eapply Forall2_impl; [exact (Forall2_compose _ _ _ _ _ Hcells Hmask)|].
      simpl. intros r b (c & Hc & Hb). unfold float_ok. rewrite Hc.
      symmetry. eapply is_float_ok, Hb. }
    unfold astype_float in H. inv_bind H. rename a into s2, Ha into Hs2.
    inv_bind H. rename a into xs, Ha into Hxs.
    destruct mask as [|b mask].
    { (* no row: the selection has no column left *)
      unfold get_item in Hs2. simpl in Hs2. discriminate. }
    assert (Hsel' : select (b :: mask) df
                    = mkDataFrame (columns df) (List.filter (float_ok n) (rows df))).
    { unfold select. f_equal. now apply select_filter. }
    rewrite Hsel' in *. clear Hsel'.
    pose proof (get_item_ok _ _ _ Hs2) as [_ Hcells2].
    apply mapM_Forall2 in Hxs.
    apply set_item_ok in H as (_ & Hc & Hr). cbn [columns rows s_dtype values] in *.
    rewrite Hc.
    assert (Hlab : has_label n (columns df) = true).
    { destruct (has_label n (columns df)) eqn:Hl; [reflexivity|].
      apply has_label_named in Hl. congruence. }
    split; [now apply labels_assign|].
    split; [intros m Hm; now apply named_assign_ne|].
    rewrite Hr. apply zip_with_pointwise.
    assert (Hconv : Forall2 (fun r x => exists c, cell_of n r = Some c /\ to_float c = Ok x)
                      (List.filter (float_ok n) (rows df)) xs).
    { exact (Forall2_compose _ _ _ _ _ Hcells2 Hxs). }
    clear - Hconv. induction Hconv as [|r x l k (c & Hc & Hx) _ IH]; simpl;
      constructor; [|exact IH].
    unfold floated. now rewrite Hc, Hx.
Qed.

(** ** The cleaning stage *)

Lemma well_formed_typed df : well_formed df = true -> well_typed df.
Proof.
  unfold well_formed, well_typed, float_typed. intros Hwf n _ Hhdr.
  rewrite forallb_forall in Hwf. apply List.Forall_forall. intros r' Hr' c Hc.
  apply in_map_iff in Hr' as (r & <- & Hr). specialize (Hwf r Hr).
  assert (Hall : Forall (fun d => d = DFloat) (named n (relabel strip (columns df))))
    by (rewrite Hhdr; repeat constructor).
  assert (Hcs : Forall (fun c => exists x, c = VFloat x) (named n (relabel strip r))).
  { clear - Hwf Hall. revert r Hwf Hall.
    induction (columns df) as [|[k d] cols IH]; intros [|[k' e] r] Hwf Hall;
      simpl in *; try discriminate; [constructor|].
    apply andb_true_iff in Hwf as [He Hwf]. unfold entry_ok in He. simpl in He.
    apply andb_true_iff in He as [Hk He]. apply String.eqb_eq in Hk as ->.
    unfold named in *. simpl in *.
    destruct (String.eqb (strip k) n); simpl in *.
    - inversion Hall as [|? ? Hd Hrest]; subst. simpl in He.
      constructor; [destruct e; try discriminate; eauto | now apply IH].
    - now apply IH. }
  unfold cell_of in Hc. destruct (named n (relabel strip r)) as [|a [|b t]];
    try discriminate.
  injection Hc as <-. now inversion Hcs.
Qed.

Lemma Forall2_zip_with_intro {A B : Type} (R : A -> A -> Prop) (f : A -> B -> A)
      (l : list A) (k : list B) :
  List.length k = List.length l -> (forall x y, R x (f x y)) ->
  Forall2 R l (zip_with f l k).
Proof.
  intros Hlen H. revert k Hlen.
  induction l as [|a l IH]; intros [|b k] Hlen; simpl in *; try discriminate;
    constructor; [apply H | apply IH; lia].
Qed.

Lemma Forall2_filter_map {A B : Type} (R R' : A -> B -> Prop) (p : A -> bool)
      (q : B -> bool) (f : B -> B) (l : list A) (l' : list B) :
  Forall2 R l l' ->
  (forall x y, R x y -> p x = q y) ->
  (forall x y, R x y -> q y = true -> R' x (f y)) ->
  Forall2 R' (List.filter p l) (map f (List.filter q l')).
Proof.
  intros H Hpq Hstep. induction H as [|x y l l' Hxy _ IH]; simpl; [constructor|].
  rewrite (Hpq x y Hxy). destruct (q y) eqn:Hq; simpl; [|exact IH].
  constructor; [now apply Hstep | exact IH].
Qed.

Lemma filter_filter_and {A : Type} (p q : A -> bool) (l : list A) :
  List.filter q (List.filter p l) = List.filter (fun a => p a && q a) l.
Proof.
  induction l as [|a l IH]; simpl; [reflexivity|].
  destruct (p a); simpl; [destruct (q a); simpl; now rewrite IH | exact IH].
Qed.

Lemma progress_float_ok done n r0 r :
  progress done r0 r -> ~ In n done -> In n numeric_names ->
  float_ok n r = float_ok n r0.
Proof.
  intros [_ H] Hn Hnum. unfold float_ok. rewrite H; [reflexivity|assumption| |].
  - simpl in Hnum. simpl. intuition (subst; discriminate).
  - simpl in Hnum. simpl. intuition (subst; discriminate).
Qed.

Lemma progress_step done n r0 r :
  progress done r0 r -> ~ In n done -> In n numeric_names ->
  float_ok n r = true -> progress (n :: done) r0 (floated n r).
Proof.
  intros Hp Hn Hnum Hok. pose proof (progress_float_ok _ _ _ _ Hp Hn Hnum) as Heq.
  destruct Hp as [Hdone Hrest]. split.
  - intros k [<-|Hk].
    + assert (Hsame : cell_of n r = cell_of n r0).
      { apply Hrest; [assumption| |]; simpl in Hnum; simpl;
          intuition (subst; discriminate). }
      unfold float_ok in Hok. destruct (cell_of n r) as [c|] eqn:Hc; [|discriminate].
      destruct (to_float c) as [x|] eqn:Hx; [|discriminate].
      exists c, x. split; [now rewrite <- Hsame|]. split; [assumption|].
      now apply (cell_of_floated_eq n r c x).
    + destruct (Hdone k Hk) as (c & x & H0 & Hx & Hr). exists c, x.
      split; [assumption|]. split; [assumption|].
      rewrite cell_of_floated_ne; [assumption|]. intros ->. contradiction.
  - intros m Hm Hts Hh. rewrite cell_of_floated_ne.
    + apply Hrest; [|assumption|assumption]. intros Hin. apply Hm. now right.
    + intros ->. apply Hm. now left.
Qed.

(** One numeric column, on rows that are related to the trimmed input. *)
Lemma cast_float_col_progress self n df df' done (p : Row -> bool) (rows0 : list Row)
      (cols0 : list (string * dtype)) :
  cast_float_col self n df = Ok df' ->
  ~ In n done -> In n numeric_names ->
  float_typed n cols0 rows0 ->
  named n (columns df) = named n cols0 ->
  Forall2 (progress done) (List.filter p rows0) (rows df) ->
  map fst (columns df') = map fst (columns df) /\
  (forall m, m <> n -> named m (columns df') = named m (columns df)) /\
  Forall2 (progress (n :: done))
    (List.filter (fun r => p r && float_ok n r) rows0) (rows df').
Proof.
  intros H Hn Hnum Htyped Hhdr Hrel.
  assert (Htyped' : float_typed n (columns df) (rows df)).
  { intros Hd. rewrite Hhdr in Hd. specialize (Htyped Hd).
    rewrite List.Forall_forall in Htyped. apply List.Forall_forall.
    intros r Hr c Hc.
    destruct (Forall2_In_right _ _ _ _ Hrel Hr) as (r0 & Hr0 & [_ Hp]).
    apply filter_In in Hr0 as [Hr0 _]. apply (Htyped r0 Hr0 c).
    rewrite <- Hp; [assumption|assumption| |]; simpl in Hnum; simpl;
      intuition (subst; discriminate). }
  apply cast_float_col_ok in H as (Hl & Hm & ->); [|assumption].
  split; [assumption|]. split; [assumption|].
  rewrite <- filter_filter_and.
  eapply Forall2_filter_map; [exact Hrel | |].
  - intros x y Hxy. symmetry. now apply (progress_float_ok done).
  - intros x y Hxy Hok. now apply progress_step.
Qed.

(** The two timestamp columns: what the stage has done before it turns to
    the numeric columns. *)
Lemma timestamps_ok df0 df1 s s' df2 :
  _transform_datetime_col df0 = Ok df1 ->
  get_item "date posted" df1 = Ok s ->
  to_datetime fmt_mdY s = Ok s' ->
  set_item "date posted" s' df1 = Ok df2 ->
  map fst (columns df2) = map fst (remove helper_names (columns df0)) /\
  (forall m, m <> "datetime" -> m <> "date posted" -> ~ In m helper_names ->
     named m (columns df2) = named m (columns df0)) /\
  Forall2 (progress []) (rows df0) (rows df2) /\
  Forall (fun r => exists c v,
            cell_of "datetime" r = Some c /\
            to_datetime_cell fmt_mdY_HM (replace_cell "24:00" "00:00" c) = Ok v)
         (rows df0) /\
  Forall (fun r => exists c v,
            cell_of "date posted" r = Some c /\ to_datetime_cell fmt_mdY c = Ok v)
         (rows df0).
Proof.
  intros H1 H2 H3 H4.
  apply transform_datetime_col_ok in H1
    as (dvals & cvals & Hhdr & Hcells & Hcast & Hcols1 & Hrows1).
  pose proof (get_item_ok _ _ _ H2) as [Hhdr2 Hcells2].
  unfold to_datetime in H3. inv_bind H3. rename a into vs. injection H3 as <-.
  apply set_item_ok in H4 as (Hlen & Hcols2 & Hrows2). simpl in *.
  apply mapM_Forall2 in Hcast, Ha.
  assert (Hlenr : List.length (repaired dvals cvals) = List.length (rows df0)).
  { unfold repaired, timedeltas.
    rewrite length_zip_with_same; rewrite ?length_map.
    - rewrite <- (Forall2_length _ _ _ Hcast), length_map.
      symmetry. eapply Forall2_length, Hcells.
    - apply (Forall2_length _ _ _) in Hcast. now rewrite length_map in Hcast. }
  assert (Hd : has_label "datetime" (remove helper_names (columns df0)) = true).
  { rewrite has_label_remove by (cbv; intuition discriminate).
    destruct (has_label "datetime" (columns df0)) eqn:Hl; [reflexivity|].
    apply has_label_named in Hl. congruence. }
  assert (Hp : has_label "date posted" (columns df1) = true).
  { destruct (has_label "date posted" (columns df1)) eqn:Hl; [reflexivity|].
    apply has_label_named in Hl. congruence. }
  assert (Hstep1 : Forall2 (fun r0 r1 => forall m, m <> "datetime" ->
                                ~ In m helper_names -> cell_of m r1 = cell_of m r0)
                     (rows df0) (rows df1)).
  { rewrite Hrows1. apply Forall2_zip_with_intro; [assumption|].
    intros r v m Hm Hh. rewrite cell_of_assign_ne by assumption.
    now apply cell_of_remove. }
  assert (Hstep2 : Forall2 (fun r1 r2 => forall m, m <> "date posted" ->
                                cell_of m r2 = cell_of m r1)
                     (rows df1) (rows df2)).
  { rewrite Hrows2. apply Forall2_zip_with_intro; [assumption|].
    intros r v m Hm. now apply cell_of_assign_ne. }
  split; [|split; [|split; [|split]]].
  - rewrite Hcols2, labels_assign by assumption.
    rewrite Hcols1. now apply labels_assign.
  - intros m Hm1 Hm2 Hh. rewrite Hcols2, named_assign_ne by assumption.
    rewrite Hcols1, named_assign_ne by assumption. now apply named_remove.
  - eapply Forall2_impl; [exact (Forall2_compose _ _ _ _ _ Hstep1 Hstep2)|].
    simpl. intros r0 r2 (r1 & H01 & H12). split; [intros n []|].
    intros m _ Hts Hh. rewrite H12, H01; [reflexivity| |assumption|];
      simpl in Hts; intuition.
  - apply List.Forall_forall. intros r Hr.
    destruct (Forall2_In_left _ _ _ _ Hcells Hr) as (c & Hc & Hrc).
    assert (Hin : In (replace_cell "24:00" "00:00" c)
                     (map (replace_cell "24:00" "00:00") dvals)) by now apply in_map.
    destruct (Forall2_In_left _ _ _ _ Hcast Hin) as (v & _ & Hv). eauto.
  - apply List.Forall_forall. intros r Hr.
    destruct (Forall2_In_left _ _ _ _ Hstep1 Hr) as (r1 & Hr1 & H01).
    destruct (Forall2_In_left _ _ _ _ Hcells2 Hr1) as (c & Hc & Hrc).
    destruct (Forall2_In_left _ _ _ _ Ha Hc) as (v & _ & Hv).
    exists c, v. split; [|assumption].
    rewrite <- H01; [assumption|discriminate|cbv; intuition discriminate].
Qed.

Lemma cleaned_progress r0 r : progress (rev numeric_names) r0 r -> cleaned r0 r.
Proof.
  intros [Hdone Hrest]. split.
  - intros n Hn. apply Hdone. now apply in_rev in Hn.
  - intros n Hn Hh. apply Hrest; [| |assumption].
    + intros Hin. apply Hn. apply in_rev in Hin. simpl in *. tauto.
    + intros Hin. apply Hn. simpl in *. tauto.
Qed.

Lemma numeric_ok_filter (l : list Row) :
  List.filter (fun r => ((true && float_ok "duration (seconds)" r)
                         && float_ok "latitude" r) && float_ok "longitude" r) l
  = List.filter numeric_ok l.
Proof. apply List.filter_ext. intros r. reflexivity. Qed.

(** The cleaning stage, when it returns: the surviving rows are the input
    rows whose three numeric fields parse, in the order of the input, each
    of them cleaned; the header is the trimmed header without the helper
    labels; and every timestamp cell converted. *)
(** A block that filters needs a row: on a frame without rows the mask
    is empty, the selection has no column left, and the cast does not
    find the column. *)
Lemma cast_float_col_needs_rows self n df df' :
  cast_float_col self n df = Ok df' ->
  named n (columns df) <> [DFloat] ->
  rows df <> [].
Proof.
  unfold cast_float_col. intros H Hdt Hnil.
  inv_bind H. rename a into s, Ha into Hs.
  pose proof (get_item_ok _ _ _ Hs) as [Hhdr Hcells].
  destruct (dtype_eqb (s_dtype s) DFloat) eqn:Hd; simpl in H.
  - apply Hdt. rewrite Hhdr. f_equal.
    destruct (s_dtype s); simpl in Hd; congruence.
  - assert (Hv : values s = []) by (rewrite Hnil in Hcells; now inversion Hcells).
    rewrite Hv in H. simpl in H. unfold astype_float, get_item in H. simpl in H. discriminate.
Qed.

(** The frames between the three numeric blocks of a run of the cleaning
    stage that returns. *)
Lemma clean_file_stages self df out :
  _clean_file self df = Ok out ->
  well_typed df ->
  exists df2 df3 df4,
    cast_float_col self "duration (seconds)" df2 = Ok df3 /\
    cast_float_col self "latitude" df3 = Ok df4 /\
    cast_float_col self "longitude" df4 = Ok out /\
    named "duration (seconds)" (columns df2)
    = named "duration (seconds)" (relabel strip (columns df)) /\
    named "latitude" (columns df3) = named "latitude" (relabel strip (columns df)) /\
    named "longitude" (columns df4) = named "longitude" (relabel strip (columns df)) /\
    map fst (columns df4)
    = map fst (remove helper_names (relabel strip (columns df))) /\
    Forall2 (progress []) (map (relabel strip) (rows df)) (rows df2) /\
    Forall2 (progress ["duration (seconds)"])
      (List.filter (fun r => true && float_ok "duration (seconds)" r)
         (map (relabel strip) (rows df))) (rows df3) /\
    Forall2 (progress ["latitude"; "duration (seconds)"])
      (List.filter (fun r => (true && float_ok "duration (seconds)" r)
                             && float_ok "latitude" r)
         (map (relabel strip) (rows df))) (rows df4).
Proof.
  unfold _clean_file. intros H Hwt.
  inv_bind H. rename a into df1, Ha into H1.
  inv_bind H. rename a into dp, Ha into H2. apply on_frame_ok in H2.
  inv_bind H. rename a into dp', Ha into H3.
  inv_bind H. rename a into df2, Ha into H4.
  inv_bind H. rename a into df3, Ha into H5.
  inv_bind H. rename a into df4, Ha into H6.
  inv_bind H. rename a into df5, Ha into H7.
  injection H as <-.
  destruct (timestamps_ok _ _ _ _ _ H1 H2 H3 H4) as (Hlab & Hnamed & Hrel & _ & _).
  simpl in Hlab, Hnamed, Hrel.
  set (rows0 := map (relabel strip) (rows df)) in *.
  set (cols0 := relabel strip (columns df)) in *.
  assert (Hrel0 : Forall2 (progress []) (List.filter (fun _ => true) rows0) (rows df2)).
  { rewrite filter_all; [assumption|]. apply List.Forall_forall. reflexivity. }
  destruct (cast_float_col_progress self "duration (seconds)" df2 df3 []
              (fun _ => true) rows0 cols0 H5) as (Hl3 & Hn3 & Hrel3);
    [simpl; tauto | simpl; tauto | apply Hwt; simpl; tauto
    | apply Hnamed; cbv; intuition discriminate | assumption |].
  destruct (cast_float_col_progress self "latitude" df3 df4
              ["duration (seconds)"]
              (fun r => true && float_ok "duration (seconds)" r) rows0 cols0 H6)
    as (Hl4 & Hn4 & Hrel4);
    [simpl; intuition discriminate | simpl; tauto | apply Hwt; simpl; tauto
    | rewrite Hn3 by discriminate; apply Hnamed; cbv; intuition discriminate
    | exact Hrel3 |].
  exists df2, df3, df4. repeat (split; [assumption|]).
  split; [apply Hnamed; cbv; intuition discriminate|].
  split; [rewrite Hn3 by discriminate; apply Hnamed; cbv; intuition discriminate|].
  split; [rewrite Hn4, Hn3 by discriminate; apply Hnamed; cbv; intuition discriminate|].
  split; [now rewrite Hl4, Hl3|].
  split; [assumption|]. split; assumption.
Qed.

Lemma clean_file_ok self df out :
  _clean_file self df = Ok out ->
  well_typed df ->
  Forall2 cleaned (List.filter numeric_ok (map (relabel strip) (rows df))) (rows out) /\
  map fst (columns out) = map fst (remove helper_names (relabel strip (columns df))).
Proof.
  intros H Hwt.
  destruct (clean_file_stages self df out H Hwt)
    as (df2 & df3 & df4 & _ & _ & H7 & _ & _ & Hn & Hl4 & _ & _ & Hrel4).
  destruct (cast_float_col_progress self "longitude" df4 out
              ["latitude"; "duration (seconds)"]
              (fun r => (true && float_ok "duration (seconds)" r)
                        && float_ok "latitude" r)
              (map (relabel strip) (rows df)) (relabel strip (columns df)) H7)
    as (Hl5 & Hn5 & Hrel5);
    [simpl; intuition discriminate | simpl; tauto | apply Hwt; simpl; tauto
    | exact Hn | exact Hrel4 |].
  split.
  - rewrite numeric_ok_filter in Hrel5.
    eapply Forall2_impl; [exact Hrel5|]. intros r0 r. apply cleaned_progress.
  - now rewrite Hl5, Hl4.
Qed.

(** ** Ordering *)

(** C2 (fails on the code): the rows are sorted on the text of the
    [datetime] column, before that column is parsed.  On texts of the form
    MM/DD/YYYY the order of the characters is not the order of time: the
    three rows of the example come out as 2021-01-01 04:00, 2021-01-01
    05:00, 2020-06-01 12:00, the earliest timestamp last. *)
Theorem sort_is_on_text :
  column "datetime" (_transform_csv ufo sample_three)
  = [Some (VTime (civil 2021 1 1 4 0));
     Some (VTime (civil 2021 1 1 5 0));
     Some (VTime (civil 2020 6 1 12 0))]
  /\ column "city" (_transform_csv ufo sample_three)
     = [Some (VStr "denver"); Some (VStr "austin"); Some (VStr "boston")]
  /\ civil 2020 6 1 12 0 < civil 2021 1 1 4 0.
Proof. repeat split; vm_compute; reflexivity. Qed.

(** ** The width estimator *)

Lemma digits2_size p : digits2_pos p = Pos.size p.
Proof. induction p; simpl; congruence. Qed.

Lemma digits2_bounds p :
  2 ^ (Zpos (digits2_pos p) - 1) <= Zpos p < 2 ^ Zpos (digits2_pos p).
Proof.
  rewrite digits2_size. split.
  - pose proof (Pos.size_le p) as H.
    assert (Hz : 2 ^ Zpos (Pos.size p) <= 2 * Zpos p).
    { rewrite <- Pos2Z.inj_pow. change (2 * Z.pos p) with (Zpos p~0). lia. }
    replace (Zpos (Pos.size p)) with (Z.succ (Zpos (Pos.size p) - 1)) in Hz by lia.
    rewrite Z.pow_succ_r in Hz by lia. lia.
  - pose proof (Pos.size_gt p) as H. rewrite <- Pos2Z.inj_pow. lia.
Qed.

Lemma digits2_unique p d :
  2 ^ (d - 1) <= Zpos p < 2 ^ d -> Zpos (digits2_pos p) = d.
Proof.
  intros [Hlo Hhi]. pose proof (digits2_bounds p) as [Hlo' Hhi'].
  assert (0 < d).
  { destruct (Z_lt_le_dec 0 d); [assumption|].
    destruct (Z.eq_dec d 0) as [->|]; [simpl in Hhi; lia|].
    rewrite Z.pow_neg_r in Hhi by lia. lia. }
  set (d' := Zpos (digits2_pos p)) in *.
  destruct (Z_lt_le_dec d d').
  - assert (2 ^ d <= 2 ^ (d' - 1)) by (apply Z.pow_le_mono_r; lia). lia.
  - destruct (Z_lt_le_dec d' d); [|lia].
    assert (2 ^ d' <= 2 ^ (d - 1)) by (apply Z.pow_le_mono_r; lia). lia.
Qed.

Lemma iter_pos_iter {A} (f : A -> A) p x :
  SpecFloat.iter_pos f p x = Pos.iter f x p.
Proof.
  revert x. induction p as [p IH|p IH|]; intros x; simpl.
  - rewrite !IH, !Pos.iter_swap. reflexivity.
  - rewrite !IH. reflexivity.
  - reflexivity.
Qed.

Lemma shifted_step M k mrs : shifted M k mrs -> shifted M (S k) (shr_1 mrs).
Proof.
  intros (rho & HM & Hm & Hloc).
  unfold shifted. rewrite Nat2Z.inj_succ, Z.pow_succ_r by lia.
  assert (0 < 2 ^ Z.of_nat k) by (apply Z.pow_pos_nonneg; lia).
  destruct mrs as [m r s]. cbn [shr_m] in *.
  destruct m as [|[p|p|]|p]; try lia; destruct r, s; cbn in *;
    first [ exists rho; lia | exists (2 ^ Z.of_nat k + rho); lia ].
Qed.

Lemma shifted_iter M k :
  0 <= M -> shifted M k (Nat.iter k shr_1 (Build_shr_record M false false)).
Proof.
  intros HM. induction k as [|k IH].
  - exists 0. cbn. lia.
  - cbn [Nat.iter]. now apply shifted_step.
Qed.

Lemma shr_shifted M e p :
  0 <= M ->
  exists mrs, shr (Build_shr_record M false false) e (Zpos p) = (mrs, e + Zpos p)
              /\ shifted M (Pos.to_nat p) mrs.
Proof.
  intros HM. cbn [shr]. eexists. split; [reflexivity|].
  rewrite iter_pos_iter, Pos2Nat.inj_iter. now apply shifted_iter.
Qed.

Lemma Zdigits2_unique m d :
  0 < m -> 2 ^ (d - 1) <= m < 2 ^ d -> Zdigits2 m = d.
Proof.
  intros Hm H. destruct m as [|p|p]; try lia. cbn [Zdigits2]. now apply digits2_unique.
Qed.

(** A mantissa of 53 bits within the exponent range is not rounded. *)
Lemma round_aux_exact sx m e :
  2 ^ 52 <= Zpos m < 2 ^ 53 -> -1074 <= e <= 971 ->
  binary_round_aux prec emax sx (Zpos m) e loc_Exact = S754_finite sx m e.
Proof.
  intros Hm He. unfold binary_round_aux, shr_fexp.
  rewrite (Zdigits2_unique (Zpos m) 53) by (simpl; lia).
  replace (fexp prec emax (53 + e) - e) with 0
    by (unfold fexp, emin, prec, emax; lia).
  cbn [shr shr_record_of_loc shr_m loc_of_shr_record round_nearest_even].
  rewrite (Zdigits2_unique (Zpos m) 53) by (simpl; lia).
  replace (fexp prec emax (53 + e) - e) with 0
    by (unfold fexp, emin, prec, emax; lia).
  cbn [shr shr_record_of_loc shr_m].
  replace (Z.leb e (emax - prec)) with true; [reflexivity|].
  symmetry. apply Z.leb_le. unfold emax, prec. lia.
Qed.

(** The rounding of a product of two 53-bit mantissas: [n] bits are
    shifted out, the quotient is rounded to nearest, and the result is
    normalised again when the rounding carries into a 54th bit. *)
Lemma round_aux_product M E n :
  n = 52 \/ n = 53 ->
  2 ^ (52 + n) <= Zpos M < 2 ^ (53 + n) ->
  -1074 <= E + n <= 970 ->
  exists q rho m' m2 e2,
    Zpos M = q * 2 ^ n + rho /\ 0 <= rho < 2 ^ n /\
    q <= m' <= q + 1 /\ (2 ^ n < 2 * rho -> m' = q + 1) /\
    binary_round_aux prec emax false (Zpos M) E loc_Exact = S754_finite false m2 e2 /\
    ((Zpos m2 = m' /\ e2 = E + n) \/
     (m' = 2 ^ 53 /\ Zpos m2 = 2 ^ 52 /\ e2 = E + n + 1)).
Proof.
  intros Hn HM HE.
  assert (Hp : exists p, n = Zpos p /\ Z.of_nat (Pos.to_nat p) = n).
  { destruct Hn as [-> | ->]; eexists; split; reflexivity. }
  destruct Hp as (p & Hp & Hnat).
  destruct (shr_shifted (Zpos M) E p ltac:(lia)) as (mrs & Hshr & Hsh).
  assert (Hfst : shr_fexp prec emax (Zpos M) E loc_Exact = (mrs, E + n)).
  { unfold shr_fexp.
    rewrite (Zdigits2_unique (Zpos M) (53 + n))
      by (try lia; replace (53 + n - 1) with (52 + n) by lia; exact HM).
    replace (fexp prec emax (53 + n + E) - E) with (Zpos p)
      by (unfold fexp, emin, prec, emax; lia).
    cbn [shr_record_of_loc]. rewrite Hshr, Hp. reflexivity. }
  destruct Hsh as (rho & HMq & Hq & Hloc). rewrite Hnat in HMq, Hloc.
  unfold binary_round_aux. rewrite Hfst.
  set (q := shr_m mrs) in *.
  set (m' := round_nearest_even q (loc_of_shr_record mrs)).
  assert (Hpow : 0 < 2 ^ n) by (apply Z.pow_pos_nonneg; lia).
  assert (Hrho : 0 <= rho < 2 ^ n).
  { destruct (loc_of_shr_record mrs) as [|[]]; lia. }
  assert (Hm' : q <= m' <= q + 1 /\ (2 ^ n < 2 * rho -> m' = q + 1)).
  { subst m'. destruct (loc_of_shr_record mrs) as [|[]]; cbn [round_nearest_even];
      try destruct (Z.even q); lia. }
  assert (Hqb : 2 ^ 52 <= q < 2 ^ 53).
  { rewrite !Z.pow_add_r in HM by lia. nia. }
  clearbody m'. destruct Hm' as [Hm1 Hm2].
  destruct (Z.eq_dec m' (2 ^ 53)) as [He|Hne].
  - exists q, rho, m', (2 ^ 52)%positive, (E + n + 1).
    repeat (split; [assumption || lia|]). split.
    + subst m'. unfold shr_fexp.
      rewrite (Zdigits2_unique (2 ^ 53) 54) by (simpl; lia).
      replace (fexp prec emax (54 + (E + n)) - (E + n)) with 1
        by (unfold fexp, emin, prec, emax; lia).
      cbn.
      replace (Z.leb (E + n + 1) (emax - prec)) with true; [reflexivity|].
      symmetry. apply Z.leb_le. unfold emax, prec. lia.
    + right. split; [assumption|]. split; reflexivity.
  - destruct m' as [|pm|pm]; try lia.
    exists q, rho, (Zpos pm), pm, (E + n).
    repeat (split; [assumption || lia|]). split.
    + unfold shr_fexp. rewrite (Zdigits2_unique (Zpos pm) 53) by (simpl; lia).
      replace (fexp prec emax (53 + (E + n)) - (E + n)) with 0
        by (unfold fexp, emin, prec, emax; lia).
      cbn [shr shr_record_of_loc shr_m].
      replace (Z.leb (E + n) (emax - prec)) with true; [reflexivity|].
      symmetry. apply Z.leb_le. unfold emax, prec. lia.
    + left. split; reflexivity.
Qed.

Lemma iter_xO m d : Zpos (Pos.iter xO m d) = Zpos m * 2 ^ Zpos d.
Proof.
  rewrite Pos2Nat.inj_iter, <- (positive_nat_Z d).
  induction (Pos.to_nat d) as [|k IH].
  - cbn. lia.
  - rewrite Nat2Z.inj_succ, Z.pow_succ_r by lia.
    unfold Nat.iter in *. cbn [nat_rect]. rewrite Pos2Z.inj_xO, IH. lia.
Qed.

(** [float(L)] for an integer below [2^53]: the mantissa is [L] with
    [s] zero bits behind it. *)
Lemma of_Z_normal L s :
  0 < s -> 2 ^ 52 <= L * 2 ^ s < 2 ^ 53 ->
  exists mz, Zpos mz = L * 2 ^ s /\ of_Z L = S754_finite false mz (- s).
Proof.
  intros Hs HL.
  assert (Hpow : 0 < 2 ^ s) by (apply Z.pow_pos_nonneg; lia).
  destruct L as [|p|p]; try lia.
  assert (Hs52 : s <= 52).
  { destruct (Z_lt_le_dec 52 s) as [Hgt|]; [|lia].
    assert (2 ^ 53 <= 2 ^ s) by (apply Z.pow_le_mono_r; lia). nia. }
  assert (Hd : Zpos (digits2_pos p) = 53 - s).
  { apply digits2_unique.
    replace (53 - s - 1) with (52 - s) by lia.
    assert (H52 : 2 ^ 52 = 2 ^ (52 - s) * 2 ^ s)
      by (rewrite <- Z.pow_add_r by lia; f_equal; lia).
    assert (H53 : 2 ^ 53 = 2 ^ (53 - s) * 2 ^ s)
      by (rewrite <- Z.pow_add_r by lia; f_equal; lia).
    rewrite H52, H53 in HL. destruct HL as [Hlo Hhi]. split.
    - now apply Z.mul_le_mono_pos_r in Hlo.
    - now apply Z.mul_lt_mono_pos_r in Hhi. }
  unfold of_Z, binary_normalize, binary_round, shl_align. rewrite Hd.
  replace (fexp prec emax (53 - s + 0)) with (- s)
    by (unfold fexp, emin, prec, emax; lia).
  destruct s as [|ps|ps]; try lia. cbn [Z.opp Z.sub Z.add].
  exists (Pos.iter xO p ps). split; [apply iter_xO|].
  apply round_aux_exact; [rewrite iter_xO; exact HL | lia].
Qed.

Lemma lit_1_2_bits : lit_1_2 = S754_finite false 5404319552844595 (-52).
Proof. vm_compute. reflexivity. Qed.

Lemma ceil_div_unique m K W :
  0 < K -> (W - 1) * K < m <= W * K -> - ((- m) / K) = W.
Proof.
  intros HK Hm. rewrite <- (Z.div_unique (- m) K (- W) (W * K - m)); lia.
Qed.

Lemma ceil_scaled m W P4 WP c :
  WP = W * P4 -> 0 < c -> 0 < P4 ->
  c * WP - c * P4 < m <= c * WP -> - ((- m) / (c * P4)) = W.
Proof.
  intros -> Hc HP Hm. apply ceil_div_unique; [lia|].
  replace ((W - 1) * (c * P4)) with (c * (W * P4) - c * P4) by ring.
  replace (W * (c * P4)) with (c * (W * P4)) by ring. exact Hm.
Qed.

(** The width computed in binary64 is the ceiling of six fifths of the
    length, for every length below [3 * 2^49]. *)
Lemma width_of_length L :
  0 <= L < length_bound -> ceil (mul (of_Z L) buffer) = Ok ((6 * L + 4) / 5).
Proof.
  unfold length_bound. intros HL.
  destruct (Z.eq_dec L 0) as [->|Hnz]; [vm_compute; reflexivity|].
  assert (Hp : exists p, L = Zpos p) by (destruct L; try lia; eauto).
  destruct Hp as [p Hp].
  pose proof (digits2_bounds p) as Hd. rewrite <- Hp in Hd.
  set (d := Zpos (digits2_pos p)) in *.
  assert (Hd1 : 1 <= d) by (subst d; lia).
  assert (Hd51 : d <= 51).
  { destruct (Z_lt_le_dec 51 d) as [Hgt|]; [|lia].
    assert (2 ^ 51 <= 2 ^ (d - 1)) by (apply Z.pow_le_mono_r; lia).
    change (2 ^ 49) with 562949953421312 in HL.
    change (2 ^ 51) with 2251799813685248 in *. lia. }
  set (s := 53 - d).
  set (P4 := 2 ^ (s - 2)).
  assert (HP4 : 0 < P4) by (apply Z.pow_pos_nonneg; lia).
  assert (HP2 : 2 ^ (s - 1) = 2 * P4).
  { subst P4. rewrite <- Z.pow_succ_r by lia. f_equal. lia. }
  assert (HP : 2 ^ s = 4 * P4).
  { replace s with (Z.succ (s - 1)) at 1 by lia. rewrite Z.pow_succ_r, HP2 by lia. lia. }
  assert (HX : 2 ^ 52 <= L * 2 ^ s < 2 ^ 53).
  { assert (H52 : 2 ^ 52 = 2 ^ (d - 1) * 2 ^ s)
      by (rewrite <- Z.pow_add_r by lia; f_equal; lia).
    assert (H53 : 2 ^ 53 = 2 ^ d * 2 ^ s)
      by (rewrite <- Z.pow_add_r by lia; f_equal; lia).
    rewrite H52, H53. destruct Hd as [Hlo Hhi].
    assert (0 < 2 ^ s) by lia. split.
    - now apply Z.mul_le_mono_pos_r.
    - now apply Z.mul_lt_mono_pos_r. }
  destruct (of_Z_normal L s ltac:(lia) HX) as (mz & Hmz & ->).
  unfold mul, buffer. rewrite lit_1_2_bits. cbn [SFmul xorb].
  set (W := (6 * L + 4) / 5).
  assert (HW : 5 * (W - 1) + 1 <= 6 * L <= 5 * W).
  { pose proof (Z.div_mod (6 * L + 4) 5 ltac:(lia)).
    pose proof (Z.mod_pos_bound (6 * L + 4) 5 ltac:(lia)). subst W. lia. }
  set (LP := L * P4). set (WP := W * P4).
  assert (HWPdef : WP = W * P4) by reflexivity.
  assert (HLP : Zpos mz = 4 * LP) by (subst LP; lia).
  assert (HWP : 5 * WP - 4 * P4 <= 6 * LP <= 5 * WP) by (subst LP WP; nia).
  assert (HLsmall : P4 = 1 -> 4 * LP < 3 * 2 ^ 51).
  { intros H1. subst LP. rewrite H1. change (2 ^ 49) with 562949953421312 in HL.
    change (2 ^ 51) with 2251799813685248. lia. }
  assert (HP4cases : P4 = 1 \/ 2 <= P4).
  { destruct (Z.eq_dec s 2) as [Hs2|Hs2].
    - left. subst P4. rewrite Hs2. reflexivity.
    - right. subst P4. replace (s - 2) with (Z.succ (s - 3)) by lia.
      rewrite Z.pow_succ_r by lia.
      assert (0 < 2 ^ (s - 3)) by (apply Z.pow_pos_nonneg; lia). lia. }
  rewrite <- Hmz in HX.
  assert (Hs : 2 <= s <= 52) by lia.
  assert (HP1 : 2 ^ (s - 2) = P4) by reflexivity.
  clearbody LP WP W P4 s.
  set (M := (mz * 5404319552844595)%positive).
  assert (HM : Zpos M = Zpos mz * 5404319552844595) by reflexivity.
  clearbody M. clear Hmz.
  change (2 ^ 52) with 4503599627370496 in *.
  change (2 ^ 53) with 9007199254740992 in *.
  change (2 ^ 51) with 2251799813685248 in *.
  destruct (Z_lt_le_dec (Zpos M) (2 ^ 105)) as [Hlt|Hge].
  - destruct (round_aux_product M (- s + -52) 52 (or_introl eq_refl))
      as (q & rho & m' & m2 & e2 & HMq & Hrho & Hm1 & Hm2 & -> & Hres).
    { change (52 + 52) with 104. change (53 + 52) with 105.
      change (2 ^ 104) with 20282409603651670423947251286016 in *.
      split; [lia|exact Hlt]. }
    { lia. }
    change (2 ^ 105) with 40564819207303340847894502572032 in *.
    change (2 ^ 52) with 4503599627370496 in *.
    change (2 ^ 53) with 9007199254740992 in *.
    assert (Hgoal : 4 * WP - 4 * P4 < m' <= 4 * WP) by lia.
    unfold ceil. f_equal.
    destruct Hres as [[Hm2' ->] | (Hm' & Hm2' & ->)].
    + replace (0 <=? - s + -52 + 52) with false by (symmetry; apply Z.leb_gt; lia).
      replace (- (- s + -52 + 52)) with s by lia. rewrite HP, Hm2'.
      apply (ceil_scaled m' W P4 WP 4); [assumption|lia|lia|exact Hgoal].
    + replace (0 <=? - s + -52 + 52 + 1) with false by (symmetry; apply Z.leb_gt; lia).
      replace (- (- s + -52 + 52 + 1)) with (s - 1) by lia. rewrite HP2, Hm2'.
      apply (ceil_scaled _ W P4 WP 2); [assumption|lia|lia|lia].
  - destruct (round_aux_product M (- s + -52) 53 (or_intror eq_refl))
      as (q & rho & m' & m2 & e2 & HMq & Hrho & Hm1 & Hm2 & -> & Hres).
    { change (52 + 53) with 105. change (53 + 53) with 106.
      change (2 ^ 106) with 81129638414606681695789005144064 in *.
      split; [exact Hge|lia]. }
    { lia. }
    change (2 ^ 105) with 40564819207303340847894502572032 in *.
    change (2 ^ 52) with 4503599627370496 in *.
    change (2 ^ 53) with 9007199254740992 in *.
    assert (HP4' : 2 <= P4) by lia.
    assert (Hgoal : 2 * WP - 2 * P4 < m' <= 2 * WP) by lia.
    unfold ceil. f_equal.
    destruct Hres as [[Hm2' ->] | (Hm' & Hm2' & ->)].
    + replace (0 <=? - s + -52 + 53) with false by (symmetry; apply Z.leb_gt; lia).
      replace (- (- s + -52 + 53)) with (s - 1) by lia. rewrite HP2, Hm2'.
      apply (ceil_scaled m' W P4 WP 2); [assumption|lia|lia|exact Hgoal].
    + replace (0 <=? - s + -52 + 53 + 1) with false by (symmetry; apply Z.leb_gt; lia).
      replace (- (- s + -52 + 53 + 1)) with (s - 2) by lia. rewrite HP1, Hm2'.
      replace P4 with (1 * P4) at 1 by lia.
      apply (ceil_scaled _ W P4 WP 1); [assumption|lia|lia|lia].
Qed.

Lemma series_max_spec (l : list (option Z)) :
  match series_max l with
  | Some m => In (Some m) l /\ forall n, In (Some n) l -> n <= m
  | None => forall n, ~ In (Some n) l
  end.
Proof.
  induction l as [|[a|] l IH]; simpl.
  - intros n [].
  - destruct (series_max l) as [m|].
    + destruct IH as [Hin Hmax]. split.
      * destruct (Z.max_spec a m) as [[_ ->]|[_ ->]]; auto.
      * intros n [[= <-]|Hn]; [lia|]. specialize (Hmax n Hn). lia.
    + split; [now left|]. intros n [[= <-]|Hn]; [lia|]. now apply IH in Hn.
  - destruct (series_max l) as [m|].
    + destruct IH as [Hin Hmax]. split; [now right|].
      intros n [Hn|Hn]; [discriminate | now apply Hmax].
    + intros n [Hn|Hn]; [discriminate | now apply (IH n)].
Qed.

(** At [3 * 2^49] characters the binary64 product is rounded down to an
    integer and the estimate is one less than the ceiling: [length_bound]
    is where [width_of_length] stops. *)
Lemma width_bound_is_sharp :
  ceil (mul (of_Z length_bound) buffer) = Ok 2026619832316723
  /\ (6 * length_bound + 4) / 5 = 2026619832316724.
Proof. split; vm_compute; reflexivity. Qed.

(** C5: for a text column with at least one string, the estimator returns
    the least integer [w] with [1.2 * L <= w], [L] being the greatest
    length of a string of the column.  The product is computed in
    binary64; the statement covers every length below [3 * 2^49] (about
    1.7e15 characters, more than a string held in memory can have), and
    is proved for all of them at once.  Lengths 3, 10 and 7 give 12. *)
Theorem width_is_ceiling :
  (forall (df : DataFrame) (col : string) (s : Series) (L : Z),
      get_item col df = Ok s ->
      s_dtype s = DObject ->
      (exists x, In (VStr x) (values s) /\ Z.of_nat (String.length x) = L) ->
      (forall y, In (VStr y) (values s) -> Z.of_nat (String.length y) <= L) ->
      L < length_bound ->
      exists w, _calc_max_length df col = Ok w /\ 5 * (w - 1) < 6 * L <= 5 * w)
  /\ _calc_max_length sample_widths "shape" = Ok 12.
Proof.
  split; [|vm_compute; reflexivity].
  intros df col s L Hs Hobj (x & Hx & HxL) Hmax Hbound.
  unfold _calc_max_length. rewrite Hs. cbn [bind].
  unfold str_len, str_accessor. rewrite Hobj. cbn [bind].
  set (lens := map _ (values s)).
  assert (Hin : forall n, In (Some n) lens <->
                          exists y, In (VStr y) (values s) /\ Z.of_nat (String.length y) = n).
  { intros n. subst lens. rewrite in_map_iff. split.
    - intros ([y| | |] & Hy & Hc); try discriminate. injection Hy as <-. eauto.
    - intros (y & Hy & <-). exists (VStr y). auto. }
  pose proof (series_max_spec lens) as Hspec.
  destruct (series_max lens) as [m|].
  - destruct Hspec as [Hm Hle].
    assert (m = L) as ->.
    { apply Hin in Hm as (y & Hy & <-). specialize (Hmax y Hy).
      assert (L <= Z.of_nat (String.length y)); [|lia].
      apply Hle. apply Hin. eauto. }
    assert (H0 : 0 <= L) by lia.
    rewrite (width_of_length L (conj H0 Hbound)).
    eexists. split; [reflexivity|].
    pose proof (Z.div_mod (6 * L + 4) 5 ltac:(lia)).
    pose proof (Z.mod_pos_bound (6 * L + 4) 5 ltac:(lia)). lia.
  - exfalso. apply (Hspec L). apply Hin. eauto.
Qed.

(** C6: on a column without rows, or whose cells are all missing, the
    estimator raises instead of returning a width. *)
Theorem empty_column_raises :
  (forall (df : DataFrame) (col : string),
      Forall (fun r => forall c, cell_of col r = Some c -> isna c = true) (rows df) ->
      exists e, _calc_max_length df col = Raise e)
  /\ _calc_max_length sample_no_rows "shape" = Raise ValueError
  /\ _calc_max_length sample_all_null "shape" = Raise ValueError.
Proof.
  split; [|split; vm_compute; reflexivity].
  intros df col Hnull. unfold _calc_max_length.
  destruct (get_item col df) as [s|e] eqn:Hs; [|cbn; eauto].
  cbn [bind]. unfold str_len, str_accessor.
  destruct (s_dtype s); cbn [bind]; eauto.
  apply get_item_ok in Hs as [_ Hcells].
  set (lens := map _ (values s)).
  pose proof (series_max_spec lens) as Hspec.
  destruct (series_max lens) as [m|]; [|cbn; eauto].
  exfalso. destruct Hspec as [Hm _]. subst lens.
  apply in_map_iff in Hm as ([y| | |] & Hy & Hc); try discriminate.
  destruct (Forall2_In_right _ _ _ _ Hcells Hc) as (r & Hr & Hrc).
  rewrite List.Forall_forall in Hnull. specialize (Hnull r Hr _ Hrc). discriminate.
Qed.

(** ** The load step *)

Lemma to_sql_ok accepts name df db db' :
  to_sql accepts name df db = (db', Ok tt) ->
  forall t, db !! name = Some t ->
    db' = <[name := mkTable (schema t)
                      (stored t ++ with_keys (next_id t) (rows df))
                      (next_id t + Z.of_nat (List.length (rows df)))]> db.
Proof.
  unfold to_sql. intros H t Ht. rewrite Ht in H.
  destruct (forallb (accepts (schema t)) (rows df)); [|discriminate].
  now injection H as <-.
Qed.

Lemma length_with_keys k rs : List.length (with_keys k rs) = List.length rs.
Proof. revert k. induction rs as [|r rs IH]; intros k; simpl; [reflexivity | now rewrite IH]. Qed.

(** A load that succeeds leaves the table with the rows it had, followed
    by the rows of the frame. *)
Lemma load_to_db_ok accepts self df db db' :
  _load_to_db accepts self df db = (db', Ok tt) ->
  exists t' k,
    db' !! _table_name self = Some t' /\
    stored t' = stored_rows (_table_name self) db ++ with_keys k (rows df) /\
    (forall t, db !! _table_name self = Some t -> schema t' = schema t) /\
    (forall other, other <> _table_name self -> db' !! other = db !! other).
Proof.
  unfold _load_to_db. intros H.
  match type of H with
  | (match ?w with _ => _ end) = _ => destruct w as [cols|e]; [|discriminate]
  end.
  unfold stored_rows, create_all in *.
  destruct (db !! _table_name self) as [t|] eqn:Ht.
  - rewrite (to_sql_ok _ _ _ _ _ H t Ht).
    eexists _, (next_id t). rewrite lookup_insert_eq. split; [reflexivity|].
    split; [reflexivity|]. split.
    + intros t0 [= <-]. reflexivity.
    + intros other Hne. rewrite lookup_insert_ne by congruence. reflexivity.
  - rewrite (to_sql_ok _ _ _ _ _ H (mkTable cols [] 1) (lookup_insert_eq _ _ _)).
    eexists _, 1. rewrite lookup_insert_eq. split; [reflexivity|].
    split; [reflexivity|]. split; [discriminate|].
    intros other Hne. rewrite !lookup_insert_ne by congruence. reflexivity.
Qed.

(** C7: the table is created only when the destination has none of that
    name, and a load appends: after two loads of the same frame that both
    succeed the table holds the rows it had, then the rows of the frame
    twice, so [2 N] rows more, and [2 N] rows on an empty destination. *)
Theorem load_appends :
  forall (accepts : list Column -> Row -> bool) (self : UfoSightings)
         (df : DataFrame) (db db1 db2 : Database),
    _load_to_db accepts self df db = (db1, Ok tt) ->
    _load_to_db accepts self df db1 = (db2, Ok tt) ->
    (forall cols, create_all (_table_name self) cols db1 = db1) /\
    (exists k1 k2,
        stored_rows (_table_name self) db2
        = (stored_rows (_table_name self) db ++ with_keys k1 (rows df))
            ++ with_keys k2 (rows df)) /\
    List.length (stored_rows (_table_name self) db2)
    = (List.length (stored_rows (_table_name self) db)
       + 2 * List.length (rows df))%nat /\
    (db = ∅ ->
     List.length (stored_rows (_table_name self) db2) = (2 * List.length (rows df))%nat).
Proof.
  intros accepts self df db db1 db2 H1 H2.
  destruct (load_to_db_ok _ _ _ _ _ H1) as (t1 & k1 & Ht1 & Hs1 & _ & _).
  destruct (load_to_db_ok _ _ _ _ _ H2) as (t2 & k2 & Ht2 & Hs2 & _ & _).
  assert (Hall : stored_rows (_table_name self) db2
                 = (stored_rows (_table_name self) db ++ with_keys k1 (rows df))
                     ++ with_keys k2 (rows df)).
  { unfold stored_rows at 1. rewrite Ht2, Hs2. unfold stored_rows at 1.
    now rewrite Ht1, Hs1. }
  assert (Hlen : List.length (stored_rows (_table_name self) db2)
                 = (List.length (stored_rows (_table_name self) db)
                    + 2 * List.length (rows df))%nat).
  { rewrite Hall, !length_app, !length_with_keys. lia. }
  split; [|split; [|split]].
  - intros cols. unfold create_all. now rewrite Ht1.
  - eauto.
  - exact Hlen.
  - intros ->. rewrite Hlen. unfold stored_rows. rewrite lookup_empty. reflexivity.
Qed.

(** ** Sorting, and the run as a whole *)

Lemma insert_by_perm {A : Type} (key : A -> cell) (x : A) (l : list A) :
  Permutation (insert_by key x l) (x :: l).
Proof.
  induction l as [|y l IH]; simpl; [reflexivity|].
  destruct (cell_leb (key x) (key y)); [reflexivity|].
  rewrite IH. apply perm_swap.
Qed.

Lemma sort_by_perm {A : Type} (key : A -> cell) (l : list A) :
  Permutation (sort_by key l) l.
Proof.
  unfold sort_by. induction l as [|x l IH]; simpl; [reflexivity|].
  rewrite insert_by_perm. now constructor.
Qed.

Lemma map_snd_combine {A B : Type} (a : list A) (b : list B) :
  List.length a = List.length b -> map snd (combine a b) = b.
Proof.
  revert b. induction a as [|x a IH]; intros [|y b] H; simpl in *; try discriminate;
    [reflexivity|].
  f_equal. apply IH. lia.
Qed.

Lemma sort_values_ok n df df' :
  sort_values n df = Ok df' ->
  columns df' = columns df /\ Permutation (rows df) (rows df').
Proof.
  unfold sort_values. intros H. inv_bind H. rename a into s.
  assert (Hs : get_item n df = Ok s).
  { destruct (get_item n df) as [s0|[]]; simpl in Ha; congruence. }
  destruct (comparable (values s)); [|discriminate].
  injection H as <-. simpl. split; [reflexivity|].
  rewrite sort_by_perm, map_snd_combine; [reflexivity|].
  exact (get_item_length n df s Hs).
Qed.

(** When the cleaning stage returns, every timestamp cell was converted. *)
Lemma clean_file_timestamps self df out :
  _clean_file self df = Ok out ->
  Forall (fun r => exists c v,
            cell_of "datetime" r = Some c /\
            to_datetime_cell fmt_mdY_HM (replace_cell "24:00" "00:00" c) = Ok v)
         (map (relabel strip) (rows df)) /\
  Forall (fun r => exists c v,
            cell_of "date posted" r = Some c /\ to_datetime_cell fmt_mdY c = Ok v)
         (map (relabel strip) (rows df)).
Proof.
  unfold _clean_file. intros H.
  inv_bind H. rename a into df1, Ha into H1.
  inv_bind H. rename a into dp, Ha into H2. apply on_frame_ok in H2.
  inv_bind H. rename a into dp', Ha into H3.
  inv_bind H. rename a into df2, Ha into H4.
  destruct (timestamps_ok _ _ _ _ _ H1 H2 H3 H4) as (_ & _ & _ & Hd & Hp).
  auto.
Qed.

(** When the conversion of some row's datetime text (after the 24:00
    rewrite) or date-posted text raises, the run logs an exception and the
    database is as it was. *)
Lemma conversion_raise_aborts
      (read_csv : string -> result DataFrame) (accepts : list Column -> Row -> bool)
      (self : UfoSightings) (db : Database) (df : DataFrame)
      (row : Row) (s : string) (e : exn) :
  read_csv (_file_name self) = Ok df ->
  In row (rows df) ->
  (cell_of "datetime" (relabel strip row) = Some (VStr s) /\
   to_datetime_cell fmt_mdY_HM (VStr (replace "24:00" "00:00" s)) = Raise e)
  \/ (cell_of "date posted" (relabel strip row) = Some (VStr s) /\
      to_datetime_cell fmt_mdY (VStr s) = Raise e) ->
  exists e', etl read_csv accepts self db = (db, Some e').
Proof.
  intros Hread Hrow Hbad.
  unfold etl, _extract_csv. rewrite Hread. cbn [bind].
  destruct (_transform_csv self df) as [out|e'] eqn:Ht; [|eauto].
  exfalso. unfold _transform_csv in Ht. inv_bind Ht. rename a into sorted.
  apply sort_values_ok in Ha as [_ Hperm].
  apply clean_file_timestamps in Ht as [Hd Hp].
  assert (Hin : In (relabel strip row) (map (relabel strip) (rows sorted))).
  { apply in_map. eapply Permutation_in; [exact Hperm | exact Hrow]. }
  rewrite List.Forall_forall in Hd, Hp.
  destruct Hbad as [[Hc Hraise]|[Hc Hraise]].
  - destruct (Hd _ Hin) as (c & v & Hc' & Hv). rewrite Hc in Hc'.
    injection Hc' as <-. cbn [replace_cell] in Hv. congruence.
  - destruct (Hp _ Hin) as (c & v & Hc' & Hv). rewrite Hc in Hc'.
    injection Hc' as <-. congruence.
Qed.

Lemma to_datetime_cell_unparsed f s e :
  missing_token s = false -> strptime f s = Raise e ->
  to_datetime_cell f (VStr s) = Raise e.
Proof.
  unfold missing_token, to_datetime_cell. intros -> ->. reflexivity.
Qed.

(** C3 as stated fails: the text "NaT" does not parse under either
    format, yet [pd.to_datetime] does not raise on it; it reads it as the
    missing timestamp.  The run logs no exception and both rows are
    loaded, one posted at no time and one seen at no time. *)
Lemma nat_token_is_loaded :
  strptime fmt_mdY "NaT" = Raise ValueError
  /\ strptime fmt_mdY_HM (replace "24:00" "00:00" "NaT") = Raise ValueError
  /\ snd (etl read_nat_tokens accept_all ufo ∅) = None
  /\ map (fun kr => (cell_of "datetime" (snd kr), cell_of "date posted" (snd kr)))
         (stored_rows "ufo" (fst (etl read_nat_tokens accept_all ufo ∅)))
     = [(Some (VTime (civil 2020 1 15 21 0)), Some VNaT);
        (Some VNaT, Some (VTime (civil 2020 1 21 0 0)))].
Proof. repeat split; vm_compute; reflexivity. Qed.

(** C3, amended: when some row's datetime text (after the 24:00 rewrite)
    or date-posted text does not parse under its format and is not one
    of the texts pandas reads as a missing timestamp (the empty text,
    NaT, nat, NAT, nan, NaN, NAN), the run logs an exception and the
    database is as it was: nothing is loaded, and the row is not dropped
    silently.  A text of that list, like an empty field, is converted to
    the missing timestamp without an error.  A row posted on "13/40/2020"
    aborts the run. *)
Theorem unparsed_timestamp_aborts :
  (forall (read_csv : string -> result DataFrame)
          (accepts : list Column -> Row -> bool)
          (self : UfoSightings) (db : Database) (df : DataFrame)
          (row : Row) (s : string) (e : exn),
      read_csv (_file_name self) = Ok df ->
      In row (rows df) ->
      (cell_of "datetime" (relabel strip row) = Some (VStr s) /\
       missing_token (replace "24:00" "00:00" s) = false /\
       strptime fmt_mdY_HM (replace "24:00" "00:00" s) = Raise e)
      \/ (cell_of "date posted" (relabel strip row) = Some (VStr s) /\
          missing_token s = false /\
          strptime fmt_mdY s = Raise e) ->
      exists e', etl read_csv accepts self db = (db, Some e'))
  /\ (forall (f : format) (s : string),
         missing_token s = true -> to_datetime_cell f (VStr s) = Ok VNaT)
  /\ (forall f : format, to_datetime_cell f NaN = Ok VNaT)
  /\ (forall (accepts : list Column -> Row -> bool) (db : Database),
         etl (fun _ => Ok sample_bad_posted) accepts ufo db = (db, Some ValueError)).
Proof.
  split; [|split; [|split; [reflexivity | intros accepts db; reflexivity]]].
  - intros read_csv accepts self db df row s e Hread Hrow Hbad.
    apply (conversion_raise_aborts read_csv accepts self db df row s e Hread Hrow).
    destruct Hbad as [(Hc & Hm & Hp)|(Hc & Hm & Hp)]; [left|right];
      (split; [exact Hc | now apply to_datetime_cell_unparsed]).
  - intros f s Hm. unfold missing_token in Hm. unfold to_datetime_cell.
    now rewrite Hm.
Qed.

(** ** Properties of the cleaned rows *)

(** C4 (fails on the code): a row with a numeric field that does not
    parse is dropped, and the others are kept as the claim says, only as
    long as a row is left for the next block.  The filter of a block
    whose column is not yet of dtype float is [df[df[col].apply(...)]]:
    on a frame without rows [apply] returns an empty Series that is not
    boolean, the selection then has no column, and the cast raises
    [KeyError].  So when the cleaning stage returns, its rows are, in
    order, the input rows whose three numeric fields all pass [float],
    converted; but when no row is left before one of the three blocks
    (the input has no row, no row has a valid duration, or no row has
    both a valid duration and a valid latitude) the stage raises and the
    run loads nothing.  Of the rows A (bad latitude), B (bad duration)
    and C only C is kept; on A and B alone, and on A alone, the stage
    raises [KeyError] instead of returning no row. *)
Theorem numeric_filter_aborts_when_empty :
  (forall (self : UfoSightings) (df out : DataFrame),
      well_formed df = true ->
      _clean_file self df = Ok out ->
      Forall2 cleaned
        (List.filter numeric_ok (map (relabel strip) (rows df))) (rows out))
  /\ (forall (self : UfoSightings) (df : DataFrame),
         well_formed df = true ->
         (named "duration (seconds)" (relabel strip (columns df)) <> [DFloat] /\
          rows df = [])
         \/ (named "latitude" (relabel strip (columns df)) <> [DFloat] /\
             List.filter (float_ok "duration (seconds)")
               (map (relabel strip) (rows df)) = [])
         \/ (named "longitude" (relabel strip (columns df)) <> [DFloat] /\
             List.filter (fun r => float_ok "duration (seconds)" r
                                   && float_ok "latitude" r)
               (map (relabel strip) (rows df)) = []) ->
         exists e, _clean_file self df = Raise e)
  /\ column "comments" (_clean_file ufo sample_abc) = [Some (VStr "row C")]
  /\ _clean_file ufo sample_ab = Raise KeyError
  /\ _clean_file ufo sample_bad_latitude = Raise KeyError
  /\ etl (fun _ => Ok sample_ab) accept_all ufo ∅ = (∅, Some KeyError).
Proof.
  split; [|split; [|repeat split; vm_compute; reflexivity]].
  - intros self df out Hwf H.
    apply (clean_file_ok self df out H (well_formed_typed df Hwf)).
  - intros self df Hwf Hnone.
    destruct (_clean_file self df) as [out|e] eqn:H; [exfalso|eauto].
    destruct (clean_file_stages self df out H (well_formed_typed df Hwf))
      as (df2 & df3 & df4 & H5 & H6 & H7 & Hn2 & Hn3 & Hn4 & _ & Hr2 & Hr3 & Hr4).
    destruct Hnone as [[Hdt Hnil]|[[Hdt Hnil]|[Hdt Hnil]]].
    + apply (cast_float_col_needs_rows _ _ _ _ H5); [now rewrite Hn2|].
      rewrite Hnil in Hr2. now inversion Hr2.
    + apply (cast_float_col_needs_rows _ _ _ _ H6); [now rewrite Hn3|].
      rewrite (List.filter_ext _ (float_ok "duration (seconds)")), Hnil in Hr3
        by reflexivity.
      now inversion Hr3.
    + apply (cast_float_col_needs_rows _ _ _ _ H7); [now rewrite Hn4|].
      rewrite (List.filter_ext _ (fun r => float_ok "duration (seconds)" r
                                           && float_ok "latitude" r)), Hnil in Hr4
        by reflexivity.
      now inversion Hr4.
Qed.

(** C8 as stated fails: the durations "-5" and "inf" and a missing
    duration pass [float]; the three rows are kept, with the negative
    number -5.0, with infinity and with NaN. *)
Lemma negative_or_nonfinite_duration_kept :
  column "duration (seconds)" (_clean_file ufo sample_durations)
  = [Some (VFloat (of_decimal true 5 0)); Some (VFloat (inf false)); Some (VFloat nan)]
  /\ is_nonnegative (of_decimal true 5 0) = false
  /\ is_negative (of_decimal true 5 0) = true
  /\ isfinite (inf false) = false
  /\ isfinite nan = false
  /\ is_nonnegative nan = false.
Proof. repeat split; vm_compute; reflexivity. Qed.

(** C8, amended: the records the cleaning stage keeps are, in order, the
    input records whose three numeric fields pass [float], and the
    duration of each is a float, namely what [float] makes of that
    record's own input field; neither its sign nor its finiteness is
    looked at. *)
Theorem kept_duration_is_float :
  forall (self : UfoSightings) (df out : DataFrame),
    well_formed df = true ->
    _clean_file self df = Ok out ->
    Forall2 (fun rin rout =>
               exists c x,
                 cell_of "duration (seconds)" rin = Some c /\
                 to_float c = Ok x /\
                 cell_of "duration (seconds)" rout = Some (VFloat x))
      (List.filter numeric_ok (map (relabel strip) (rows df))) (rows out).
Proof.
  intros self df out Hwf H.
  destruct (clean_file_ok self df out H (well_formed_typed df Hwf)) as [Hrel _].
  eapply Forall2_impl; [exact Hrel|]. simpl. intros rin rout [Hnum _].
  apply Hnum. simpl. tauto.
Qed.

Lemma nonfinite_cell_passes (c : cell) :
  In c nonfinite_cells -> exists x, to_float c = Ok x /\ isfinite x = false.
Proof.
  simpl. intros Hc.
  repeat (destruct Hc as [<-|Hc]; [eexists; split; vm_compute; reflexivity|]).
  contradiction.
Qed.

(** C9: the validity check answers true on a missing field and on the
    texts "nan", "inf" and "-inf", so such a field passes the filter of
    its column; the rows of the cleaned frame are, in order, the input
    rows whose three numeric fields pass the check, each converted, and
    where the field of the input row was one of these the row kept for
    it has a float that is not finite. *)
Theorem nonfinite_fields_kept :
  (forall (self : UfoSightings) (c : cell),
      In c nonfinite_cells -> _is_float self c = Ok true)
  /\ (forall (n : string) (r : Row) (c : cell),
         cell_of n r = Some c -> In c nonfinite_cells -> float_ok n r = true)
  /\ (forall (self : UfoSightings) (df out : DataFrame),
         well_formed df = true ->
         _clean_file self df = Ok out ->
         Forall2 (fun rin rout =>
                    cleaned rin rout /\
                    forall n c, In n numeric_names ->
                      cell_of n rin = Some c ->
                      In c nonfinite_cells ->
                      exists x, cell_of n rout = Some (VFloat x) /\ isfinite x = false)
           (List.filter numeric_ok (map (relabel strip) (rows df))) (rows out))
  /\ column "duration (seconds)" (_clean_file ufo sample_nonfinite) = [Some (VFloat nan)]
  /\ column "latitude" (_clean_file ufo sample_nonfinite) = [Some (VFloat (inf false))]
  /\ column "longitude" (_clean_file ufo sample_nonfinite) = [Some (VFloat (inf true))].
Proof.
  split; [|split; [|split; [|repeat split; vm_compute; reflexivity]]].
  - intros self c Hc. unfold _is_float.
    destruct (nonfinite_cell_passes c Hc) as (x & -> & _). reflexivity.
  - intros n r c Hc Hnf. unfold float_ok. rewrite Hc.
    destruct (nonfinite_cell_passes c Hnf) as (x & -> & _). reflexivity.
  - intros self df out Hwf H.
    destruct (clean_file_ok self df out H (well_formed_typed df Hwf)) as [Hrel _].
    eapply Forall2_impl; [exact Hrel|]. simpl. intros rin rout Hcl.
    split; [exact Hcl|]. destruct Hcl as [Hnum _].
    intros n c Hn Hc Hnf.
    destruct (Hnum n Hn) as (c' & x & Hc' & Hx & Hout).
    rewrite Hc in Hc'. injection Hc' as <-.
    destruct (nonfinite_cell_passes c Hnf) as (x' & Hx' & Hfin).
    rewrite Hx in Hx'. injection Hx' as <-. eauto.
Qed.



(** ** The theorems at sample inputs *)

Lemma datetime_repair_witness :
  _transform_datetime_col sample_midnight = Ok sample_midnight_repaired /\
  mdY_HM_shape "01/15/2020 24:00" = true /\
  exists row' t,
    rows sample_midnight_repaired !! 0%nat = Some row' /\
    strptime fmt_mdY_HM (replace "24:00" "00:00" "01/15/2020 24:00") = Ok t /\
    (contains "24:00" "01/15/2020 24:00" = true ->
     cell_of "datetime" row' = Some (VTime (t + timedelta_days 1))) /\
    (contains "24:00" "01/15/2020 24:00" = false ->
     strptime fmt_mdY_HM "01/15/2020 24:00" = Ok t /\
     cell_of "datetime" row' = Some (VTime t)).
Proof.
  split; [vm_compute; reflexivity|]. split; [reflexivity|].
  eapply (proj1 datetime_repair sample_midnight sample_midnight_repaired 0%nat).
  - vm_compute; reflexivity.
  - reflexivity.
  - vm_compute; reflexivity.
  - reflexivity.
Defined.

Lemma unparsed_timestamp_aborts_witness :
  missing_token "13/40/2020" = false /\
  strptime fmt_mdY "13/40/2020" = Raise ValueError /\
  exists e', etl (fun _ => Ok sample_bad_posted) accept_all ufo ∅ = (∅, Some e').
Proof.
  split; [reflexivity|]. split; [vm_compute; reflexivity|].
  eapply (proj1 unparsed_timestamp_aborts (fun _ => Ok sample_bad_posted) accept_all
            ufo ∅ sample_bad_posted _ "13/40/2020" ValueError).
  - reflexivity.
  - right. left. reflexivity.
  - right. split; [reflexivity|]. split; [reflexivity | vm_compute; reflexivity].
Defined.

Lemma numeric_filter_aborts_when_empty_witness :
  (well_formed sample_abc = true /\
   _clean_file ufo sample_abc = Ok sample_abc_cleaned /\
   Forall2 cleaned
     (List.filter numeric_ok (map (relabel strip) (rows sample_abc)))
     (rows sample_abc_cleaned)) /\
  (well_formed sample_ab = true /\
   List.filter (fun r => float_ok "duration (seconds)" r && float_ok "latitude" r)
     (map (relabel strip) (rows sample_ab)) = [] /\
   exists e, _clean_file ufo sample_ab = Raise e).
Proof.
  split.
  - split; [vm_compute; reflexivity|]. split; [vm_compute; reflexivity|].
    apply (proj1 numeric_filter_aborts_when_empty ufo sample_abc sample_abc_cleaned);
      vm_compute; reflexivity.
  - split; [vm_compute; reflexivity|]. split; [vm_compute; reflexivity|].
    apply (proj1 (proj2 numeric_filter_aborts_when_empty) ufo sample_ab).
    + vm_compute; reflexivity.
    + right. right. split; [discriminate | vm_compute; reflexivity].
Defined.

Lemma width_is_ceiling_witness :
  get_item "shape" sample_widths
  = Ok (mkSeries DObject [VStr "orb"; VStr "triangular"; VStr "diamond"]) /\
  exists w, _calc_max_length sample_widths "shape" = Ok w /\ 5 * (w - 1) < 6 * 10 <= 5 * w.
Proof.
  split; [vm_compute; reflexivity|].
  apply (proj1 width_is_ceiling sample_widths "shape"
           (mkSeries DObject [VStr "orb"; VStr "triangular"; VStr "diamond"]) 10).
  - vm_compute; reflexivity.
  - reflexivity.
  - exists "triangular". split; [simpl; tauto | reflexivity].
  - intros y Hy. simpl in Hy.
    repeat (destruct Hy as [Hy|Hy]; [injection Hy as <-; simpl; lia|]).
    contradiction.
  - reflexivity.
Defined.

Lemma empty_column_raises_witness :
  exists e, _calc_max_length sample_all_null "shape" = Raise e.
Proof.
  apply (proj1 empty_column_raises sample_all_null "shape").
  simpl. repeat constructor; intros c Hc; vm_compute in Hc; injection Hc as <-;
    reflexivity.
Defined.

Lemma load_appends_witness :
  _load_to_db accept_all ufo sample_abc_cleaned ∅ = (loaded_once, Ok tt) /\
  _load_to_db accept_all ufo sample_abc_cleaned loaded_once = (loaded_twice, Ok tt) /\
  List.length (stored_rows "ufo" loaded_twice) = 2%nat.
Proof.
  assert (H1 : _load_to_db accept_all ufo sample_abc_cleaned ∅ = (loaded_once, Ok tt))
    by (vm_compute; reflexivity).
  assert (H2 : _load_to_db accept_all ufo sample_abc_cleaned loaded_once
               = (loaded_twice, Ok tt)) by (vm_compute; reflexivity).
  split; [exact H1|]. split; [exact H2|].
  exact (proj2 (proj2 (proj2 (load_appends accept_all ufo sample_abc_cleaned
                                ∅ loaded_once loaded_twice H1 H2))) eq_refl).
Defined.

Lemma kept_duration_is_float_witness :
  well_formed sample_durations = true /\
  _clean_file ufo sample_durations = Ok sample_durations_cleaned /\
  Forall2 (fun rin rout =>
             exists c x,
               cell_of "duration (seconds)" rin = Some c /\
               to_float c = Ok x /\
               cell_of "duration (seconds)" rout = Some (VFloat x))
    (List.filter numeric_ok (map (relabel strip) (rows sample_durations)))
    (rows sample_durations_cleaned).
Proof.
  split; [vm_compute; reflexivity|]. split; [vm_compute; reflexivity|].
  apply (kept_duration_is_float ufo sample_durations sample_durations_cleaned);
    vm_compute; reflexivity.
Defined.

Lemma nonfinite_fields_kept_witness :
  well_formed sample_nonfinite = true /\
  _clean_file ufo sample_nonfinite = Ok sample_nonfinite_cleaned /\
  Forall2 (fun rin rout =>
             cleaned rin rout /\
             forall n c, In n numeric_names ->
               cell_of n rin = Some c ->
               In c nonfinite_cells ->
               exists x, cell_of n rout = Some (VFloat x) /\ isfinite x = false)
    (List.filter numeric_ok (map (relabel strip) (rows sample_nonfinite)))
    (rows sample_nonfinite_cleaned).
Proof.
  split; [vm_compute; reflexivity|]. split; [vm_compute; reflexivity|].
  apply (proj1 (proj2 (proj2 nonfinite_fields_kept)) ufo sample_nonfinite
           sample_nonfinite_cleaned); vm_compute; reflexivity.
Defined.


(** * Further properties of the code *)

(** ** The load step and the run *)

Lemma stored_rows_create_all name cols db :
  stored_rows name (create_all name cols db) = stored_rows name db.
Proof.
  unfold stored_rows, create_all. destruct (db !! name) as [t|] eqn:Ht.
  - now rewrite Ht.
  - now rewrite lookup_insert_eq.
Qed.

Lemma lookup_create_all_ne name other cols db :
  other <> name -> create_all name cols db !! other = db !! other.
Proof.
  intros Hne. unfold create_all. destruct (db !! name); [reflexivity|].
  rewrite lookup_insert_ne by congruence. reflexivity.
Qed.

(** Whatever [to_sql] answers, it only adds rows, and only to its table. *)
Lemma to_sql_extends accepts name df db :
  is_Some (db !! name) ->
  (exists extra,
      stored_rows name (fst (to_sql accepts name df db)) = stored_rows name db ++ extra) /\
  (forall other, other <> name -> fst (to_sql accepts name df db) !! other = db !! other).
Proof.
  intros [t Ht]. unfold to_sql. rewrite Ht.
  destruct (forallb (accepts (schema t)) (rows df)); cbn [fst].
  - split.
    + exists (with_keys (next_id t) (rows df)). unfold stored_rows.
      now rewrite lookup_insert_eq, Ht.
    + intros other Hne. rewrite lookup_insert_ne by congruence. reflexivity.
  - split; [exists []; now rewrite app_nil_r | reflexivity].
Qed.

Lemma load_to_db_extends accepts self df db :
  (exists extra,
      stored_rows (_table_name self) (fst (_load_to_db accepts self df db))
      = stored_rows (_table_name self) db ++ extra) /\
  (forall other, other <> _table_name self ->
     fst (_load_to_db accepts self df db) !! other = db !! other).
Proof.
  unfold _load_to_db.
  match goal with
  | |- context [match ?w with Ok _ => _ | Raise _ => _ end] => destruct w as [cols|e]
  end.
  - assert (Hsome : is_Some (create_all (_table_name self) cols db !! _table_name self)).
    { unfold create_all. destruct (db !! _table_name self) as [t|] eqn:Ht.
      - rewrite Ht. eauto.
      - rewrite lookup_insert_eq. eauto. }
    destruct (to_sql_extends accepts _ df _ Hsome) as [[extra He] Ho]. split.
    + exists extra. now rewrite He, stored_rows_create_all.
    + intros other Hne. rewrite Ho by assumption. now apply lookup_create_all_ne.
  - cbn [fst]. split; [exists []; now rewrite app_nil_r | reflexivity].
Qed.

(** X1: whatever happens during a run (unreadable file, a fatal
    timestamp, a rejected insert, success), the rows the destination
    table had are still there, in place, at the head of the table, and no
    other table of the database is touched. *)
Theorem etl_only_appends :
  forall (read_csv : string -> result DataFrame)
         (accepts : list Column -> Row -> bool)
         (self : UfoSightings) (db : Database),
    (exists extra,
        stored_rows (_table_name self) (fst (etl read_csv accepts self db))
        = stored_rows (_table_name self) db ++ extra) /\
    (forall other, other <> _table_name self ->
       fst (etl read_csv accepts self db) !! other = db !! other).
Proof.
  intros read_csv accepts self db. unfold etl, _load_csv.
  destruct (df <- _extract_csv read_csv self ;; _transform_csv self df) as [out|e].
  - pose proof (load_to_db_extends accepts self out db) as H.
    destruct (_load_to_db accepts self out db) as [db' [u|e]]; exact H.
  - cbn [fst]. split; [exists []; now rewrite app_nil_r | reflexivity].
Qed.

Lemma to_sql_accepted accepts name df db db' t :
  to_sql accepts name df db = (db', Ok tt) -> db !! name = Some t ->
  forallb (accepts (schema t)) (rows df) = true.
Proof.
  unfold to_sql. intros H Ht. rewrite Ht in H.
  destruct (forallb (accepts (schema t)) (rows df)); [reflexivity | discriminate].
Qed.

(** X2: a run that logs no exception has read the file, sorted and
    cleaned it, and put exactly the rows of the cleaned frame, in order,
    after the rows the table had; the engine took every one of them. *)
Theorem etl_success_loads_cleaned :
  forall (read_csv : string -> result DataFrame)
         (accepts : list Column -> Row -> bool)
         (self : UfoSightings) (db db' : Database),
    etl read_csv accepts self db = (db', None) ->
    exists df out t' k,
      read_csv (_file_name self) = Ok df /\
      _transform_csv self df = Ok out /\
      db' !! _table_name self = Some t' /\
      stored t' = stored_rows (_table_name self) db ++ with_keys k (rows out) /\
      forallb (accepts (schema t')) (rows out) = true.
Proof.
  intros read_csv accepts self db db' H. unfold etl, _extract_csv, _load_csv in H.
  destruct (read_csv (_file_name self)) as [df|e] eqn:Hread; [|discriminate].
  cbn [bind] in H.
  destruct (_transform_csv self df) as [out|e] eqn:Hout; [|discriminate].
  destruct (_load_to_db accepts self out db) as [db1 [[]|e]] eqn:Hload; [|discriminate].
  injection H as <-.
  exists df, out.
  unfold _load_to_db in Hload.
  match type of Hload with
  | (match ?w with _ => _ end) = _ => destruct w as [cols|e]; [|discriminate]
  end.
  set (db0 := create_all (_table_name self) cols db) in *.
  assert (Hsome : exists t, db0 !! _table_name self = Some t /\
                            stored t = stored_rows (_table_name self) db).
  { subst db0. unfold create_all, stored_rows.
    destruct (db !! _table_name self) as [t|] eqn:Ht.
    - exists t. now rewrite Ht.
    - eexists. rewrite lookup_insert_eq. split; reflexivity. }
  destruct Hsome as (t & Ht & Hst).
  pose proof (to_sql_accepted _ _ _ _ _ _ Hload Ht) as Hacc.
  rewrite (to_sql_ok _ _ _ _ _ Hload t Ht).
  eexists _, (next_id t). rewrite lookup_insert_eq.
  split; [reflexivity|]. split; [assumption|]. split; [reflexivity|].
  cbn [stored schema]. rewrite Hst. split; [reflexivity | assumption].
Qed.

Lemma etl_success_loads_cleaned_witness :
  etl read_sample_abc accept_all ufo ∅ = (ran_once, None) /\
  exists df out t' k,
    read_sample_abc (_file_name ufo) = Ok df /\
    _transform_csv ufo df = Ok out /\
    ran_once !! _table_name ufo = Some t' /\
    stored t' = stored_rows (_table_name ufo) ∅ ++ with_keys k (rows out) /\
    forallb (accept_all (schema t')) (rows out) = true.
Proof.
  assert (H : etl read_sample_abc accept_all ufo ∅ = (ran_once, None))
    by (vm_compute; reflexivity).
  split; [exact H|].
  exact (etl_success_loads_cleaned read_sample_abc accept_all ufo ∅ ran_once H).
Defined.

(** X3: when the width of one of the six text columns cannot be
    estimated (the column is absent, not text, or has no string at all),
    the load raises before anything is declared: the database is returned
    as it was.  In particular a frame without rows creates no table. *)
Theorem load_needs_every_width :
  forall (accepts : list Column -> Row -> bool) (self : UfoSightings)
         (df : DataFrame) (db : Database) (col : string),
    In col text_names ->
    is_ok (_calc_max_length df col) = false ->
    exists e, _load_to_db accepts self df db = (db, Raise e).
Proof.
  intros accepts self df db col Hcol Hbad. unfold _load_to_db.
  simpl in Hcol.
  destruct (_calc_max_length df "city") as [w1|e1] eqn:H1; cbn [bind]; [|eauto].
  destruct (_calc_max_length df "state") as [w2|e2] eqn:H2; cbn [bind]; [|eauto].
  destruct (_calc_max_length df "country") as [w3|e3] eqn:H3; cbn [bind]; [|eauto].
  destruct (_calc_max_length df "shape") as [w4|e4] eqn:H4; cbn [bind]; [|eauto].
  destruct (_calc_max_length df "duration (hours/min)") as [w5|e5] eqn:H5;
    cbn [bind]; [|eauto].
  destruct (_calc_max_length df "comments") as [w6|e6] eqn:H6; cbn [bind]; [|eauto].
  exfalso.
  repeat (destruct Hcol as [<-|Hcol];
          [match goal with
           | H : _calc_max_length df ?c = Ok _, Hb : is_ok (_calc_max_length df ?c) = false
             |- _ => rewrite H in Hb; discriminate Hb
           end|]).
  contradiction.
Qed.

Lemma load_needs_every_width_witness :
  is_ok (_calc_max_length sample_no_comments "comments") = false /\
  exists e, _load_to_db accept_all ufo sample_no_comments ∅ = (∅, Raise e).
Proof.
  split; [vm_compute; reflexivity|].
  apply (load_needs_every_width accept_all ufo sample_no_comments ∅ "comments").
  - simpl. tauto.
  - vm_compute; reflexivity.
Defined.

(** The estimate is at least as long as every string of the column. *)
Lemma calc_max_length_covers df col w :
  _calc_max_length df col = Ok w ->
  lengths_bounded df col ->
  forall r y, In r (rows df) -> cell_of col r = Some (VStr y) ->
    Z.of_nat (String.length y) <= w.
Proof.
  unfold _calc_max_length, lengths_bounded. intros H Hbound r y Hr Hy.
  inv_bind H. rename a into s, Ha into Hs. inv_bind H. rename a into lens.
  unfold str_len in Ha. inv_bind Ha. injection Ha as <-.
  apply str_accessor_ok in Ha0 as [_ ->].
  apply get_item_ok in Hs as [_ Hcells].
  destruct (Forall2_In_left _ _ _ _ Hcells Hr) as (c & Hc & Hrc).
  rewrite Hy in Hrc. injection Hrc as <-.
  set (lens := map _ (values s)) in *.
  assert (Hin : In (Some (Z.of_nat (String.length y))) lens).
  { subst lens. apply in_map_iff. exists (VStr y). auto. }
  pose proof (series_max_spec lens) as Hspec.
  destruct (series_max lens) as [L|]; [|exfalso; eapply Hspec, Hin].
  destruct Hspec as [HL Hmax].
  assert (HLb : 0 <= L <= width_bound).
  { subst lens. apply in_map_iff in HL as ([z| | |] & Hz & Hzin); try discriminate.
    injection Hz as <-.
    destruct (Forall2_In_right _ _ _ _ Hcells Hzin) as (r' & Hr' & Hc').
    split; [lia | eauto]. }
  rewrite width_of_length in H by (unfold width_bound, length_bound in *; lia).
  injection H as <-. specialize (Hmax _ Hin).
  pose proof (Z.div_mod (6 * L + 4) 5 ltac:(lia)).
  pose proof (Z.mod_pos_bound (6 * L + 4) 5 ltac:(lia)). lia.
Qed.

(** X4: a load that succeeds on a database without the table declares
    the twelve columns with the six estimated widths, stores the rows of
    the frame under the keys 1, 2, ..., and every string of a text column
    is no longer than the width declared for it (for strings up to 65535
    characters, the longest VARCHAR). *)
Theorem load_declares_covering_widths :
  forall (accepts : list Column -> Row -> bool) (self : UfoSightings)
         (df : DataFrame) (db db' : Database),
    db !! _table_name self = None ->
    _load_to_db accepts self df db = (db', Ok tt) ->
    (forall col, In col text_names -> lengths_bounded df col) ->
    exists t',
      db' !! _table_name self = Some t' /\
      map c_name (schema t')
      = ["sight_id"; "datetime"; "city"; "state"; "country"; "shape";
         "duration (seconds)"; "duration (hours/min)"; "comments"; "date posted";
         "latitude"; "longitude"] /\
      stored t' = with_keys 1 (rows df) /\
      forall col, In col text_names ->
        exists w, declared_width col (schema t') = Some w /\
                  _calc_max_length df col = Ok w /\
                  forall r y, In r (rows df) -> cell_of col r = Some (VStr y) ->
                    Z.of_nat (String.length y) <= w.
Proof.
  intros accepts self df db db' Hnone H Hbound. unfold _load_to_db in H.
  destruct (_calc_max_length df "city") as [w1|e1] eqn:H1; cbn [bind] in H;
    [|discriminate].
  destruct (_calc_max_length df "state") as [w2|e2] eqn:H2; cbn [bind] in H;
    [|discriminate].
  destruct (_calc_max_length df "country") as [w3|e3] eqn:H3; cbn [bind] in H;
    [|discriminate].
  destruct (_calc_max_length df "shape") as [w4|e4] eqn:H4; cbn [bind] in H;
    [|discriminate].
  destruct (_calc_max_length df "duration (hours/min)") as [w5|e5] eqn:H5;
    cbn [bind] in H; [|discriminate].
  destruct (_calc_max_length df "comments") as [w6|e6] eqn:H6; cbn [bind] in H;
    [|discriminate].
  unfold create_all in H. rewrite Hnone in H.
  rewrite (to_sql_ok _ _ _ _ _ H _ (lookup_insert_eq _ _ _)).
  eexists. rewrite lookup_insert_eq. split; [reflexivity|].
  cbn [schema stored]. split; [reflexivity|]. split; [reflexivity|].
  intros col Hcol. pose proof (Hbound col Hcol) as Hb. simpl in Hcol.
  repeat (destruct Hcol as [<-|Hcol];
          [eexists; split; [reflexivity|]; split; [eassumption|];
           eapply calc_max_length_covers; eassumption|]).
  contradiction.
Qed.

Lemma load_declares_covering_widths_witness :
  _load_to_db accept_all ufo sample_abc_cleaned ∅ = (loaded_once, Ok tt) /\
  exists t',
    loaded_once !! _table_name ufo = Some t' /\
    map c_name (schema t')
    = ["sight_id"; "datetime"; "city"; "state"; "country"; "shape";
       "duration (seconds)"; "duration (hours/min)"; "comments"; "date posted";
       "latitude"; "longitude"] /\
    stored t' = with_keys 1 (rows sample_abc_cleaned) /\
    forall col, In col text_names ->
      exists w, declared_width col (schema t') = Some w /\
                _calc_max_length sample_abc_cleaned col = Ok w /\
                forall r y, In r (rows sample_abc_cleaned) ->
                  cell_of col r = Some (VStr y) ->
                  Z.of_nat (String.length y) <= w.
Proof.
  assert (H : _load_to_db accept_all ufo sample_abc_cleaned ∅ = (loaded_once, Ok tt))
    by (vm_compute; reflexivity).
  split; [exact H|].
  apply (load_declares_covering_widths accept_all ufo sample_abc_cleaned ∅ loaded_once).
  - reflexivity.
  - exact H.
  - intros col Hcol r y Hr Hy. simpl in Hr. destruct Hr as [<-|[]].
    simpl in Hcol.
    repeat (destruct Hcol as [<-|Hcol];
            [vm_compute in Hy; injection Hy as <-; vm_compute; discriminate|]).
    contradiction.
Defined.

(** X5: a load never changes the declaration of a table that exists:
    whether it succeeds or raises, the columns and widths are those the
    table had, whatever widths the new frame would need. *)
Theorem load_keeps_declaration :
  forall (accepts : list Column -> Row -> bool) (self : UfoSightings)
         (df : DataFrame) (db : Database) (t : Table),
    db !! _table_name self = Some t ->
    exists t',
      fst (_load_to_db accepts self df db) !! _table_name self = Some t' /\
      schema t' = schema t.
Proof.
  intros accepts self df db t Ht. unfold _load_to_db.
  match goal with
  | |- context [match ?w with Ok _ => _ | Raise _ => _ end] => destruct w as [cols|e]
  end; [|cbn [fst]; eauto].
  unfold create_all, to_sql. rewrite Ht. cbn zeta. rewrite Ht.
  destruct (forallb (accepts (schema t)) (rows df)); cbn [fst].
  - rewrite lookup_insert_eq. eauto.
  - eauto.
Qed.

Lemma load_keeps_declaration_witness :
  narrow_db !! _table_name ufo = Some narrow_table /\
  exists t',
    fst (_load_to_db accept_all ufo sample_abc_cleaned narrow_db) !! _table_name ufo
    = Some t' /\
    schema t' = schema narrow_table.
Proof.
  split; [vm_compute; reflexivity|].
  apply (load_keeps_declaration accept_all ufo sample_abc_cleaned narrow_db narrow_table).
  vm_compute; reflexivity.
Defined.

(** ** More on the timestamp repair *)

(** The frame around the repaired column. *)
Lemma repair_frame_ok :
  forall (df df' : DataFrame),
    _transform_datetime_col df = Ok df' ->
    List.length (rows df') = List.length (rows df) /\
    (forall n, n <> "datetime" -> ~ In n helper_names ->
       get_item n df' = get_item n df) /\
    named "datetime" (columns df') = [DDatetime] /\
    (forall h, In h helper_names -> get_item h df' = Raise KeyError).
Proof.
  intros df df' H.
  apply transform_datetime_col_ok in H
    as (dvals & cvals & Hhdr & Hcells & Hcast & Hcols & Hrows).
  assert (Hlen : List.length (repaired dvals cvals) = List.length (rows df)).
  { apply mapM_length in Hcast. rewrite length_map in Hcast.
    unfold repaired, timedeltas.
    rewrite length_zip_with_same by (rewrite !length_map; congruence).
    rewrite Hcast. symmetry. eapply Forall2_length, Hcells. }
  split; [|split; [|split]].
  - rewrite Hrows. now apply length_zip_with_same.
  - intros n Hn Hh. apply get_item_congr.
    + rewrite Hcols, named_assign_ne by assumption. now apply named_remove.
    + rewrite Hrows. apply map_zip_with_l; [assumption|].
      intros r v. rewrite cell_of_assign_ne by assumption. now apply cell_of_remove.
  - rewrite Hcols, named_assign_eq.
    rewrite has_label_remove by (cbv; intuition discriminate).
    rewrite named_remove by (cbv; intuition discriminate). rewrite Hhdr.
    destruct (has_label "datetime" (columns df)) eqn:Hl; [reflexivity|].
    apply has_label_named in Hl. congruence.
  - intros h Hh. unfold get_item. rewrite Hcols.
    rewrite named_assign_ne by (simpl in Hh; intuition (subst; discriminate)).
    now rewrite named_remove_in.
Qed.

(** X6: the repair touches the [datetime] column only, up to the two
    helper labels: the frame keeps its number of rows, every other column
    reads as before, [datetime] becomes a datetime column, and no column
    called [datetime_replaced] or [datetime_casted] is left, not even one
    the input came with. *)
Theorem repair_changes_datetime_only :
  forall (df df' : DataFrame),
    _transform_datetime_col df = Ok df' ->
    List.length (rows df') = List.length (rows df) /\
    (forall n, n <> "datetime" -> ~ In n helper_names ->
       get_item n df' = get_item n df) /\
    named "datetime" (columns df') = [DDatetime] /\
    (forall h, In h helper_names -> get_item h df' = Raise KeyError).
Proof. exact repair_frame_ok. Qed.

Lemma repair_changes_datetime_only_witness :
  _transform_datetime_col sample_clash = Ok sample_clash_repaired /\
  List.length (rows sample_clash_repaired) = List.length (rows sample_clash) /\
  get_item "city" sample_clash_repaired = get_item "city" sample_clash /\
  named "datetime" (columns sample_clash_repaired) = [DDatetime] /\
  get_item "datetime_replaced" sample_clash_repaired = Raise KeyError.
Proof.
  assert (H : _transform_datetime_col sample_clash = Ok sample_clash_repaired)
    by (vm_compute; reflexivity).
  destruct (repair_changes_datetime_only sample_clash sample_clash_repaired H)
    as (Hlen & Hother & Hdt & Hhelp).
  split; [exact H|]. split; [exact Hlen|]. split; [|split; [exact Hdt|]].
  - apply Hother; [discriminate | cbv; intuition discriminate].
  - apply Hhelp. simpl. tauto.
Defined.

(** ** More on the cleaning stage *)

(** The two ways the numeric block can return. *)
Lemma cast_float_col_cases self n df df' :
  cast_float_col self n df = Ok df' ->
  (named n (columns df) = [DFloat] /\ df' = df) \/
  ((exists dt, named n (columns df) = [dt]) /\
   columns df' = assign n DFloat (columns df) /\
   rows df' = map (floated n) (List.filter (float_ok n) (rows df))).
Proof.
  unfold cast_float_col. intros H.
  inv_bind H. rename a into s, Ha into Hs.
  pose proof (get_item_ok _ _ _ Hs) as [Hhdr Hcells].
  destruct (dtype_eqb (s_dtype s) DFloat) eqn:Hdt; simpl in H.
  - left. injection H as <-.
    assert (Hd : s_dtype s = DFloat) by (destruct (s_dtype s); simpl in Hdt; congruence).
    rewrite Hd in Hhdr. auto.
  - right. split; [eauto|].
    inv_bind H. rename a into mask, Ha into Hmask.
    apply mapM_Forall2 in Hmask.
    assert (Hsel : Forall2 (fun r b => float_ok n r = b) (rows df) mask).
    { eapply Forall2_impl; [exact (Forall2_compose _ _ _ _ _ Hcells Hmask)|].
      simpl. intros r b (c & Hc & Hb). unfold float_ok. rewrite Hc.
      symmetry. eapply is_float_ok, Hb. }
    unfold astype_float in H. inv_bind H. rename a into s2, Ha into Hs2.
    inv_bind H. rename a into xs, Ha into Hxs.
    destruct mask as [|b mask].
    { unfold get_item in Hs2. simpl in Hs2. discriminate. }
    assert (Hsel' : select (b :: mask) df
                    = mkDataFrame (columns df) (List.filter (float_ok n) (rows df))).
    { unfold select. f_equal. now apply select_filter. }
    rewrite Hsel' in *. clear Hsel'.
    pose proof (get_item_ok _ _ _ Hs2) as [_ Hcells2].
    apply mapM_Forall2 in Hxs.
    apply set_item_ok in H as (_ & Hc & Hr). cbn [columns rows s_dtype values] in *.
    split; [assumption|].
    rewrite Hr. apply zip_with_pointwise.
    assert (Hconv : Forall2 (fun r x => exists c, cell_of n r = Some c /\ to_float c = Ok x)
                      (List.filter (float_ok n) (rows df)) xs).
    { exact (Forall2_compose _ _ _ _ _ Hcells2 Hxs). }
    clear - Hconv. induction Hconv as [|r x l k (c & Hc & Hx) _ IH]; simpl;
      constructor; [|exact IH].
    unfold floated. now rewrite Hc, Hx.
Qed.

(** The header after the numeric block. *)
Lemma cast_float_col_header self n df df' :
  cast_float_col self n df = Ok df' ->
  (exists dt, named n (columns df) = [dt]) /\
  named n (columns df') = [DFloat] /\
  (forall m, m <> n -> named m (columns df') = named m (columns df)).
Proof.
  intros H. apply cast_float_col_cases in H as [[Hf ->]|([dt Hdt] & Hc & _)].
  - split; [eauto|]. split; [assumption | reflexivity].
  - split; [eauto|]. rewrite Hc. split.
    + rewrite named_assign_eq, Hdt.
      destruct (has_label n (columns df)) eqn:Hl; [reflexivity|].
      apply has_label_named in Hl. congruence.
    + intros m Hm. now apply named_assign_ne.
Qed.

(** Every row that leaves the block came in, and only its cell under the
    label of the block can differ. *)
Lemma cast_float_col_rows_from self n df df' :
  cast_float_col self n df = Ok df' ->
  Forall (fun r' => exists r, In r (rows df) /\
                              forall m, m <> n -> cell_of m r' = cell_of m r)
         (rows df').
Proof.
  intros H. apply cast_float_col_cases in H as [[_ ->]|(_ & _ & ->)];
    apply List.Forall_forall.
  - intros r Hr. eauto.
  - intros r' Hr'. apply in_map_iff in Hr' as (r & <- & Hr).
    apply filter_In in Hr as [Hr _]. exists r. split; [assumption|].
    intros m Hm. now apply cell_of_floated_ne.
Qed.

Lemma to_datetime_cell_timestamp f c v :
  to_datetime_cell f c = Ok v -> is_timestamp v = true.
Proof.
  destruct c as [s|x|t|]; cbn [to_datetime_cell]; intros H.
  - destruct (String.eqb s "" || existsb (String.eqb s) nat_strings)%bool.
    + injection H as <-. reflexivity.
    + destruct (strptime f s) as [t|]; cbn [bind] in H; [|discriminate].
      destruct (in_bounds t); [|discriminate].
      injection H as <-. reflexivity.
  - destruct (isnan x); [|discriminate]. injection H as <-. reflexivity.
  - injection H as <-. reflexivity.
  - injection H as <-. reflexivity.
Qed.

Lemma add_cell_timestamp c d : is_timestamp (add_cell c d) = true.
Proof. destruct c, d; reflexivity. Qed.

(** The two timestamp columns once they are converted. *)
Lemma timestamps_typed df0 df1 s s' df2 :
  _transform_datetime_col df0 = Ok df1 ->
  get_item "date posted" df1 = Ok s ->
  to_datetime fmt_mdY s = Ok s' ->
  set_item "date posted" s' df1 = Ok df2 ->
  named "datetime" (columns df0) = [DObject] /\
  (exists dt, named "date posted" (columns df0) = [dt]) /\
  named "datetime" (columns df2) = [DDatetime] /\
  named "date posted" (columns df2) = [DDatetime] /\
  Forall (fun r => exists a b,
            cell_of "datetime" r = Some a /\ is_timestamp a = true /\
            cell_of "date posted" r = Some b /\ is_timestamp b = true)
         (rows df2).
Proof.
  intros H1 H2 H3 H4.
  pose proof (repair_frame_ok _ _ H1) as (_ & _ & Hd1 & _).
  apply transform_datetime_col_ok in H1
    as (dvals & cvals & Hhdr & Hcells & Hcast & Hcols1 & Hrows1).
  pose proof (get_item_ok _ _ _ H2) as [Hhdr2 Hcells2].
  unfold to_datetime in H3. inv_bind H3. rename a into vs. injection H3 as <-.
  apply set_item_ok in H4 as (Hlen & Hcols2 & Hrows2). simpl in *.
  apply mapM_Forall2 in Ha.
  split; [assumption|]. split.
  { exists (s_dtype s). rewrite <- Hhdr2, Hcols1.
    rewrite named_assign_ne by discriminate.
    symmetry. apply named_remove. cbv; intuition discriminate. }
  split.
  { rewrite Hcols2, named_assign_ne by discriminate. assumption. }
  split.
  { rewrite Hcols2, named_assign_eq, Hhdr2.
    destruct (has_label "date posted" (columns df1)) eqn:Hl; [reflexivity|].
    apply has_label_named in Hl. congruence. }
  (* the cells, row by row *)
  assert (Hrep : Forall (fun v => is_timestamp v = true) (repaired dvals cvals)).
  { unfold repaired. generalize (timedeltas (map (contains_cell "24:00") dvals)
                                   (timedelta_days 1)).
    clear. induction cvals as [|c cvals IH]; intros [|d ds]; simpl; constructor;
      [apply add_cell_timestamp | apply IH]. }
  assert (Hrows1' : Forall (fun r => exists a, cell_of "datetime" r = Some a /\
                                               is_timestamp a = true) (rows df1)).
  { rewrite Hrows1. clear - Hcells Hrep. revert Hrep.
    generalize (repaired dvals cvals). intros vs Hvs. revert vs Hvs.
    induction Hcells as [|r c rs cs Hc _ IH]; intros [|v vs] Hvs; simpl;
      constructor.
    - inversion Hvs; subst. exists v. split; [|assumption].
      apply cell_of_assign_present.
      rewrite cell_of_remove by (cbv; intuition discriminate). rewrite Hc. eauto.
    - apply IH. now inversion Hvs. }
  rewrite Hrows2. clear - Hcells2 Ha Hrows1'.
  revert vs Ha Hrows1'. induction Hcells2 as [|r c rs cs Hc _ IH];
    intros vs Ha Hrows1'; inversion Ha; subst; simpl; constructor.
  - inversion Hrows1' as [|? ? (a & Hda & Hta) _]; subst.
    exists a, y. split; [rewrite cell_of_assign_ne by discriminate; assumption|].
    split; [assumption|]. split.
    + apply cell_of_assign_present. rewrite Hc. eauto.
    + eapply to_datetime_cell_timestamp. eassumption.
  - apply IH; [assumption | now inversion Hrows1'].
Qed.

(** X7: the cleaning stage returns only on a frame whose trimmed header
    has each of the five labels it types exactly once, [datetime] being a
    text column: with one of them absent or repeated, or with a
    [datetime] column that is not text, the stage raises. *)
Theorem clean_file_needs_columns :
  forall (self : UfoSightings) (df out : DataFrame),
    _clean_file self df = Ok out ->
    named "datetime" (relabel strip (columns df)) = [DObject] /\
    forall n, In n typed_names ->
      List.length (named n (relabel strip (columns df))) = 1%nat.
Proof.
  unfold _clean_file. intros self df out H.
  inv_bind H. rename a into df1, Ha into H1.
  inv_bind H. rename a into dp, Ha into H2. apply on_frame_ok in H2.
  inv_bind H. rename a into dp', Ha into H3.
  inv_bind H. rename a into df2, Ha into H4.
  inv_bind H. rename a into df3, Ha into H5.
  inv_bind H. rename a into df4, Ha into H6.
  inv_bind H. rename a into df5, Ha into H7.
  destruct (timestamps_ok _ _ _ _ _ H1 H2 H3 H4) as (_ & Hnamed & _).
  destruct (timestamps_typed _ _ _ _ _ H1 H2 H3 H4) as (Hd & [dt Hp] & _).
  simpl in Hnamed, Hd, Hp.
  destruct (cast_float_col_header _ _ _ _ H5) as ([d3 Hn3] & _ & Ho3).
  destruct (cast_float_col_header _ _ _ _ H6) as ([d4 Hn4] & _ & Ho4).
  destruct (cast_float_col_header _ _ _ _ H7) as ([d5 Hn5] & _ & _).
  rewrite Hnamed in Hn3 by (cbv; intuition discriminate).
  rewrite Ho3, Hnamed in Hn4 by (cbv; intuition discriminate).
  rewrite Ho4, Ho3, Hnamed in Hn5 by (cbv; intuition discriminate).
  split; [assumption|]. intros n Hn. simpl in Hn.
  repeat (destruct Hn as [<-|Hn];
          [first [rewrite Hd | rewrite Hp | rewrite Hn3 | rewrite Hn4 | rewrite Hn5];
           reflexivity|]).
  contradiction.
Qed.

Lemma clean_file_needs_columns_witness :
  _clean_file ufo sample_abc = Ok sample_abc_cleaned /\
  named "datetime" (relabel strip (columns sample_abc)) = [DObject] /\
  forall n, In n typed_names ->
    List.length (named n (relabel strip (columns sample_abc))) = 1%nat.
Proof.
  assert (H : _clean_file ufo sample_abc = Ok sample_abc_cleaned)
    by (vm_compute; reflexivity).
  split; [exact H|].
  exact (clean_file_needs_columns ufo sample_abc sample_abc_cleaned H).
Defined.

(** X8: the frame the cleaning stage returns is typed: [datetime] and
    [date posted] are datetime columns whose cells are timestamps (or the
    missing timestamp), and the three numeric columns are float columns
    whose cells are floats. *)
Theorem clean_file_types :
  forall (self : UfoSightings) (df out : DataFrame),
    well_formed df = true ->
    _clean_file self df = Ok out ->
    named "datetime" (columns out) = [DDatetime] /\
    named "date posted" (columns out) = [DDatetime] /\
    (forall n, In n numeric_names -> named n (columns out) = [DFloat]) /\
    Forall (fun r =>
              (exists a b,
                  cell_of "datetime" r = Some a /\ is_timestamp a = true /\
                  cell_of "date posted" r = Some b /\ is_timestamp b = true) /\
              forall n, In n numeric_names -> exists x, cell_of n r = Some (VFloat x))
           (rows out).
Proof.
  intros self df out Hwf H.
  destruct (clean_file_ok self df out H (well_formed_typed df Hwf)) as [Hrel _].
  unfold _clean_file in H.
  inv_bind H. rename a into df1, Ha into H1.
  inv_bind H. rename a into dp, Ha into H2. apply on_frame_ok in H2.
  inv_bind H. rename a into dp', Ha into H3.
  inv_bind H. rename a into df2, Ha into H4.
  inv_bind H. rename a into df3, Ha into H5.
  inv_bind H. rename a into df4, Ha into H6.
  inv_bind H. rename a into df5, Ha into H7.
  injection H as <-.
  destruct (timestamps_typed _ _ _ _ _ H1 H2 H3 H4) as (_ & _ & Hd & Hp & Hcells).
  destruct (cast_float_col_header _ _ _ _ H5) as (_ & Hf3 & Ho3).
  destruct (cast_float_col_header _ _ _ _ H6) as (_ & Hf4 & Ho4).
  destruct (cast_float_col_header _ _ _ _ H7) as (_ & Hf5 & Ho5).
  pose proof (cast_float_col_rows_from _ _ _ _ H5) as Hr3.
  pose proof (cast_float_col_rows_from _ _ _ _ H6) as Hr4.
  pose proof (cast_float_col_rows_from _ _ _ _ H7) as Hr5.
  split; [now rewrite Ho5, Ho4, Ho3 by discriminate|].
  split; [now rewrite Ho5, Ho4, Ho3 by discriminate|].
  split.
  { intros n Hn. simpl in Hn. destruct Hn as [<-|[<-|[<-|[]]]].
    - now rewrite Ho5, Ho4 by discriminate.
    - now rewrite Ho5 by discriminate.
    - assumption. }
  rewrite List.Forall_forall in Hcells, Hr3, Hr4, Hr5.
  apply List.Forall_forall. intros r Hr. split.
  - destruct (Hr5 r Hr) as (r4 & Hin4 & H54).
    destruct (Hr4 r4 Hin4) as (r3 & Hin3 & H43).
    destruct (Hr3 r3 Hin3) as (r2 & Hin2 & H32).
    destruct (Hcells r2 Hin2) as (a & b & Ha & Hta & Hb & Htb).
    exists a, b.
    rewrite H54, H43, H32 by discriminate.
    rewrite H54, H43, H32 by discriminate. auto.
  - intros n Hn.
    destruct (Forall2_In_right _ _ _ _ Hrel Hr) as (r0 & _ & [Hnum _]).
    destruct (Hnum n Hn) as (c & x & _ & _ & Hx). eauto.
Qed.

Lemma clean_file_types_witness :
  well_formed sample_abc = true /\
  _clean_file ufo sample_abc = Ok sample_abc_cleaned /\
  named "datetime" (columns sample_abc_cleaned) = [DDatetime] /\
  named "date posted" (columns sample_abc_cleaned) = [DDatetime] /\
  (forall n, In n numeric_names -> named n (columns sample_abc_cleaned) = [DFloat]) /\
  Forall (fun r =>
            (exists a b,
                cell_of "datetime" r = Some a /\ is_timestamp a = true /\
                cell_of "date posted" r = Some b /\ is_timestamp b = true) /\
            forall n, In n numeric_names -> exists x, cell_of n r = Some (VFloat x))
         (rows sample_abc_cleaned).
Proof.
  split; [vm_compute; reflexivity|]. split; [vm_compute; reflexivity|].
  apply (clean_file_types ufo sample_abc sample_abc_cleaned); vm_compute; reflexivity.
Defined.

(** ** More on the ordering *)

Lemma cell_leb_text_total a b :
  is_text_or_missing a = true -> is_text_or_missing b = true ->
  cell_leb a b = true \/ cell_leb b a = true.
Proof.
  unfold cell_leb. destruct a as [x|x| |], b as [y|y| |]; simpl; try discriminate;
    intros Ha Hb; try rewrite Ha; try rewrite Hb; auto.
  apply String.leb_total.
Qed.

Section InsertionSort.

Context {A : Type} (key : A -> cell).

Let le (x y : A) : Prop := cell_leb (key x) (key y) = true.

Lemma insert_by_HdRel (x y : A) (l : list A) :
  HdRel le y l -> le y x -> HdRel le y (insert_by key x l).
Proof.
  intros Hl Hyx. destruct l as [|z l]; simpl; [now constructor|].
  destruct (cell_leb (key x) (key z)); constructor; [assumption|].
  now inversion Hl.
Qed.

Lemma insert_by_sorted (x : A) (l : list A) :
  (forall y, In y l -> le x y \/ le y x) ->
  Sorted le l -> Sorted le (insert_by key x l).
Proof.
  intros Htot Hs. induction Hs as [|y l Hs IH Hd]; simpl.
  - repeat constructor.
  - destruct (cell_leb (key x) (key y)) eqn:Hxy.
    + constructor; [now constructor | now constructor].
    + constructor.
      * apply IH. intros z Hz. apply Htot. now right.
      * apply insert_by_HdRel; [assumption|].
        destruct (Htot y (or_introl eq_refl)) as [H|H]; [|assumption].
        unfold le in H. congruence.
Qed.

Lemma sort_by_sorted (l : list A) :
  (forall x y, In x l -> In y l -> le x y \/ le y x) ->
  Sorted le (sort_by key l).
Proof.
  unfold sort_by. induction l as [|x l IH]; intros Htot; simpl; [constructor|].
  apply insert_by_sorted.
  - intros y Hy. apply Htot; [now left|]. right.
    eapply Permutation_in; [apply sort_by_perm | exact Hy].
  - apply IH. intros a b Ha Hb. apply Htot; now right.
Qed.

End InsertionSort.

Lemma sort_values_rows n df df' :
  sort_values n df = Ok df' ->
  exists s, get_item n df = Ok s /\ columns df' = columns df /\
            rows df' = map snd (sort_by fst (combine (values s) (rows df))).
Proof.
  unfold sort_values. intros H. inv_bind H. rename a into s.
  assert (Hs : get_item n df = Ok s).
  { destruct (get_item n df) as [s0|[]]; simpl in Ha; congruence. }
  destruct (comparable (values s)); [|discriminate].
  injection H as <-. eauto.
Qed.

Lemma text_le_cell_leb r1 r2 :
  is_text_or_missing (datetime_key r1) = true ->
  is_text_or_missing (datetime_key r2) = true ->
  cell_leb (datetime_key r1) (datetime_key r2) = true -> text_le r1 r2.
Proof.
  unfold text_le, cell_leb.
  destruct (datetime_key r1) as [x|x| |], (datetime_key r2) as [y|y| |]; simpl;
    try discriminate; intros Ha Hb; try rewrite Ha; try rewrite Hb; auto.
Qed.

(** Sorted pairs of key and row give rows sorted on their own key. *)
Lemma sorted_rows_of_pairs (l : list (cell * Row)) :
  Forall (fun p => datetime_key (snd p) = fst p /\ is_text_or_missing (fst p) = true) l ->
  Sorted (fun p q => cell_leb (fst p) (fst q) = true) l ->
  Sorted text_le (map snd l).
Proof.
  intros Hall Hs. induction Hs as [|p l Hs IH Hd]; simpl; [constructor|].
  inversion Hall as [|? ? [Hp Htp] Hrest]; subst.
  constructor; [now apply IH|].
  destruct l as [|q l]; simpl; constructor.
  inversion Hd; subst. inversion Hrest as [|? ? [Hq Htq] _]; subst.
  apply text_le_cell_leb; rewrite ?Hp, ?Hq; assumption.
Qed.

(** X9: [_transform_csv] returns the cleaned rows in the order of the
    characters of their [datetime] text as read (rows without a datetime
    last): its rows are the cleaned survivors of a rearrangement of the
    input that ascends in that text order. *)
Theorem transform_csv_orders_on_text :
  forall (self : UfoSightings) (df out : DataFrame),
    well_formed df = true ->
    text_keys df = true ->
    _transform_csv self df = Ok out ->
    exists srt,
      Permutation (rows df) srt /\
      Sorted text_le srt /\
      Forall2 cleaned (List.filter numeric_ok (map (relabel strip) srt)) (rows out).
Proof.
  intros self df out Hwf Htext H. unfold _transform_csv in H.
  inv_bind H. rename a into sorted, Ha into Hsort.
  pose proof (sort_values_ok _ _ _ Hsort) as [Hcols Hperm].
  destruct (sort_values_rows _ _ _ Hsort) as (s & Hs & _ & Hrows).
  exists (rows sorted). split; [assumption|]. split.
  - rewrite Hrows. apply get_item_ok in Hs as [_ Hcells].
    unfold text_keys in Htext. rewrite forallb_forall in Htext.
    assert (Hpairs : Forall (fun p => datetime_key (snd p) = fst p /\
                                      is_text_or_missing (fst p) = true)
                       (combine (values s) (rows df))).
    { clear - Hcells Htext. induction Hcells as [|r c rs cs Hc _ IH]; simpl;
        [constructor|].
      constructor.
      - simpl. assert (Hk : datetime_key r = c) by (unfold datetime_key; now rewrite Hc).
        split; [assumption|]. rewrite <- Hk. apply Htext. now left.
      - apply IH. intros x Hx. apply Htext. now right. }
    apply sorted_rows_of_pairs.
    + eapply Permutation_Forall; [|exact Hpairs]. symmetry. apply sort_by_perm.
    + apply sort_by_sorted. intros x y Hx Hy.
      rewrite List.Forall_forall in Hpairs.
      apply cell_leb_text_total; [apply (Hpairs x Hx) | apply (Hpairs y Hy)].
  - assert (Hwf' : well_formed sorted = true).
    { unfold well_formed in *. rewrite Hcols. rewrite forallb_forall in *.
      intros r Hr. apply Hwf. eapply Permutation_in; [symmetry; exact Hperm | exact Hr]. }
    apply (clean_file_ok self sorted out H (well_formed_typed sorted Hwf')).
Qed.

Lemma transform_csv_orders_on_text_witness :
  well_formed sample_three = true /\
  text_keys sample_three = true /\
  _transform_csv ufo sample_three = Ok sample_three_cleaned /\
  exists srt,
    Permutation (rows sample_three) srt /\
    Sorted text_le srt /\
    Forall2 cleaned (List.filter numeric_ok (map (relabel strip) srt))
      (rows sample_three_cleaned).
Proof.
  split; [vm_compute; reflexivity|]. split; [vm_compute; reflexivity|].
  split; [vm_compute; reflexivity|].
  apply (transform_csv_orders_on_text ufo sample_three sample_three_cleaned);
    vm_compute; reflexivity.
Defined.

(** ** The 24:00 flag on well-shaped texts *)

Lemma digit_not_colon c : is_digit c = true -> Ascii.eqb ":" c = false.
Proof.
  destruct c as [[] [] [] [] [] [] [] []]; simpl; try reflexivity; discriminate.
Qed.

(** Evaluate the comparisons of two literal characters. *)
Ltac eval_char_tests :=
  repeat match goal with
         | |- context [Ascii.eqb (Ascii ?a0 ?a1 ?a2 ?a3 ?a4 ?a5 ?a6 ?a7)
                                 (Ascii ?b0 ?b1 ?b2 ?b3 ?b4 ?b5 ?b6 ?b7)] =>
             let t := constr:(Ascii.eqb (Ascii a0 a1 a2 a3 a4 a5 a6 a7)
                                        (Ascii b0 b1 b2 b3 b4 b5 b6 b7)) in
             let v := eval vm_compute in t in
             change t with v
         end.

Lemma startswith_eqb p x :
  String.length x = String.length p -> startswith p x = String.eqb x p.
Proof.
  revert x. induction p as [|a p IH]; intros [|b x] H; simpl in *;
    try discriminate; [reflexivity|].
  rewrite (Ascii.eqb_sym a b). destruct (Ascii.eqb b a); [|reflexivity].
  apply IH. lia.
Qed.

(** X10: on a text of the shape MM/DD/YYYY HH:MM the test
    [contains('24:00')] holds exactly when the time of day is "24:00" (no
    date, such as 12/24/2000, can trigger it), and the replacement then
    gives the same date with the time "00:00". *)
Theorem flag_iff_time_is_2400 :
  forall s : string,
    mdY_HM_shape s = true ->
    contains "24:00" s = String.eqb (substring 11 5 s) "24:00" /\
    (contains "24:00" s = true ->
     replace "24:00" "00:00" s = String.append (substring 0 11 s) "00:00").
Proof.
  unfold mdY_HM_shape. intros s H.
  do 17 (destruct s as [|? s]; try discriminate H).
  cbn [list_ascii_of_string] in H.
  do 4 (apply andb_true_iff in H as [H ?]).
  repeat match goal with
         | E : Ascii.eqb _ _ = true |- _ => apply Ascii.eqb_eq in E; subst
         end.
  cbn [forallb] in H.
  do 12 (let Hd := fresh "Hd" in
         apply andb_true_iff in H as [Hd H]; apply digit_not_colon in Hd).
  match goal with
  | |- contains _ ?x = _ /\ _ =>
      assert (Hflag : contains "24:00" x = startswith "24:00" (substring 11 5 x))
  end.
  { cbn -[Ascii.eqb].
    rewrite ?Hd, ?Hd0, ?Hd1, ?Hd2, ?Hd3, ?Hd4, ?Hd5, ?Hd6, ?Hd7, ?Hd8, ?Hd9, ?Hd10.
    eval_char_tests. btauto. }
  split.
  - rewrite Hflag. apply startswith_eqb. reflexivity.
  - rewrite Hflag. cbn [substring]. intros Ht. unfold replace.
    cbn [replace_from String.length Nat.pred].
    repeat match goal with
           | |- context [startswith ?p ?x] =>
               let E := fresh "E" in
               assert (E : startswith p x = false)
                 by (cbn -[Ascii.eqb];
                     rewrite ?Hd, ?Hd0, ?Hd1, ?Hd2, ?Hd3, ?Hd4, ?Hd5, ?Hd6, ?Hd7,
                       ?Hd8, ?Hd9, ?Hd10;
                     eval_char_tests; btauto);
               rewrite E; clear E
           end.
    rewrite Ht. reflexivity.
Qed.

Lemma flag_iff_time_is_2400_witness :
  mdY_HM_shape "12/24/2000 24:00" = true /\
  contains "24:00" "12/24/2000 24:00"
  = String.eqb (substring 11 5 "12/24/2000 24:00") "24:00" /\
  (contains "24:00" "12/24/2000 24:00" = true ->
   replace "24:00" "00:00" "12/24/2000 24:00"
   = String.append (substring 0 11 "12/24/2000 24:00") "00:00").
Proof.
  split; [reflexivity|].
  apply (flag_iff_time_is_2400 "12/24/2000 24:00"). reflexivity.
Defined.

(** ** The header and the sort *)

(** X11: the sort looks up the label [datetime] before the header is
    trimmed: when no column of the file is called exactly [datetime] (for
    instance when the header writes it with a blank), the run logs
    [KeyError] and loads nothing, although the cleaning stage would have
    trimmed the label. *)
Theorem untrimmed_datetime_label_aborts :
  forall (read_csv : string -> result DataFrame)
         (accepts : list Column -> Row -> bool)
         (self : UfoSightings) (db : Database) (df : DataFrame),
    read_csv (_file_name self) = Ok df ->
    named "datetime" (columns df) = [] ->
    _transform_csv self df = Raise KeyError /\
    etl read_csv accepts self db = (db, Some KeyError).
Proof.
  intros read_csv accepts self db df Hread Hnone.
  assert (Ht : _transform_csv self df = Raise KeyError).
  { unfold _transform_csv, sort_values, get_item. now rewrite Hnone. }
  split; [exact Ht|].
  unfold etl, _extract_csv. rewrite Hread. cbn [bind]. now rewrite Ht.
Qed.

Lemma untrimmed_datetime_label_aborts_witness :
  named "datetime" (columns sample_blank_label) = [] /\
  is_ok (_clean_file ufo sample_blank_label) = true /\
  _transform_csv ufo sample_blank_label = Raise KeyError /\
  etl read_blank_label accept_all ufo ∅ = (∅, Some KeyError).
Proof.
  split; [reflexivity|]. split; [vm_compute; reflexivity|].
  apply (untrimmed_datetime_label_aborts read_blank_label accept_all ufo ∅
           sample_blank_label); reflexivity.
Defined.

(** ** One numeric block *)

Lemma mapM_total {A B : Type} (f : A -> result B) (l : list A) :
  Forall (fun a => exists b, f a = Ok b) l -> exists l', mapM f l = Ok l'.
Proof.
  induction 1 as [|a l [b Hb] _ [l' IH]]; simpl; [eauto|].
  rewrite Hb, IH. simpl. eauto.
Qed.

Lemma is_float_total self c :
  is_timestamp c = false -> exists b, _is_float self c = Ok b.
Proof.
  unfold _is_float. destruct c as [s|x|t|]; simpl; try discriminate; intros _.
  - destruct (of_string s); eauto.
  - eauto.
Qed.

(** X12: one column's block (the dtype test, the filter and the cast), on
    a column that is present once and holds text or floats.  On a frame
    with at least one row the block returns, even when no row survives
    its filter: every cell the filter keeps has passed [float], so the
    cast cannot raise.  On a frame without rows, unless the column is
    already of dtype float, the block raises [KeyError]: the next block
    after one that kept no row. *)
Theorem numeric_block_needs_a_row :
  forall (self : UfoSightings) (n : string) (df : DataFrame) (s : Series),
    get_item n df = Ok s ->
    Forall (fun c => is_timestamp c = false) (values s) ->
    (rows df <> [] -> exists df', cast_float_col self n df = Ok df') /\
    (rows df = [] -> s_dtype s <> DFloat ->
     cast_float_col self n df = Raise KeyError).
Proof.
  intros self n df s Hs Hcells.
  pose proof (get_item_ok _ _ _ Hs) as [Hhdr Hrows].
  unfold cast_float_col. rewrite Hs. cbn [bind].
  split; [intros Hne | intros Hnil Hdt].
  2:{ assert (Hv : values s = []) by (rewrite Hnil in Hrows; now inversion Hrows).
      destruct (dtype_eqb (s_dtype s) DFloat) eqn:Hd.
      - exfalso. apply Hdt. destruct (s_dtype s); simpl in Hd; congruence.
      - rewrite Hv. reflexivity. }
  destruct (dtype_eqb (s_dtype s) DFloat); cbn [negb]; [eauto|].
  (* the mask *)
  destruct (mapM_total (_is_float self) (values s)) as [mask Hmask].
  { eapply Forall_impl; [exact Hcells|]. simpl. intros c Hc.
    now apply is_float_total. }
  rewrite Hmask. cbn [bind].
  apply mapM_Forall2 in Hmask.
  assert (Hsel : Forall2 (fun r b => float_ok n r = b) (rows df) mask).
  { eapply Forall2_impl; [exact (Forall2_compose _ _ _ _ _ Hrows Hmask)|].
    simpl. intros r b (c & Hc & Hb). unfold float_ok. rewrite Hc.
    symmetry. eapply is_float_ok, Hb. }
  destruct mask as [|b mask].
  { inversion Hsel as [Hnil|]. congruence. }
  assert (Hsel' : select (b :: mask) df
                  = mkDataFrame (columns df) (List.filter (float_ok n) (rows df))).
  { unfold select. f_equal. now apply select_filter. }
  rewrite Hsel'. clear Hsel' Hsel Hmask.
  (* the cast: every row that is left has a cell that converts *)
  set (kept := List.filter (float_ok n) (rows df)).
  assert (Hkept : Forall (fun r => exists c x, cell_of n r = Some c /\ to_float c = Ok x)
                    kept).
  { apply List.Forall_forall. intros r Hr. apply filter_In in Hr as [_ Hok].
    unfold float_ok in Hok. destruct (cell_of n r) as [c|]; [|discriminate].
    destruct (to_float c) as [x|] eqn:Hx; [|discriminate].
    exists c, x. auto. }
  unfold astype_float, get_item. cbn [columns rows]. rewrite Hhdr.
  destruct (mapM_total (fun r => match cell_of n r with
                                 | Some c => Ok c
                                 | None => Raise KeyError
                                 end) kept) as [vs Hvs].
  { eapply Forall_impl; [exact Hkept|]. simpl. intros r (c & x & Hc & _).
    rewrite Hc. eauto. }
  rewrite Hvs. cbn [bind values].
  apply mapM_Forall2 in Hvs.
  destruct (mapM_total to_float vs) as [xs Hxs].
  { apply List.Forall_forall. intros c Hc.
    destruct (Forall2_In_right _ _ _ _ Hvs Hc) as (r & Hr & Hrc).
    rewrite List.Forall_forall in Hkept. destruct (Hkept r Hr) as (c' & x & Hc' & Hx).
    rewrite Hc' in Hrc. injection Hrc as <-. eauto. }
  rewrite Hxs. cbn [bind]. unfold set_item. cbn [values rows].
  apply mapM_length in Hxs. apply Forall2_length in Hvs.
  rewrite length_map, Hxs, <- Hvs, Nat.eqb_refl. eauto.
Qed.

Lemma numeric_block_needs_a_row_witness :
  rows sample_all_bad <> [] /\
  List.filter (float_ok "duration (seconds)") (rows sample_all_bad) = [] /\
  cast_float_col ufo "duration (seconds)" sample_all_bad = Ok sample_all_bad_filtered /\
  (exists df', cast_float_col ufo "duration (seconds)" sample_all_bad = Ok df') /\
  rows sample_all_bad_filtered = [] /\
  cast_float_col ufo "latitude" sample_all_bad_filtered = Raise KeyError.
Proof.
  split; [discriminate|]. split; [vm_compute; reflexivity|].
  split; [vm_compute; reflexivity|]. split; [|split; [reflexivity|]].
  - apply (numeric_block_needs_a_row ufo "duration (seconds)" sample_all_bad
             (mkSeries DObject [VStr "a while"; VStr "??"])).
    + vm_compute; reflexivity.
    + repeat constructor.
    + discriminate.
  - apply (numeric_block_needs_a_row ufo "latitude" sample_all_bad_filtered
             (mkSeries DObject [])).
    + vm_compute; reflexivity.
    + constructor.
    + reflexivity.
    + discriminate.
Defined.

Lemma etl_only_appends_witness :
  (exists extra,
      stored_rows "ufo" (fst (etl read_sample_abc accept_all ufo loaded_once))
      = stored_rows "ufo" loaded_once ++ extra) /\
  fst (etl read_sample_abc accept_all ufo loaded_once) !! "archive"
  = loaded_once !! "archive".
Proof.
  destruct (etl_only_appends read_sample_abc accept_all ufo loaded_once) as [Hrows Hother].
  split; [exact Hrows|]. apply Hother. discriminate.
Defined.
